(** * blood_organ: the matching and request-lifecycle handlers

    A shallow embedding of [controllers/matchController.js] and
    [controllers/requestController.js] (with the validators of
    [routes/requestRoutes.js] and [server/routes/matchRoutes.js]), and the
    properties of the compatibility table, the scoring function, the
    candidate search and the status-update handlers.

    Conventions of the embedding:
    - a Mongoose collection addressed by [_id] is a [gmap ObjectId _]; a
      collection that is scanned ([find], [findOne]) is a list in storage
      order;
    - a handler is a function from the request and the database to the new
      database and the HTTP response;
    - [Date.now()] and the [_id] given to a new document are inputs;
    - status, role and request-type values are JavaScript strings and stay
      strings; blood types are the eight-value enum of [models/Donor.js];
    - the mailer call of [confirmMatch] sits in its own try/catch and has no
      effect on the database or on the response; it is left out;
    - reads and writes of the database succeed: of the [catch] branches only
      the one a missing [donorProfile] reaches in [findPotentialMatches] is
      modelled. *)

From Stdlib Require Import ZArith QArith Qabs Lia Lqa.
From stdpp Require Import base strings list gmap.

Open Scope string_scope.
Open Scope Z_scope.

(** ** Data model *)

Definition ObjectId := N.

(** [enum: ['A+', 'A-', 'B+', 'B-', 'AB+', 'AB-', 'O+', 'O-']] *)
Inductive BloodType :=
| A_pos | A_neg | B_pos | B_neg | AB_pos | AB_neg | O_pos | O_neg.

#[global] Instance BloodType_eq_dec : EqDecision BloodType.
Proof. solve_decision. Defined.

Definition allBloodTypes : list BloodType :=
  [A_pos; A_neg; B_pos; B_neg; AB_pos; AB_neg; O_pos; O_neg].

(** A JavaScript number as far as the handlers use one: the result of
    [calculateDistance] is a finite double (a rational) or [NaN]. *)
Inductive number :=
| NaN
| Finite (q : Q).

(** [x < k] for an integer literal [k]; every comparison with [NaN] is
    false. *)
Definition number_lt (x : number) (k : Z) : bool :=
  match x with
  | NaN => false
  | Finite q => negb (Qle_bool (inject_Z k) q)
  end.

(** GeoJSON point: [coordinates] is [[longitude, latitude]]. *)
Record Location := mkLocation { coordinates : Q * Q }.

(** One element of a [statusHistory] array, as the handlers push it. *)
Record StatusEntry := mkStatusEntry {
  entry_status : string;
  entry_updatedBy : ObjectId;
  entry_notes : string
}.

Module Hospital.
Record t := mk {
  _id : ObjectId;
  user : ObjectId;
  location : option Location
}.
End Hospital.

(** [request.hospital] is the stored reference (an ObjectId, which has no
    [location] property) or, once populated, the hospital document. *)
Inductive HospitalField :=
| Ref (id : ObjectId)
| Populated (h : Hospital.t).

(** [request.hospital.toString()] is the id of a reference; the string of a
    populated document is not an id. *)
Definition hospital_toString (f : HospitalField) : option ObjectId :=
  match f with
  | Ref id => Some id
  | Populated _ => None
  end.

Module Request.
Record t := mk {
  hospital : HospitalField;
  requestType : string;
  bloodType : option BloodType;
  organType : option string;
  urgencyLevel : string;            (* recipientDetails.urgencyLevel *)
  status : string;
  statusHistory : list StatusEntry;
  matches : list ObjectId
}.

Definition set_status (s : string) (r : t) : t :=
  mk (hospital r) (requestType r) (bloodType r) (organType r)
     (urgencyLevel r) s (statusHistory r) (matches r).

Definition push_statusHistory (e : StatusEntry) (r : t) : t :=
  mk (hospital r) (requestType r) (bloodType r) (organType r)
     (urgencyLevel r) (status r) (statusHistory r ++ [e]) (matches r).

Definition set_matches (l : list ObjectId) (r : t) : t :=
  mk (hospital r) (requestType r) (bloodType r) (organType r)
     (urgencyLevel r) (status r) (statusHistory r) l.
End Request.

(** The donor document: [isAvailable] and [bloodType] are declared in
    [models/Donor.js]; the other fields are the ones [matchController.js]
    reads from [donorProfile]. *)
Module Donor.
Record t := mk {
  _id : ObjectId;
  user : ObjectId;
  bloodType : option BloodType;
  isAvailable : bool;
  availableForBloodDonation : bool;
  lastBloodDonationDate : option Z;   (* milliseconds since the epoch *)
  organDonor : bool;
  organsForDonation : list string;
  location : option Location;
  availability : option string
}.
End Donor.

Module User.
Record t := mk {
  _id : ObjectId;
  name : string;
  role : string;
  status : string;
  donorProfile : option Donor.t
}.
End User.

Record Outcome := mkOutcome {
  successful : bool;
  completedAt : Z;
  reportedBy : ObjectId;
  outcome_notes : string
}.

Module Match.
Record t := mk {
  request : ObjectId;
  donor : ObjectId;
  status : string;
  proposedBy : ObjectId;
  matchType : string;
  urgencyLevel : string;
  statusHistory : list StatusEntry;
  outcome : option Outcome
}.

Definition set_status (s : string) (m : t) : t :=
  mk (request m) (donor m) s (proposedBy m) (matchType m)
     (urgencyLevel m) (statusHistory m) (outcome m).

Definition push_statusHistory (e : StatusEntry) (m : t) : t :=
  mk (request m) (donor m) (status m) (proposedBy m) (matchType m)
     (urgencyLevel m) (statusHistory m ++ [e]) (outcome m).

Definition set_outcome (o : Outcome) (m : t) : t :=
  mk (request m) (donor m) (status m) (proposedBy m) (matchType m)
     (urgencyLevel m) (statusHistory m) (Some o).
End Match.

(** The database the handlers read and write. *)
Record DB := mkDB {
  requests : gmap ObjectId Request.t;
  matches : gmap ObjectId Match.t;
  hospitals : list Hospital.t;
  donors : list Donor.t;
  users : list User.t
}.

Definition set_requests (rs : gmap ObjectId Request.t) (db : DB) : DB :=
  mkDB rs (matches db) (hospitals db) (donors db) (users db).

Definition set_matches (ms : gmap ObjectId Match.t) (db : DB) : DB :=
  mkDB (requests db) ms (hospitals db) (donors db) (users db).

(** The Express request: the authenticated user, the route parameters and
    the body fields the handlers read. A missing [body.status] is the empty
    string (what the validator sees); a missing [body.notes] is [None]. *)
Record Req := mkReq {
  user_id : ObjectId;
  user_role : string;
  params_id : ObjectId;
  params_requestId : ObjectId;
  params_donorId : ObjectId;
  body_requestId : ObjectId;
  body_status : string;
  body_notes : option string;
  body_successful : bool
}.

(** What the handler cannot compute: the clock and the fresh [_id]. *)
Record Env := mkEnv {
  now : Z;
  newId : ObjectId
}.

(** One element of the array [findPotentialMatches] answers with. *)
Record Candidate := mkCandidate {
  donorId : ObjectId;
  cand_name : string;
  cand_bloodType : option BloodType;
  cand_location : option Location;
  matchScore : Z
}.

Inductive Body :=
| Errors (errors : list string)
| Msg (msg : string)
| RequestDoc (r : Request.t)
| MatchDoc (m : Match.t)
| Candidates (l : list Candidate).

Record Response := mkResponse {
  code : Z;
  body : Body
}.

(** [res.status(c).json({ msg })] and [res.json(x)] *)
Definition reply (c : Z) (m : string) : Response := mkResponse c (Msg m).
Definition json (b : Body) : Response := mkResponse 200 b.

(** ** Queries *)

(** [Hospital.findOne({ user: id })] *)
Definition Hospital_findOne (uid : ObjectId) (db : DB) : option Hospital.t :=
  List.find (fun h => bool_decide (Hospital.user h = uid)) (hospitals db).

(** [Donor.findOne({ user: id })] *)
Definition Donor_findOne (uid : ObjectId) (db : DB) : option Donor.t :=
  List.find (fun d => bool_decide (Donor.user d = uid)) (donors db).

(** [Donor.findById(id)] *)
Definition Donor_findById (id : ObjectId) (db : DB) : option Donor.t :=
  List.find (fun d => bool_decide (Donor._id d = id)) (donors db).

(** [Match.findOne({ request: r, donor: d })] *)
Definition Match_findOne (rid did : ObjectId) (db : DB)
  : option (ObjectId * Match.t) :=
  List.find
    (fun im => bool_decide (Match.request im.2 = rid)
               && bool_decide (Match.donor im.2 = did))
    (map_to_list (matches db)).

(** [Request.findByIdAndUpdate(id, { status: s })]: nothing happens when no
    document has that id. *)
Definition Request_findByIdAndUpdate_status
    (id : ObjectId) (s : string) (db : DB) : DB :=
  match requests db !! id with
  | Some r => set_requests (<[id := Request.set_status s r]> (requests db)) db
  | None => db
  end.

(** [hospital && hospital._id.toString() === request.hospital.toString()] *)
Definition owns (h : option Hospital.t) (r : Request.t) : bool :=
  match h with
  | Some h => bool_decide (Some (Hospital._id h) = hospital_toString (Request.hospital r))
  | None => false
  end.

(** ** Validators of the routes *)

(** [routes/requestRoutes.js]: [check('status').isIn([...])] *)
Definition requestStatusValues : list string :=
  ["pending"; "searching"; "matched"; "in_progress"; "completed"; "cancelled"].

(** [server/routes/matchRoutes.js]: [check('status').isIn([...])] *)
Definition matchStatusValues : list string :=
  ["proposed"; "pending_confirmation"; "confirmed"; "rejected";
   "in_transit"; "delivered"; "transplanted"; "failed"].

(** [validationResult(req)] for a route with one [isIn] check on
    [body.status]. *)
Definition validationResult (allowed : list string) (req : Req) : list string :=
  if bool_decide (body_status req ∈ allowed) then [] else ["Status is required"].

(** ** Compatibility and scoring ([matchController.js]) *)

(** [getCompatibleBloodTypes(requestedType)]: the donor types that may give
    to [requestedType]; [compatibility[undefined] || []] is the empty
    array. *)
Definition getCompatibleBloodTypes (requestedType : option BloodType)
  : list BloodType :=
  match requestedType with
  | Some A_pos => [A_pos; A_neg; O_pos; O_neg]
  | Some A_neg => [A_neg; O_neg]
  | Some B_pos => [B_pos; B_neg; O_pos; O_neg]
  | Some B_neg => [B_neg; O_neg]
  | Some AB_pos => [A_pos; A_neg; B_pos; B_neg; AB_pos; AB_neg; O_pos; O_neg]
  | Some AB_neg => [A_neg; B_neg; AB_neg; O_neg]
  | Some O_pos => [O_pos; O_neg]
  | Some O_neg => [O_neg]
  | None => []
  end.

(** [array.includes(x)] *)
Definition includes {A} `{EqDecision A} (l : list A) (x : A) : bool :=
  bool_decide (x ∈ l).

Section Scoring.
(** [calculateDistance(coord1, coord2)] is the haversine formula in
    double-precision floating point (sin, cos, atan2, sqrt); its value is
    taken as given. *)
Variable calculateDistance : Q * Q -> Q * Q -> number.

(** [calculateMatchScore(request, donorProfile)] *)
Definition calculateMatchScore (request : Request.t) (donorProfile : Donor.t)
  : Z :=
  let score := 0 in
  (* Blood type compatibility *)
  let score :=
    match Request.bloodType request, Donor.bloodType donorProfile with
    | Some _, Some donorType =>
        let compatibleTypes := getCompatibleBloodTypes (Request.bloodType request) in
        if includes compatibleTypes donorType then score + 40 else score
    | _, _ => score
    end in
  (* Location proximity (if coordinates available) *)
  let score :=
    match Request.hospital request with
    | Populated h =>
        match Hospital.location h, Donor.location donorProfile with
        | Some hl, Some dl =>
            let distance := calculateDistance (coordinates hl) (coordinates dl) in
            if number_lt distance 10 then score + 30
            else if number_lt distance 25 then score + 20
            else if number_lt distance 50 then score + 10
            else score
        | _, _ => score
        end
    | Ref _ => score
    end in
  (* Availability *)
  let score :=
    if bool_decide (Donor.availability donorProfile = Some "immediate")
    then score + 30
    else if bool_decide (Donor.availability donorProfile = Some "flexible")
    then score + 20
    else score + 10 in
  Z.min 100 score.

(** The query [matchCriteria] of [findPotentialMatches], as a predicate on
    the [donorProfile] of a user. [$in] and [$lt] match no document in
    which the field is missing; a scalar condition on an array field
    matches when the array holds the value. *)
Definition matchCriteria (now : Z) (request : Request.t)
    (profile : option Donor.t) : bool :=
  if bool_decide (Request.requestType request = "blood") then
    match profile with
    | Some p =>
        match Donor.bloodType p with
        | Some b => includes (getCompatibleBloodTypes (Request.bloodType request)) b
        | None => false
        end
        && Donor.availableForBloodDonation p
        && match Donor.lastBloodDonationDate p with
           | Some t => t <? now - 56 * 24 * 60 * 60 * 1000
           | None => false
           end
    | None => false
    end
  else if bool_decide (Request.requestType request = "organ") then
    match profile with
    | Some p =>
        Donor.organDonor p
        && match Request.organType request with
           | Some o => includes (Donor.organsForDonation p) o
           | None => false
           end
        && match Donor.bloodType p with
           | Some b => includes (getCompatibleBloodTypes (Request.bloodType request)) b
           | None => false
           end
    | None => false
    end
  else true.

(** [User.find({ role: 'donor', status: 'active', ...matchCriteria })] *)
Definition User_find (now : Z) (request : Request.t) (db : DB) : list User.t :=
  filter
    (fun u => User.role u = "donor"
              /\ User.status u = "active"
              /\ matchCriteria now request (User.donorProfile u) = true)
    (users db).

(** The callback of [donors.map(...)]; reading [donor.donorProfile.bloodType]
    throws when the user has no profile. *)
Definition toCandidate (request : Request.t) (donor : User.t)
  : option Candidate :=
  match User.donorProfile donor with
  | Some p =>
      Some (mkCandidate (User._id donor) (User.name donor) (Donor.bloodType p)
              (Donor.location p) (calculateMatchScore request p))
  | None => None
  end.

(** [findPotentialMatches]: [body.requestId] is an ObjectId, so the
    [isMongoId] check of the route holds. *)
Definition findPotentialMatches (env : Env) (req : Req) (db : DB)
  : DB * Response :=
  match requests db !! body_requestId req with
  | None => (db, reply 404 "Request not found")
  | Some request =>
      if bool_decide (user_role req = "hospital")
         && negb (owns (Hospital_findOne (user_id req) db) request)
      then (db, reply 403 "Not authorized to search matches for this request")
      else
        let donors := User_find (now env) request db in
        match mapM (toCandidate request) donors with
        | Some l => (db, json (Candidates l))
        | None => (db, reply 500 "Server error")
        end
  end.
End Scoring.

(** ** Match handlers ([matchController.js]) *)

(** [confirmMatch] *)
Definition confirmMatch (env : Env) (req : Req) (db : DB) : DB * Response :=
  match requests db !! params_requestId req with
  | None => (db, reply 404 "Request not found")
  | Some request =>
      match Donor_findById (params_donorId req) db with
      | None => (db, reply 404 "Donor not found")
      | Some donor =>
          if bool_decide (user_role req = "hospital")
             && negb (owns (Hospital_findOne (user_id req) db) request)
          then (db, reply 403 "Not authorized to confirm matches for this request")
          else
            match Match_findOne (params_requestId req) (Donor._id donor) db with
            | Some _ =>
                (db, reply 400 "Match already exists for this donor and request")
            | None =>
                let match_ :=
                  Match.mk (params_requestId req) (Donor._id donor) "proposed"
                    (user_id req) (Request.requestType request)
                    (Request.urgencyLevel request) [] None in
                let db := set_matches (<[newId env := match_]> (matches db)) db in
                let request :=
                  Request.set_matches (Request.matches request ++ [newId env])
                    (Request.set_status "matched" request) in
                let db :=
                  set_requests (<[params_requestId req := request]> (requests db)) db in
                (db, mkResponse 201 (MatchDoc match_))
            end
      end
  end.

(** The permission block of [updateMatchStatus]: [inl] is the early
    response, [inr] the value of [hasPermission]. *)
Definition updateMatchStatus_permission (req : Req) (match_ : Match.t) (db : DB)
  : Response + bool :=
  if includes ["admin"; "coordinator"] (user_role req) then inr true
  else if bool_decide (user_role req = "hospital") then
    match requests db !! Match.request match_ with
    | Some request => inr (owns (Hospital_findOne (user_id req) db) request)
    | None => inr false
    end
  else if bool_decide (user_role req = "donor") then
    match Donor_findOne (user_id req) db with
    | Some donor =>
        if bool_decide (Donor._id donor = Match.donor match_) then
          if negb (includes ["pending_confirmation"; "confirmed"; "rejected"]
                     (body_status req))
          then inl (reply 403 "Donors can only confirm or reject matches")
          else inr true
        else inr false
    | None => inr false
    end
  else inr false.

(** [updateMatchStatus] *)
Definition updateMatchStatus (req : Req) (db : DB) : DB * Response :=
  match validationResult matchStatusValues req with
  | (_ :: _) as errors => (db, mkResponse 400 (Errors errors))
  | [] =>
      match matches db !! params_id req with
      | None => (db, reply 404 "Match not found")
      | Some match_ =>
          match updateMatchStatus_permission req match_ db with
          | inl response => (db, response)
          | inr false => (db, reply 403 "Not authorized to update this match")
          | inr true =>
              let match_ :=
                Match.push_statusHistory
                  (mkStatusEntry (body_status req) (user_id req)
                     (default "" (body_notes req)))
                  (Match.set_status (body_status req) match_) in
              let db := set_matches (<[params_id req := match_]> (matches db)) db in
              (* If match is rejected, update request status back to searching *)
              let db :=
                if bool_decide (body_status req = "rejected")
                then Request_findByIdAndUpdate_status (Match.request match_)
                       "searching" db
                else db in
              (db, json (MatchDoc match_))
          end
      end
  end.

(** The permission block of [updateLogistics] and [reportOutcome]. *)
Definition hasPermission (req : Req) (match_ : Match.t) (db : DB) : bool :=
  if includes ["admin"; "coordinator"] (user_role req) then true
  else if bool_decide (user_role req = "hospital") then
    match requests db !! Match.request match_ with
    | Some request => owns (Hospital_findOne (user_id req) db) request
    | None => false
    end
  else false.

(** [reportOutcome]: [body.successful] is a JSON boolean and [body.notes],
    when present, a string, so the checks of the route hold. *)
Definition reportOutcome (env : Env) (req : Req) (db : DB) : DB * Response :=
  match matches db !! params_id req with
  | None => (db, reply 404 "Match not found")
  | Some match_ =>
      if negb (hasPermission req match_ db)
      then (db, reply 403 "Not authorized to report outcome for this match")
      else
        (* Update match with outcome *)
        let match_ :=
          Match.set_outcome
            (mkOutcome (body_successful req) (now env) (user_id req)
               (default "" (body_notes req)))
            match_ in
        (* Update match status based on outcome *)
        let match_ :=
          Match.set_status
            (if body_successful req then "completed" else "failed") match_ in
        let match_ :=
          Match.push_statusHistory
            (mkStatusEntry (Match.status match_) (user_id req)
               (default "" (body_notes req)))
            match_ in
        let db := set_matches (<[params_id req := match_]> (matches db)) db in
        (* Update request status *)
        let db :=
          match requests db !! Match.request match_ with
          | Some request =>
              let request :=
                Request.set_status
                  (if body_successful req then "fulfilled" else "searching")
                  request in
              set_requests (<[Match.request match_ := request]> (requests db)) db
          | None => db
          end in
        (db, json (MatchDoc match_))
  end.

(** ** Request handlers ([requestController.js]) *)

(** [updateRequestStatus] *)
Definition updateRequestStatus (req : Req) (db : DB) : DB * Response :=
  match validationResult requestStatusValues req with
  | (_ :: _) as errors => (db, mkResponse 400 (Errors errors))
  | [] =>
      match requests db !! params_id req with
      | None => (db, reply 404 "Request not found")
      | Some request =>
          if bool_decide (user_role req = "hospital")
             && negb (owns (Hospital_findOne (user_id req) db) request)
          then (db, reply 403 "Not authorized to update this request")
          else
            (* Update status and add status history *)
            let request :=
              Request.push_statusHistory
                (mkStatusEntry (body_status req) (user_id req)
                   (default "" (body_notes req)))
                (Request.set_status (body_status req) request) in
            let db := set_requests (<[params_id req := request]> (requests db)) db in
            (db, json (RequestDoc request))
      end
  end.

(** ** Request creation, edition and deletion ([requestController.js]) *)

(** The body of [createRequest], as far as it reaches a field of
    [Request.t]: [recipientDetails] is present ([Some], holding its
    [urgencyLevel]) or missing; [requiredBy] is a date or, when [None],
    missing or no ISO 8601 string. The other body fields ([bloodQuantity],
    [bloodComponent], [notes], [matchCriteria]) end in document fields that
    no handler here reads. *)
Record CreateRequestBody := mkCreateRequestBody {
  create_hospital : option ObjectId;
  create_requestType : string;
  create_bloodType : option BloodType;
  create_organType : option string;
  create_recipientDetails : option string;
  create_requiredBy : option Z
}.

(** [routes/requestRoutes.js], [router.post('/')]: the three checks, in
    order. *)
Definition createRequest_validationResult (b : CreateRequestBody)
  : list string :=
  (if includes ["blood"; "organ"] (create_requestType b)
   then [] else ["Request type is required"])
  ++ (if create_recipientDetails b is Some _
      then [] else ["Recipient details are required"])
  ++ (if create_requiredBy b is Some _
      then [] else ["Required by date is required"]).

(** [createRequest] *)
Definition createRequest (env : Env) (req : Req) (b : CreateRequestBody)
    (db : DB) : DB * Response :=
  match createRequest_validationResult b with
  | (_ :: _) as errors => (db, mkResponse 400 (Errors errors))
  | [] =>
      let hospitalId : Response + ObjectId :=
        (* If request is from hospital, use their hospital ID *)
        if bool_decide (user_role req = "hospital") then
          match Hospital_findOne (user_id req) db with
          | None => inl (reply 404 "Hospital profile not found")
          | Some hospital => inr (Hospital._id hospital)
          end
        else
          (* Admin or coordinator must provide hospital ID *)
          match create_hospital b with
          | None => inl (reply 400 "Hospital ID is required")
          | Some hospitalId => inr hospitalId
          end in
      match hospitalId with
      | inl response => (db, response)
      | inr hospitalId =>
          (* Add type-specific fields *)
          let bloodType :=
            if bool_decide (create_requestType b = "blood")
            then create_bloodType b else None in
          let organType :=
            if bool_decide (create_requestType b = "blood") then None
            else if bool_decide (create_requestType b = "organ")
            then create_organType b else None in
          let request :=
            Request.mk (Ref hospitalId) (create_requestType b) bloodType
              organType (default "" (create_recipientDetails b)) "pending"
              [] [] in
          (set_requests (<[newId env := request]> (requests db)) db,
           mkResponse 201 (RequestDoc request))
      end
  end.

(** The body of [updateRequest], as far as it reaches a field of
    [Request.t]: [recipientDetails] (an object, held as its [urgencyLevel])
    and [urgencyLevel] (a string, falsy when empty). *)
Record UpdateRequestBody := mkUpdateRequestBody {
  update_recipientDetails : option string;
  update_urgencyLevel : option string
}.

Definition set_urgencyLevel (u : string) (r : Request.t) : Request.t :=
  Request.mk (Request.hospital r) (Request.requestType r)
    (Request.bloodType r) (Request.organType r) u (Request.status r)
    (Request.statusHistory r) (Request.matches r).

(** [updateRequest]; its route carries no check, so [validationResult] is
    empty. *)
Definition updateRequest (req : Req) (b : UpdateRequestBody) (db : DB)
  : DB * Response :=
  match requests db !! params_id req with
  | None => (db, reply 404 "Request not found")
  | Some request =>
      if bool_decide (user_role req = "hospital")
         && negb (owns (Hospital_findOne (user_id req) db) request)
      then (db, reply 403 "Not authorized to update this request")
      else if includes ["fulfilled"; "cancelled"] (Request.status request)
      then (db, reply 400
                  "Cannot update request that is already fulfilled or cancelled")
      else
        let request :=
          match update_recipientDetails b with
          | Some u => set_urgencyLevel u request
          | None => request
          end in
        (* Update urgency level if provided *)
        let request :=
          match update_urgencyLevel b with
          | Some u =>
              if bool_decide (u = "") then request
              else set_urgencyLevel u request
          | None => request
          end in
        (set_requests (<[params_id req := request]> (requests db)) db,
         json (RequestDoc request))
  end.

(** [deleteRequest] *)
Definition deleteRequest (req : Req) (db : DB) : DB * Response :=
  match requests db !! params_id req with
  | None => (db, reply 404 "Request not found")
  | Some request =>
      if bool_decide (user_role req = "hospital")
         && negb (owns (Hospital_findOne (user_id req) db) request)
      then (db, reply 403 "Not authorized to delete this request")
      else
        (* Don't allow deletion if request has matches *)
        let hasMatches := bool_decide (0 < length (Request.matches request))%nat in
        if hasMatches
        then (db, reply 400 "Cannot delete request with existing matches")
        else (set_requests (delete (params_id req) (requests db)) db,
              json (Msg "Request removed"))
  end.

(** ** Logistics ([matchController.js], [updateLogistics])

    [Match.t] above holds the fields of a match document that the status
    handlers use. The [logistics] sub-document and the [lastUpdated] stamp
    of the same document are kept beside it, under the same [_id]. Values
    are stored as they are sent; the casts of the schema are not
    modelled. *)

(** A JSON value of the body; [JUndefined] stands for a missing field and
    [JObject] for an object or an array, held as its JSON text. *)
Inductive JSValue :=
| JUndefined
| JNull
| JBool (b : bool)
| JNumber (q : Q)
| JString (s : string)
| JObject (json : string).

(** [if (v)] *)
Definition truthy (v : JSValue) : bool :=
  match v with
  | JUndefined | JNull => false
  | JBool b => b
  | JNumber q => negb (Qeq_bool q 0)
  | JString s => negb (bool_decide (s = ""))
  | JObject _ => true
  end.

Record Logistics := mkLogistics {
  scheduledDate : JSValue;
  transportMethod : JSValue;
  transportDetails : JSValue;
  additionalInstructions : JSValue
}.

(** [{}] *)
Definition emptyLogistics : Logistics :=
  mkLogistics JUndefined JUndefined JUndefined JUndefined.

Record MatchStore := mkMatchStore {
  core : DB;
  logistics : gmap ObjectId Logistics;
  lastUpdated : gmap ObjectId Z
}.

(** The answer of [updateLogistics]: an error response, or the match with
    its logistics and stamp. *)
Inductive LogisticsAnswer :=
| Refused (response : Response)
| Updated (m : Match.t) (l : Logistics) (stamp : Z).

(** [if (field) logistics.field = field], for the four fields. *)
Definition assignLogistics (body l : Logistics) : Logistics :=
  let l :=
    if truthy (scheduledDate body)
    then mkLogistics (scheduledDate body) (transportMethod l)
           (transportDetails l) (additionalInstructions l)
    else l in
  let l :=
    if truthy (transportMethod body)
    then mkLogistics (scheduledDate l) (transportMethod body)
           (transportDetails l) (additionalInstructions l)
    else l in
  let l :=
    if truthy (transportDetails body)
    then mkLogistics (scheduledDate l) (transportMethod l)
           (transportDetails body) (additionalInstructions l)
    else l in
  if truthy (additionalInstructions body)
  then mkLogistics (scheduledDate l) (transportMethod l)
         (transportDetails l) (additionalInstructions body)
  else l.

(** [updateLogistics]; the body is the four fields it destructures. *)
Definition updateLogistics (env : Env) (req : Req) (body : Logistics)
    (s : MatchStore) : MatchStore * LogisticsAnswer :=
  match matches (core s) !! params_id req with
  | None => (s, Refused (reply 404 "Match not found"))
  | Some match_ =>
      if negb (hasPermission req match_ (core s))
      then (s, Refused
                 (reply 403 "Not authorized to update logistics for this match"))
      else
        (* const logistics = match.logistics || {} *)
        let l := default emptyLogistics (logistics s !! params_id req) in
        let l := assignLogistics body l in
        (mkMatchStore (core s)
           (<[params_id req := l]> (logistics s))
           (<[params_id req := now env]> (lastUpdated s)),
         Updated match_ l (now env))
  end.

(** The body that carries, field by field, the value of [later] when that
    is truthy and the value of [earlier] otherwise. *)
Definition mergeBodies (earlier later : Logistics) : Logistics :=
  mkLogistics
    (if truthy (scheduledDate later)
     then scheduledDate later else scheduledDate earlier)
    (if truthy (transportMethod later)
     then transportMethod later else transportMethod earlier)
    (if truthy (transportDetails later)
     then transportDetails later else transportDetails earlier)
    (if truthy (additionalInstructions later)
     then additionalInstructions later else additionalInstructions earlier).

(** ** The writing routes together

    One call of a handler that writes, and a sequence of such calls. *)
Inductive Call :=
| CreateRequest (env : Env) (req : Req) (b : CreateRequestBody)
| UpdateRequestStatus (req : Req)
| UpdateRequest (req : Req) (b : UpdateRequestBody)
| DeleteRequest (req : Req)
| ConfirmMatch (env : Env) (req : Req)
| UpdateMatchStatus (req : Req)
| ReportOutcome (env : Env) (req : Req).

Definition run (c : Call) (db : DB) : DB * Response :=
  match c with
  | CreateRequest env req b => createRequest env req b db
  | UpdateRequestStatus req => updateRequestStatus req db
  | UpdateRequest req b => updateRequest req b db
  | DeleteRequest req => deleteRequest req db
  | ConfirmMatch env req => confirmMatch env req db
  | UpdateMatchStatus req => updateMatchStatus req db
  | ReportOutcome env req => reportOutcome env req db
  end.

(** The [_id] of a new document is not in use in its collection. *)
Definition freshId (c : Call) (db : DB) : Prop :=
  match c with
  | CreateRequest env _ _ => requests db !! newId env = None
  | ConfirmMatch env _ => matches db !! newId env = None
  | _ => True
  end.

Fixpoint runAll (cs : list Call) (db : DB) : DB :=
  match cs with
  | [] => db
  | c :: cs => runAll cs (run c db).1
  end.

Fixpoint freshIds (cs : list Call) (db : DB) : Prop :=
  match cs with
  | [] => True
  | c :: cs => freshId c db /\ freshIds cs (run c db).1
  end.

(** Requests and matches refer to each other: every match belongs to a
    stored request that lists it, and every listed match is stored and
    belongs to the request that lists it. *)
Definition consistent (db : DB) : Prop :=
  (forall mid m,
      matches db !! mid = Some m ->
      exists r, requests db !! Match.request m = Some r
                /\ mid ∈ Request.matches r)
  /\ (forall rid r mid,
        requests db !! rid = Some r ->
        mid ∈ Request.matches r ->
        exists m, matches db !! mid = Some m /\ Match.request m = rid).

(** What a write may do to a stored request: the hospital, the type, the
    blood type, the organ type and the list of matches stay, and the status
    history is only ever extended at its end. *)
Definition sameRequest (r r' : Request.t) : Prop :=
  Request.hospital r' = Request.hospital r
  /\ Request.requestType r' = Request.requestType r
  /\ Request.bloodType r' = Request.bloodType r
  /\ Request.organType r' = Request.organType r
  /\ Request.matches r' = Request.matches r
  /\ Request.statusHistory r `prefix_of` Request.statusHistory r'.

(** The same for a stored match: request, donor, proposer, type and urgency
    stay, the status history is only ever extended at its end. *)
Definition sameMatch (m m' : Match.t) : Prop :=
  Match.request m' = Match.request m
  /\ Match.donor m' = Match.donor m
  /\ Match.proposedBy m' = Match.proposedBy m
  /\ Match.matchType m' = Match.matchType m
  /\ Match.urgencyLevel m' = Match.urgencyLevel m
  /\ Match.statusHistory m `prefix_of` Match.statusHistory m'.

(** The elementary writes the handlers are made of (deletion apart): a
    stored request or match is replaced by a later version of itself; a
    request without matches is stored under a new id; a match is stored
    under a new id and listed last by its request. *)
Inductive write : DB -> DB -> Prop :=
| write_request (db : DB) (rid : ObjectId) (r r' : Request.t) :
    requests db !! rid = Some r ->
    sameRequest r r' ->
    write db (set_requests (<[rid := r']> (requests db)) db)
| write_match (db : DB) (mid : ObjectId) (m m' : Match.t) :
    matches db !! mid = Some m ->
    sameMatch m m' ->
    write db (set_matches (<[mid := m']> (matches db)) db)
| write_new_request (db : DB) (rid : ObjectId) (r : Request.t) :
    requests db !! rid = None ->
    Request.matches r = [] ->
    write db (set_requests (<[rid := r]> (requests db)) db)
| write_new_match (db : DB) (rid mid : ObjectId) (r : Request.t) (m : Match.t) :
    requests db !! rid = Some r ->
    matches db !! mid = None ->
    Match.request m = rid ->
    write db
      (set_requests
         (<[rid := Request.set_matches (Request.matches r ++ [mid]) r]>
            (requests db))
         (set_matches (<[mid := m]> (matches db)) db)).

Definition isDelete (c : Call) : bool :=
  match c with
  | DeleteRequest _ => true
  | _ => false
  end.

(** Every match of [db] is still stored in [db'], as a later version of
    itself; likewise for requests. *)
Definition matchesKept (db db' : DB) : Prop :=
  forall mid m,
    matches db !! mid = Some m ->
    exists m', matches db' !! mid = Some m' /\ sameMatch m m'.

Definition requestsKept (db db' : DB) : Prop :=
  forall rid r,
    requests db !! rid = Some r ->
    exists r',
      requests db' !! rid = Some r'
      /\ Request.hospital r' = Request.hospital r
      /\ Request.requestType r' = Request.requestType r
      /\ Request.bloodType r' = Request.bloodType r
      /\ Request.organType r' = Request.organType r
      /\ Request.matches r `prefix_of` Request.matches r'
      /\ Request.statusHistory r `prefix_of` Request.statusHistory r'.

(** The status of a match agrees with its status history: when the history
    is not empty, its last entry carries the current status. *)
Definition matchCoherent (m : Match.t) : Prop :=
  forall e, last (Match.statusHistory m) = Some e ->
            entry_status e = Match.status m.

Definition isUpdateRequestStatus (c : Call) : bool :=
  match c with
  | UpdateRequestStatus _ => true
  | _ => false
  end.

(** ** Vocabulary for the properties of the compatibility table *)

(** [donor] may give to [recipient]: [donor] is in the array that
    [getCompatibleBloodTypes(recipient)] returns. *)
Definition canDonate (donor recipient : BloodType) : bool :=
  includes (getCompatibleBloodTypes (Some recipient)) donor.

Definition rhNegative (b : BloodType) : bool :=
  match b with
  | A_neg | B_neg | AB_neg | O_neg => true
  | _ => false
  end.

(** ** The specification's tables and graphs

    These follow the words of the specification, to be compared with the
    handlers above. *)

(** Glossary, compatibility table: donor type to the requester types it may
    give to. *)
Definition glossary_recipients (donor : BloodType) : list BloodType :=
  match donor with
  | O_neg => allBloodTypes
  | O_pos => [O_pos; A_pos; B_pos; AB_pos]
  | A_neg => [A_neg; A_pos; AB_neg; AB_pos]
  | A_pos => [A_pos; AB_pos]
  | B_neg => [B_neg; B_pos; AB_neg; AB_pos]
  | B_pos => [B_pos; AB_pos]
  | AB_neg => [AB_neg; AB_pos]
  | AB_pos => [AB_pos]
  end.

(** Request statuses with no outgoing transition. *)
Definition request_terminal (s : string) : bool :=
  includes ["completed"; "cancelled"] s.

(** The Request transition graph: pending, searching, matched, in_progress,
    completed along the happy path; cancelled from any non-terminal status;
    matched back to searching. *)
Definition request_edge (current target : string) : bool :=
  includes [("pending", "searching"); ("searching", "matched");
            ("matched", "in_progress"); ("in_progress", "completed");
            ("matched", "searching")] (current, target)
  || (includes requestStatusValues current
      && negb (request_terminal current)
      && bool_decide (target = "cancelled")).

(** Match statuses with no outgoing transition. *)
Definition match_terminal (s : string) : bool :=
  includes ["transplanted"; "rejected"; "failed"] s.

(** The Match transition graph: proposed, pending_confirmation, confirmed,
    in_transit, delivered, transplanted along the happy path; rejected from
    proposed or pending_confirmation; failed from any non-terminal status. *)
Definition match_edge (current target : string) : bool :=
  includes [("proposed", "pending_confirmation");
            ("pending_confirmation", "confirmed");
            ("confirmed", "in_transit"); ("in_transit", "delivered");
            ("delivered", "transplanted");
            ("proposed", "rejected"); ("pending_confirmation", "rejected")]
    (current, target)
  || (includes matchStatusValues current
      && negb (match_terminal current)
      && bool_decide (target = "failed")).

(** The three additive components of the score. *)
Definition compatibilityContribution (request : Request.t) (p : Donor.t) : Z :=
  match Request.bloodType request, Donor.bloodType p with
  | Some requested, Some donorType =>
      if includes (glossary_recipients donorType) requested then 40 else 0
  | _, _ => 0
  end.

(** The distance between the hospital of the request and the donor, when
    both have coordinates. *)
Definition distanceTo (calculateDistance : Q * Q -> Q * Q -> number)
    (request : Request.t) (p : Donor.t) : option number :=
  match Request.hospital request with
  | Populated h =>
      hl ← Hospital.location h;
      dl ← Donor.location p;
      Some (calculateDistance (coordinates hl) (coordinates dl))
  | Ref _ => None
  end.

(** Tiers: under 10 km, under 25 km, under 50 km, then nothing. *)
Definition distanceContribution (calculateDistance : Q * Q -> Q * Q -> number)
    (request : Request.t) (p : Donor.t) : Z :=
  match distanceTo calculateDistance request p with
  | Some (Finite d) =>
      if Qlt_le_dec d 10 then 30
      else if Qlt_le_dec d 25 then 20
      else if Qlt_le_dec d 50 then 10
      else 0
  | _ => 0
  end.

(** Availability classes: immediate above flexible above the rest. *)
Definition availabilityRank (p : Donor.t) : nat :=
  if decide (Donor.availability p = Some "immediate") then 2
  else if decide (Donor.availability p = Some "flexible") then 1
  else 0.

Definition availabilityContribution (p : Donor.t) : Z :=
  match availabilityRank p with
  | 2%nat => 30
  | 1%nat => 20
  | _ => 10
  end.

(** [d'] lies at or beyond a tier boundary that [d] is still under. *)
Definition crossesTier (d d' : Q) : Prop :=
  (d < 10 /\ 10 <= d')%Q \/ (d < 25 /\ 25 <= d')%Q \/ (d < 50 /\ 50 <= d')%Q.

(** Descending by score. *)
Definition sortedByScoreDesc (l : list Candidate) : Prop :=
  forall (i j : nat) ci cj,
    (i < j)%nat -> l !! i = Some ci -> l !! j = Some cj ->
    matchScore cj <= matchScore ci.

(** ** Concrete databases and requests used in the examples below *)

Module Fixture.
Definition day : Z := 24 * 60 * 60 * 1000.
Definition env0 : Env := mkEnv (1000 * day) 99%N.

(** An administrator acting on document 1 (request) or 5 (match). *)
Definition adminReq (id : ObjectId) (status : string) (ok : bool) : Req :=
  mkReq 7%N "admin" id 1%N 20%N 1%N status None ok.

Definition bloodRequest (b : BloodType) (status : string) : Request.t :=
  Request.mk (Ref 10%N) "blood" (Some b) None "urgent" status [] [].

Definition match0 (status : string) : Match.t :=
  Match.mk 1%N 20%N status 7%N "blood" "urgent" [] None.

Definition profile (id : ObjectId) (b : BloodType) (isAvailable : bool)
    (lastDonation : option Z) (loc : option Location)
    (availability : string) : Donor.t :=
  Donor.mk id (id + 100)%N (Some b) isAvailable true lastDonation false []
    loc (Some availability).

(** Donor A: O-, last donation on day 0 (1000 days before [env0]). *)
Definition donorA : Donor.t :=
  profile 20%N O_neg true (Some 0) None "immediate".

Definition donorUser (p : Donor.t) : User.t :=
  User.mk (Donor.user p) "donor" "donor" "active" (Some p).

Definition dbOf (r : Request.t) (ms : gmap ObjectId Match.t)
    (ds : list Donor.t) : DB :=
  mkDB {[ 1%N := r ]} ms [] ds (donorUser <$> ds).

(** A stand-in for the haversine distance: degrees of longitude apart at
    the equator, 111 km each. *)
Definition flatDistance (c1 c2 : Q * Q) : number :=
  Finite (Qabs (c2.1 - c1.1) * 111).

Definition at_km (km : Z) : option Location :=
  Some (mkLocation (inject_Z km / 111, 0)%Q).

Definition hospital0 : Hospital.t := Hospital.mk 10%N 100%N (at_km 0).

Definition populatedRequest (b : BloodType) : Request.t :=
  Request.mk (Populated hospital0) "blood" (Some b) None "urgent" "searching" [] [].

(** Request 1 asks for O- blood; its hospital is stored as a reference. *)
Definition searchReq : Req := adminReq 1%N "" false.

(** Donor B: as donor A, with flexible availability. *)
Definition donorB : Donor.t :=
  profile 24%N O_neg true (Some 0) None "flexible".

Definition dbTwoDonors : DB :=
  dbOf (bloodRequest O_neg "searching") ∅ [donorB; donorA].

(** A donor whose profile says [isAvailable: false]. *)
Definition donorUnavailable : Donor.t :=
  profile 25%N O_neg false (Some 0) None "immediate".

Definition dbUnavailable : DB :=
  dbOf (bloodRequest O_neg "searching") ∅ [donorUnavailable].

(** A donor who never gave blood. *)
Definition donorNever : Donor.t :=
  profile 26%N O_neg true None None "immediate".

Definition dbNever : DB :=
  dbOf (bloodRequest O_neg "searching") ∅ [donorNever; donorA].

(** Request 1 already completed; the administrator asks for pending. *)
Definition dbCompleted : DB := dbOf (bloodRequest O_neg "completed") ∅ [].

(** Match 5 already transplanted; the administrator asks for proposed. *)
Definition dbTransplanted : DB :=
  dbOf (bloodRequest O_neg "completed") {[ 5%N := match0 "transplanted" ]} [].

(** Match 5 proposed for a request that was cancelled meanwhile. *)
Definition dbCancelled : DB :=
  dbOf (bloodRequest O_neg "cancelled") {[ 5%N := match0 "proposed" ]} [].

(** Match 5 delivered, request 1 in progress. *)
Definition dbDelivered : DB :=
  dbOf (bloodRequest O_neg "in_progress") {[ 5%N := match0 "delivered" ]} [].

(** The only match of request 1 with donor 20 (donor A) was rejected. *)
Definition dbRejected : DB :=
  dbOf (bloodRequest O_neg "searching") {[ 5%N := match0 "rejected" ]} [donorA].

(** No match yet for request 1 and donor 20. *)
Definition dbNoMatch : DB :=
  dbOf (bloodRequest O_neg "searching") ∅ [donorA].

(** O- donors 5 km and 12 km from [hospital0]. *)
Definition donorNear : Donor.t :=
  profile 21%N O_neg true (Some 0) (at_km 5) "immediate".
Definition donorFar : Donor.t :=
  profile 22%N O_neg true (Some 0) (at_km 12) "immediate".
Definition donorNearFlexible : Donor.t :=
  profile 23%N O_neg true (Some 0) (at_km 5) "flexible".
End Fixture.

(** ** Further concrete data *)

Module Scenario.
(** An organ request without a blood type, and a kidney donor. *)
Definition organRequest : Request.t :=
  Request.mk (Ref 10%N) "organ" None (Some "kidney") "urgent" "searching" [] [].

Definition kidneyDonor : Donor.t :=
  Donor.mk 30%N 130%N (Some O_neg) true true (Some 0) true ["kidney"] None
    (Some "immediate").

Definition dbOrgan : DB := Fixture.dbOf organRequest ∅ [kidneyDonor].

(** A hospital user without a hospital profile. *)
Definition strangerReq : Req :=
  mkReq 8%N "hospital" 5%N 1%N 20%N 1%N "confirmed" None true.

(** Donor A (user 120) answers the proposed match 5. *)
Definition donorReq (status : string) : Req :=
  mkReq 120%N "donor" 5%N 1%N 20%N 1%N status None false.

Definition dbProposed : DB :=
  Fixture.dbOf (Fixture.bloodRequest O_neg "matched")
    {[ 5%N := Fixture.match0 "proposed" ]} [Fixture.donorA].

(** The hospital with id 10 (user 100) and databases that hold it. *)
Definition withHospital (db : DB) : DB :=
  mkDB (requests db) (matches db) [Fixture.hospital0] (donors db) (users db).

Definition hospitalReq (id : ObjectId) : Req :=
  mkReq 100%N "hospital" id 1%N 20%N 1%N "" None true.

Definition organBody : CreateRequestBody :=
  mkCreateRequestBody (Some 77%N) "organ" (Some O_neg) (Some "kidney")
    (Some "critical") (Some 2000).

Definition env1 : Env := mkEnv (1000 * Fixture.day) 2%N.

Definition urgencyBody : UpdateRequestBody :=
  mkUpdateRequestBody None (Some "emergency").

(** An administrator searching for the request stored under id 99. *)
Definition searchNew : Req :=
  mkReq 7%N "admin" 1%N 1%N 20%N 99%N "" None false.

(** A database without requests and matches, and one life of a request:
    filed for hospital 10, matched with donor A, closed by a successful
    outcome report, then edited and deleted in vain. *)
Definition dbEmpty : DB :=
  mkDB ∅ ∅ [Fixture.hospital0] [Fixture.donorA]
    [Fixture.donorUser Fixture.donorA].

Definition bloodBody : CreateRequestBody :=
  mkCreateRequestBody (Some 10%N) "blood" (Some O_neg) None (Some "urgent")
    (Some 2000).

Definition actOn (request match_ : ObjectId) (ok : bool) : Req :=
  mkReq 7%N "admin" match_ request 20%N request "" None ok.

Definition life : list Call :=
  [CreateRequest env1 (actOn 2%N 2%N true) bloodBody;
   ConfirmMatch Fixture.env0 (actOn 2%N 2%N true);
   ReportOutcome Fixture.env0 (actOn 2%N 99%N true);
   UpdateRequest (actOn 2%N 2%N true) urgencyBody;
   DeleteRequest (actOn 2%N 2%N true)].



(** Request 1 for O- blood of hospital 10, which lies at kilometre 0, and
    the O- donor of kilometre 5, immediately available, who last gave blood
    1000 days before [Fixture.env0]. *)
Definition dbNear : DB :=
  withHospital
    (Fixture.dbOf (Fixture.bloodRequest O_neg "searching") ∅
       [Fixture.donorNear]).

(** An administrator acting on request 1 and, for matches, on match 99. *)
Definition later : Req := mkReq 7%N "admin" 1%N 1%N 20%N 1%N "pending" None true.

(** The state after a match of request 1 with donor A was confirmed (the
    match gets id 99), and three further calls: the request is cancelled,
    its deletion is attempted, the match is rejected. *)
Definition confirmed : DB :=
  (confirmMatch Fixture.env0 (Fixture.adminReq 5%N "" false)
     Fixture.dbNoMatch).1.

Definition afterwards : list Call :=
  [UpdateRequestStatus (Fixture.adminReq 1%N "cancelled" false);
   DeleteRequest (Fixture.adminReq 1%N "" false);
   UpdateMatchStatus (Fixture.adminReq 99%N "rejected" false)].

(** The state after an organ request was filed under id 99, and two
    further calls on it: a status update and an edit of the urgency. *)
Definition filed : DB :=
  (createRequest Fixture.env0 (Fixture.adminReq 1%N "" false) organBody
     dbOrgan).1.

Definition handled : list Call :=
  [UpdateRequestStatus (Fixture.adminReq 99%N "searching" false);
   UpdateRequest (Fixture.adminReq 99%N "" false) urgencyBody].

(* scenario-definitions *)
End Scenario.

(** ** Compatibility *)

Lemma includes_true {A} `{EqDecision A} (l : list A) (x : A) :
  includes l x = true <-> x ∈ l.
Proof. unfold includes. apply bool_decide_eq_true. Qed.

Lemma includes_false {A} `{EqDecision A} (l : list A) (x : A) :
  includes l x = false <-> x ∉ l.
Proof. unfold includes. apply bool_decide_eq_false. Qed.

(** The table of [getCompatibleBloodTypes] is the Glossary table read the
    other way round, on all 64 pairs. *)
Lemma getCompatibleBloodTypes_glossary (requested donor : BloodType) :
  includes (getCompatibleBloodTypes (Some requested)) donor
  = includes (glossary_recipients donor) requested.
Proof. destruct requested, donor; reflexivity. Qed.

(** C3: for every requested blood type and every donor blood type, the donor
    type is among the compatible types of the requested type exactly when
    the Glossary table relates the donor type to the requested type; and the
    blood-request filter of the candidate search accepts a donor profile
    exactly when the table does and the two other conditions of the filter
    (available for blood donation, last donation more than 56 days ago)
    hold. *)
Theorem eligibility_agrees_with_glossary
    (requested donor : BloodType) (now : Z) (request : Request.t) (p : Donor.t) :
  Request.requestType request = "blood" ->
  Request.bloodType request = Some requested ->
  Donor.bloodType p = Some donor ->
  includes (getCompatibleBloodTypes (Some requested)) donor
  = includes (glossary_recipients donor) requested
  /\ matchCriteria now request (Some p)
     = includes (glossary_recipients donor) requested
       && Donor.availableForBloodDonation p
       && match Donor.lastBloodDonationDate p with
          | Some t => bool_decide (t < now - 56 * 24 * 60 * 60 * 1000)
          | None => false
          end.
Proof.
  intros Htype Hreq Hdonor. split.
  - apply getCompatibleBloodTypes_glossary.
  - unfold matchCriteria. rewrite Htype, Hreq, Hdonor.
    rewrite bool_decide_eq_true_2 by reflexivity.
    rewrite getCompatibleBloodTypes_glossary.
    destruct (Donor.lastBloodDonationDate p) as [t|]; [|reflexivity].
    do 2 f_equal.
    destruct (Z.ltb_spec t (now - 56 * 24 * 60 * 60 * 1000)) as [Hlt|Hge].
    + symmetry. apply bool_decide_eq_true_2. lia.
    + symmetry. apply bool_decide_eq_false_2. lia.
Qed.

Lemma eligibility_agrees_with_glossary_witness :
  includes (getCompatibleBloodTypes (Some AB_neg)) O_neg = true
  /\ matchCriteria (now Fixture.env0) (Fixture.bloodRequest AB_neg "searching")
       (Some Fixture.donorA) = true.
Proof.
  destruct (eligibility_agrees_with_glossary AB_neg O_neg (now Fixture.env0)
              (Fixture.bloodRequest AB_neg "searching") Fixture.donorA)
    as [H1 H2]; try reflexivity.
  split.
  - rewrite H1. reflexivity.
  - rewrite H2. reflexivity.
Defined.

(** ** Scoring *)

Lemma number_lt_Finite (q : Q) (k : Z) :
  number_lt (Finite q) k = true <-> (q < inject_Z k)%Q.
Proof.
  simpl. rewrite negb_true_iff. split.
  - intros H. apply Qnot_le_lt. intros Hle.
    apply Qle_bool_iff in Hle. congruence.
  - intros H. destruct (Qle_bool (inject_Z k) q) eqn:E; [|reflexivity].
    apply Qle_bool_iff in E. exfalso. exact (Qlt_not_le _ _ H E).
Qed.

Lemma number_lt_Finite_false (q : Q) (k : Z) :
  number_lt (Finite q) k = false <-> (inject_Z k <= q)%Q.
Proof.
  simpl. rewrite negb_false_iff. apply Qle_bool_iff.
Qed.

Lemma compatibilityContribution_range (request : Request.t) (p : Donor.t) :
  compatibilityContribution request p = 0
  \/ compatibilityContribution request p = 40.
Proof.
  unfold compatibilityContribution.
  destruct (Request.bloodType request), (Donor.bloodType p); auto.
  destruct (includes _ _); auto.
Qed.

Lemma availabilityContribution_rank (p : Donor.t) :
  availabilityContribution p = 10 + 10 * Z.of_nat (availabilityRank p).
Proof.
  unfold availabilityContribution, availabilityRank.
  repeat case_decide; reflexivity.
Qed.

Lemma availabilityRank_le (p : Donor.t) : (availabilityRank p <= 2)%nat.
Proof. unfold availabilityRank. repeat case_decide; lia. Qed.

Section ScoringProperties.
Variable calculateDistance : Q * Q -> Q * Q -> number.

Local Abbreviation score := (calculateMatchScore calculateDistance).
Local Abbreviation distance := (distanceTo calculateDistance).
Local Abbreviation distancePoints := (distanceContribution calculateDistance).

Lemma distanceContribution_range (request : Request.t) (p : Donor.t) :
  0 <= distancePoints request p <= 30.
Proof.
  unfold distanceContribution.
  destruct (distance request p) as [[|d]|]; try lia.
  repeat destruct (Qlt_le_dec _ _); lia.
Qed.

(** The points of a finite distance, by tier. *)
Lemma distanceContribution_tiers (request : Request.t) (p : Donor.t) (d : Q) :
  distance request p = Some (Finite d) ->
  ((d < 10)%Q /\ distancePoints request p = 30)
  \/ ((10 <= d)%Q /\ (d < 25)%Q /\ distancePoints request p = 20)
  \/ ((25 <= d)%Q /\ (d < 50)%Q /\ distancePoints request p = 10)
  \/ ((50 <= d)%Q /\ distancePoints request p = 0).
Proof.
  intros Hd. unfold distanceContribution. rewrite Hd.
  repeat destruct (Qlt_le_dec _ _); auto 10.
Qed.

(** The score the handler accumulates is the sum of the three
    components. *)
Lemma calculateMatchScore_sum (request : Request.t) (p : Donor.t) :
  score request p
  = compatibilityContribution request p + distancePoints request p
    + availabilityContribution p.
Proof.
  assert (Hsum : forall a b c : Z,
             (a = 0 \/ a = 40) -> 0 <= b <= 30 -> 10 <= c <= 30 ->
             Z.min 100 (a + b + c) = a + b + c) by (intros; lia).
  pose proof (compatibilityContribution_range request p) as Hc.
  pose proof (distanceContribution_range request p) as Hd.
  pose proof (availabilityContribution_rank p) as Ha.
  pose proof (availabilityRank_le p) as Hr.
  rewrite <- Hsum by (auto; lia). clear Hc Hd Ha Hr Hsum.
  unfold calculateMatchScore. f_equal.
  assert (Hcompat :
    match Request.bloodType request, Donor.bloodType p with
    | Some _, Some donorType =>
        if includes (getCompatibleBloodTypes (Request.bloodType request)) donorType
        then 0 + 40 else 0
    | _, _ => 0
    end = compatibilityContribution request p).
  { unfold compatibilityContribution.
    destruct (Request.bloodType request) as [r|], (Donor.bloodType p) as [b|];
      try reflexivity.
    rewrite getCompatibleBloodTypes_glossary.
    destruct (includes _ _); reflexivity. }
  rewrite Hcompat. clear Hcompat.
  generalize (compatibilityContribution request p). intros c.
  assert (Hdist :
    match Request.hospital request with
    | Populated h =>
        match Hospital.location h, Donor.location p with
        | Some hl, Some dl =>
            if number_lt (calculateDistance (coordinates hl) (coordinates dl)) 10
            then c + 30
            else if number_lt (calculateDistance (coordinates hl) (coordinates dl)) 25
            then c + 20
            else if number_lt (calculateDistance (coordinates hl) (coordinates dl)) 50
            then c + 10
            else c
        | _, _ => c
        end
    | Ref _ => c
    end = c + distancePoints request p).
  { unfold distanceContribution, distanceTo.
    destruct (Request.hospital request) as [|h]; [lia|].
    destruct (Hospital.location h) as [hl|]; simpl; [|lia].
    destruct (Donor.location p) as [dl|]; simpl; [|lia].
    destruct (calculateDistance (coordinates hl) (coordinates dl)) as [|d];
      [simpl; lia|].
    destruct (Qlt_le_dec d 10) as [H10|H10].
    { apply (number_lt_Finite d 10) in H10. rewrite H10. reflexivity. }
    apply (number_lt_Finite_false d 10) in H10. rewrite H10.
    destruct (Qlt_le_dec d 25) as [H25|H25].
    { apply (number_lt_Finite d 25) in H25. rewrite H25. reflexivity. }
    apply (number_lt_Finite_false d 25) in H25. rewrite H25.
    destruct (Qlt_le_dec d 50) as [H50|H50].
    { apply (number_lt_Finite d 50) in H50. rewrite H50. reflexivity. }
    apply (number_lt_Finite_false d 50) in H50. rewrite H50. lia. }
  rewrite Hdist. clear Hdist.
  unfold availabilityContribution, availabilityRank.
  destruct (decide (Donor.availability p = Some "immediate")) as [Hi|Hi].
  { rewrite bool_decide_eq_true_2 by assumption. lia. }
  rewrite bool_decide_eq_false_2 by assumption.
  destruct (decide (Donor.availability p = Some "flexible")) as [Hf|Hf].
  { rewrite bool_decide_eq_true_2 by assumption. lia. }
  rewrite bool_decide_eq_false_2 by assumption. lia.
Qed.

Lemma crossesTier_points (request : Request.t) (p q : Donor.t) (d d' : Q) :
  distance request p = Some (Finite d) ->
  distance request q = Some (Finite d') ->
  crossesTier d d' ->
  distancePoints request q < distancePoints request p.
Proof.
  intros Hp Hq Hcross.
  destruct (distanceContribution_tiers request p d Hp)
    as [[? ->]|[(? & ? & ->)|[(? & ? & ->)|[? ->]]]];
  destruct (distanceContribution_tiers request q d' Hq)
    as [[? ->]|[(? & ? & ->)|[(? & ? & ->)|[? ->]]]];
  try lia;
  exfalso; unfold crossesTier in Hcross; lra.
Qed.
End ScoringProperties.

(** The score as a function of the request object it is given, for a
    request whose hospital may be a populated document: for every request
    and donor profile the match score is an integer
    between 0 and 100, the sum (clamped to 100) of a compatibility
    contribution (40 for a compatible donor type), a distance contribution
    and an availability contribution; with blood type and availability held
    fixed the score strictly decreases when the distance crosses 10 km,
    25 km or 50 km, the distance contribution is zero from 50 km on;
    with blood type and location held fixed the score is strictly higher for
    immediate than for flexible than for any other availability; and a
    compatible donor under 10 km with immediate availability scores exactly
    100. The haversine distance itself is whatever [calculateDistance]
    returns. *)
Theorem calculateMatchScore_spec
    (calculateDistance : Q * Q -> Q * Q -> number)
    (request : Request.t) (p : Donor.t) :
  0 <= calculateMatchScore calculateDistance request p <= 100
  /\ calculateMatchScore calculateDistance request p
     = Z.min 100 (compatibilityContribution request p
                  + distanceContribution calculateDistance request p
                  + availabilityContribution p)
  /\ (forall requested donorType,
        Request.bloodType request = Some requested ->
        Donor.bloodType p = Some donorType ->
        requested ∈ glossary_recipients donorType ->
        compatibilityContribution request p = 40)
  /\ (forall (q : Donor.t) (d d' : Q),
        Donor.bloodType q = Donor.bloodType p ->
        Donor.availability q = Donor.availability p ->
        distanceTo calculateDistance request p = Some (Finite d) ->
        distanceTo calculateDistance request q = Some (Finite d') ->
        crossesTier d d' ->
        calculateMatchScore calculateDistance request q
        < calculateMatchScore calculateDistance request p)
  /\ (forall d : Q,
        distanceTo calculateDistance request p = Some (Finite d) ->
        (50 <= d)%Q ->
        distanceContribution calculateDistance request p = 0)
  /\ (forall q : Donor.t,
        Donor.bloodType q = Donor.bloodType p ->
        Donor.location q = Donor.location p ->
        (availabilityRank q < availabilityRank p)%nat ->
        calculateMatchScore calculateDistance request q
        < calculateMatchScore calculateDistance request p)
  /\ (forall d : Q,
        compatibilityContribution request p = 40 ->
        distanceTo calculateDistance request p = Some (Finite d) ->
        (d < 10)%Q ->
        Donor.availability p = Some "immediate" ->
        calculateMatchScore calculateDistance request p = 100).
Proof.
  pose proof (compatibilityContribution_range request p) as Hc.
  pose proof (distanceContribution_range calculateDistance request p) as Hd.
  pose proof (availabilityContribution_rank p) as Ha.
  pose proof (availabilityRank_le p) as Hr.
  rewrite !calculateMatchScore_sum.
  split; [lia|]. split; [lia|]. split; [|split; [|split; [|split]]].
  - intros requested donorType Hreq Hdon Hin.
    unfold compatibilityContribution. rewrite Hreq, Hdon.
    apply includes_true in Hin. rewrite Hin. reflexivity.
  - intros q d d' Hb Hav Hdp Hdq Hcross.
    rewrite calculateMatchScore_sum.
    pose proof (crossesTier_points calculateDistance request p q d d'
                  Hdp Hdq Hcross) as Hlt.
    unfold compatibilityContribution, availabilityContribution, availabilityRank.
    rewrite Hb, Hav. lia.
  - intros d Hdp Hge.
    destruct (distanceContribution_tiers calculateDistance request p d Hdp)
      as [[? ?]|[(? & ? & ?)|[(? & ? & ?)|[? ?]]]]; try assumption;
      exfalso; lra.
  - intros q Hb Hloc Hrank.
    rewrite calculateMatchScore_sum.
    rewrite (availabilityContribution_rank q).
    unfold compatibilityContribution, distanceContribution, distanceTo.
    rewrite Hb, Hloc. lia.
  - intros d Hcompat Hdp Hlt Himm.
    destruct (distanceContribution_tiers calculateDistance request p d Hdp)
      as [[? Hpts]|[(? & ? & ?)|[(? & ? & ?)|[? ?]]]]; try (exfalso; lra).
    rewrite Hcompat, Hpts.
    unfold availabilityContribution, availabilityRank.
    rewrite decide_True by assumption. reflexivity.
Qed.

Lemma calculateMatchScore_spec_witness :
  calculateMatchScore Fixture.flatDistance (Fixture.populatedRequest O_neg)
    Fixture.donorNear = 100
  /\ calculateMatchScore Fixture.flatDistance (Fixture.populatedRequest O_neg)
       Fixture.donorFar
     < calculateMatchScore Fixture.flatDistance (Fixture.populatedRequest O_neg)
         Fixture.donorNear
  /\ calculateMatchScore Fixture.flatDistance (Fixture.populatedRequest O_neg)
       Fixture.donorNearFlexible
     < calculateMatchScore Fixture.flatDistance (Fixture.populatedRequest O_neg)
         Fixture.donorNear.
Proof.
  destruct (calculateMatchScore_spec Fixture.flatDistance
              (Fixture.populatedRequest O_neg) Fixture.donorNear)
    as (_ & _ & Hcompat & Htier & _ & Havail & H100).
  split; [|split].
  - refine (H100 _ _ eq_refl _ eq_refl).
    + apply (Hcompat O_neg O_neg); [reflexivity|reflexivity|].
      apply includes_true. reflexivity.
    + vm_compute. reflexivity.
  - refine (Htier Fixture.donorFar _ _ eq_refl eq_refl eq_refl eq_refl _).
    left. split; vm_compute; [reflexivity|discriminate].
  - apply (Havail Fixture.donorNearFlexible); [reflexivity|reflexivity|].
    vm_compute. lia.
Defined.

(** C4, the code at the failing input: the search for request 1 (O- blood,
    hospital 10 with coordinates on file) over a population holding one
    compatible O- donor, 5 km from the hospital and immediately available.
    The request is scored as it is loaded, with its hospital a reference,
    so the distance is never computed, whatever [calculateDistance] is: the
    candidate is returned with score 70, not 100. *)
Theorem findPotentialMatches_near_donor_scores_70
    (calculateDistance : Q * Q -> Q * Q -> number) :
  requests Scenario.dbNear !! 1%N = Some (Fixture.bloodRequest O_neg "searching")
  /\ Request.hospital (Fixture.bloodRequest O_neg "searching") = Ref 10%N
  /\ hospitals Scenario.dbNear = [Fixture.hospital0]
  /\ Hospital._id Fixture.hospital0 = 10%N
  /\ Hospital.location Fixture.hospital0 = Fixture.at_km 0
  /\ Donor.location Fixture.donorNear = Fixture.at_km 5
  /\ Donor.availability Fixture.donorNear = Some "immediate"
  /\ includes (getCompatibleBloodTypes (Some O_neg)) O_neg = true
  /\ exists c,
       findPotentialMatches calculateDistance Fixture.env0 Fixture.searchReq
         Scenario.dbNear
       = (Scenario.dbNear, json (Candidates [c]))
       /\ donorId c = User._id (Fixture.donorUser Fixture.donorNear)
       /\ cand_location c = Fixture.at_km 5
       /\ matchScore c = 70.
Proof.
  repeat (split; [reflexivity|]).
  eexists. split; [vm_compute; reflexivity|].
  repeat split; reflexivity.
Qed.

(** ** Candidate search *)

Lemma elem_of_User_find (now : Z) (request : Request.t) (db : DB) (u : User.t) :
  u ∈ User_find now request db
  <-> u ∈ users db
      /\ User.role u = "donor"
      /\ User.status u = "active"
      /\ matchCriteria now request (User.donorProfile u) = true.
Proof. unfold User_find. rewrite list_elem_of_filter. tauto. Qed.

(** A blood or organ query selects only users that have a profile. *)
Lemma matchCriteria_profile (now : Z) (request : Request.t) (o : option Donor.t) :
  Request.requestType request = "blood"
  \/ Request.requestType request = "organ" ->
  matchCriteria now request o = true ->
  is_Some o.
Proof.
  intros Htype. unfold matchCriteria.
  destruct o as [p|]; [eauto|].
  destruct Htype as [-> | ->]; simpl; discriminate.
Qed.

(** What the blood query demands of the selected profile. *)
Lemma matchCriteria_blood (now : Z) (request : Request.t) (p : Donor.t) :
  Request.requestType request = "blood" ->
  matchCriteria now request (Some p) = true ->
  Donor.availableForBloodDonation p = true
  /\ exists t, Donor.lastBloodDonationDate p = Some t
               /\ t < now - 56 * 24 * 60 * 60 * 1000.
Proof.
  intros Htype. unfold matchCriteria. rewrite Htype. simpl.
  rewrite !andb_true_iff. intros [[_ Hav] Hdate]. split; [assumption|].
  destruct (Donor.lastBloodDonationDate p) as [t|]; [|discriminate].
  exists t. split; [reflexivity|].
  apply Z.ltb_lt in Hdate. lia.
Qed.

(** What the organ query demands of the selected profile. *)
Lemma matchCriteria_organ (now : Z) (request : Request.t) (p : Donor.t) :
  Request.requestType request = "organ" ->
  matchCriteria now request (Some p) = true ->
  Donor.organDonor p = true.
Proof.
  intros Htype. unfold matchCriteria. rewrite Htype. simpl.
  rewrite !andb_true_iff. tauto.
Qed.

Section CandidateSearch.
Variable calculateDistance : Q * Q -> Q * Q -> number.

(** The handler answers a blood or organ request it may search for with
    the selected users, one candidate each, in the same order. *)
Lemma findPotentialMatches_candidates
    (env : Env) (req : Req) (db : DB) (request : Request.t) :
  requests db !! body_requestId req = Some request ->
  (user_role req = "hospital" ->
   owns (Hospital_findOne (user_id req) db) request = true) ->
  Request.requestType request = "blood"
  \/ Request.requestType request = "organ" ->
  exists l,
    findPotentialMatches calculateDistance env req db
    = (db, json (Candidates l))
    /\ Forall2 (fun u c => toCandidate calculateDistance request u = Some c)
         (User_find (now env) request db) l.
Proof.
  intros Hreq Hperm Htype. unfold findPotentialMatches. rewrite Hreq.
  assert (Hguard : bool_decide (user_role req = "hospital")
                   && negb (owns (Hospital_findOne (user_id req) db) request)
                   = false).
  { destruct (decide (user_role req = "hospital")) as [Hh|Hh].
    - rewrite (Hperm Hh). apply andb_false_r.
    - rewrite bool_decide_eq_false_2 by assumption. reflexivity. }
  rewrite Hguard.
  destruct (mapM (toCandidate calculateDistance request)
              (User_find (now env) request db)) as [l|] eqn:Hmap.
  - exists l. split; [reflexivity|]. apply mapM_Some. assumption.
  - exfalso.
    assert (Hsome : is_Some (mapM (toCandidate calculateDistance request)
                               (User_find (now env) request db))).
    { apply mapM_is_Some. apply Forall_forall. intros u Hu.
      apply elem_of_User_find in Hu as (_ & _ & _ & Hcrit).
      apply (matchCriteria_profile _ _ _ Htype) in Hcrit as [p Hp].
      unfold compose, toCandidate. rewrite Hp. eauto. }
    rewrite Hmap in Hsome. destruct Hsome as [? ?]. discriminate.
Qed.

Lemma toCandidate_Some (request : Request.t) (u : User.t) (c : Candidate) :
  toCandidate calculateDistance request u = Some c ->
  exists p, User.donorProfile u = Some p
            /\ donorId c = User._id u
            /\ matchScore c = calculateMatchScore calculateDistance request p.
Proof.
  unfold toCandidate. destruct (User.donorProfile u) as [p|]; [|discriminate].
  intros [= <-]. exists p. auto.
Qed.

(** Every candidate of the answer comes from a selected user. *)
Lemma Forall2_candidate_user (request : Request.t)
    (us : list User.t) (l : list Candidate) (c : Candidate) :
  Forall2 (fun u c => toCandidate calculateDistance request u = Some c) us l ->
  c ∈ l ->
  exists u, u ∈ us /\ toCandidate calculateDistance request u = Some c.
Proof.
  intros HF Hc. apply list_elem_of_lookup in Hc as [i Hi].
  destruct (Forall2_lookup_r _ _ _ _ _ HF Hi) as (u & Hu & Hto).
  exists u. split; [|assumption]. apply list_elem_of_lookup. eauto.
Qed.
End CandidateSearch.

(** C5, as stated, fails: with donor B (score 60) stored before donor A
    (score 70) the answer lists B before A. *)
Lemma findPotentialMatches_not_sorted :
  exists l,
    findPotentialMatches Fixture.flatDistance Fixture.env0 Fixture.searchReq
      Fixture.dbTwoDonors
    = (Fixture.dbTwoDonors, json (Candidates l))
    /\ matchScore <$> l = [60; 70]
    /\ ~ sortedByScoreDesc l.
Proof.
  eexists. split; [vm_compute; reflexivity|]. split; [reflexivity|].
  intros Hsorted.
  pose proof (Hsorted 0%nat 1%nat _ _ ltac:(lia) eq_refl eq_refl) as H.
  vm_compute in H. apply H. reflexivity.
Qed.

(** C5, amended: for every blood or organ request and every donor
    population the candidate search answers, without sorting, with one
    candidate per eligible donor, in the order in which the population
    stores the donors, each with its score; when no donor is eligible the
    answer is the empty sequence, not an error. *)
Theorem findPotentialMatches_storage_order
    (calculateDistance : Q * Q -> Q * Q -> number)
    (env : Env) (req : Req) (db : DB) (request : Request.t) :
  requests db !! body_requestId req = Some request ->
  (user_role req = "hospital" ->
   owns (Hospital_findOne (user_id req) db) request = true) ->
  Request.requestType request = "blood"
  \/ Request.requestType request = "organ" ->
  exists l,
    findPotentialMatches calculateDistance env req db
    = (db, json (Candidates l))
    /\ Forall2
         (fun u c =>
            exists p,
              User.donorProfile u = Some p
              /\ c = mkCandidate (User._id u) (User.name u) (Donor.bloodType p)
                       (Donor.location p)
                       (calculateMatchScore calculateDistance request p))
         (User_find (now env) request db) l
    /\ sublist (User_find (now env) request db) (users db)
    /\ (User_find (now env) request db = [] -> l = []).
Proof.
  intros Hreq Hperm Htype.
  destruct (findPotentialMatches_candidates calculateDistance env req db
              request Hreq Hperm Htype) as (l & Hl & HF).
  exists l. split; [assumption|]. split; [|split].
  - eapply Forall2_impl; [exact HF|].
    intros u c Hto. unfold toCandidate in Hto.
    destruct (User.donorProfile u) as [p|]; [|discriminate].
    exists p. split; [reflexivity|]. congruence.
  - apply sublist_filter.
  - intros Hnil. rewrite Hnil in HF. inversion HF. reflexivity.
Qed.

Lemma findPotentialMatches_storage_order_witness :
  exists l,
    findPotentialMatches Fixture.flatDistance Fixture.env0 Fixture.searchReq
      Fixture.dbTwoDonors
    = (Fixture.dbTwoDonors, json (Candidates l))
    /\ length l = 2%nat.
Proof.
  destruct (findPotentialMatches_storage_order Fixture.flatDistance
              Fixture.env0 Fixture.searchReq Fixture.dbTwoDonors
              (Fixture.bloodRequest O_neg "searching"))
    as (l & Hl & HF & _ & _).
  - reflexivity.
  - intros H. discriminate H.
  - left. reflexivity.
  - exists l. split; [exact Hl|].
    apply Forall2_length in HF. rewrite <- HF. reflexivity.
Defined.

(** C9, as stated, fails: a donor whose profile has [isAvailable = false]
    is returned when the fields the query does read allow it. *)
Lemma findPotentialMatches_returns_unavailable :
  Donor.isAvailable Fixture.donorUnavailable = false
  /\ exists l c,
       findPotentialMatches Fixture.flatDistance Fixture.env0 Fixture.searchReq
         Fixture.dbUnavailable
       = (Fixture.dbUnavailable, json (Candidates l))
       /\ c ∈ l
       /\ donorId c = User._id (Fixture.donorUser Fixture.donorUnavailable).
Proof.
  split; [reflexivity|].
  eexists. eexists. split; [vm_compute; reflexivity|].
  split; [apply list_elem_of_here|reflexivity].
Qed.

(** C9, amended: for every donor population and every blood or organ
    request, every donor in the candidate sequence is a user with role
    donor and status active whose profile is available for blood donation
    (blood request) or is an organ donor (organ request); the profile's
    [isAvailable] flag is not consulted. *)
Theorem findPotentialMatches_only_active_donors
    (calculateDistance : Q * Q -> Q * Q -> number)
    (env : Env) (req : Req) (db : DB) (request : Request.t) :
  requests db !! body_requestId req = Some request ->
  (user_role req = "hospital" ->
   owns (Hospital_findOne (user_id req) db) request = true) ->
  Request.requestType request = "blood"
  \/ Request.requestType request = "organ" ->
  exists l,
    findPotentialMatches calculateDistance env req db
    = (db, json (Candidates l))
    /\ forall c, c ∈ l ->
         exists u p,
           u ∈ users db
           /\ donorId c = User._id u
           /\ User.role u = "donor"
           /\ User.status u = "active"
           /\ User.donorProfile u = Some p
           /\ (Request.requestType request = "blood" ->
               Donor.availableForBloodDonation p = true)
           /\ (Request.requestType request = "organ" ->
               Donor.organDonor p = true).
Proof.
  intros Hreq Hperm Htype.
  destruct (findPotentialMatches_candidates calculateDistance env req db
              request Hreq Hperm Htype) as (l & Hl & HF).
  exists l. split; [assumption|]. intros c Hc.
  destruct (Forall2_candidate_user calculateDistance request _ _ c HF Hc)
    as (u & Hu & Hto).
  apply elem_of_User_find in Hu as (Hin & Hrole & Hstatus & Hcrit).
  apply toCandidate_Some in Hto as (p & Hp & Hid & _).
  exists u, p. rewrite Hp in Hcrit.
  repeat split; try assumption.
  - intros Hb. apply (matchCriteria_blood _ _ _ Hb Hcrit).
  - intros Ho. apply (matchCriteria_organ _ _ _ Ho Hcrit).
Qed.

Lemma findPotentialMatches_only_active_donors_witness :
  exists l,
    findPotentialMatches Fixture.flatDistance Fixture.env0 Fixture.searchReq
      Fixture.dbUnavailable
    = (Fixture.dbUnavailable, json (Candidates l))
    /\ forall c, c ∈ l ->
         exists u, u ∈ users Fixture.dbUnavailable
                   /\ donorId c = User._id u
                   /\ User.status u = "active".
Proof.
  destruct (findPotentialMatches_only_active_donors Fixture.flatDistance
              Fixture.env0 Fixture.searchReq Fixture.dbUnavailable
              (Fixture.bloodRequest O_neg "searching"))
    as (l & Hl & Hall).
  - reflexivity.
  - intros H. discriminate H.
  - left. reflexivity.
  - exists l. split; [exact Hl|]. intros c Hc.
    destruct (Hall c Hc) as (u & p & Hu & Hid & _ & Hst & _).
    exists u. auto.
Defined.

Lemma NoDup_fmap_eq {A B} (f : A -> B) (l : list A) (x y : A) :
  NoDup (f <$> l) -> x ∈ l -> y ∈ l -> f x = f y -> x = y.
Proof.
  induction l as [|a l IH]; intros Hnd Hx Hy Hf.
  - inversion Hx.
  - rewrite fmap_cons in Hnd. apply NoDup_cons in Hnd as [Hnotin Hnd].
    apply elem_of_cons in Hx as [->|Hx]; apply elem_of_cons in Hy as [->|Hy].
    + reflexivity.
    + exfalso. apply Hnotin. rewrite Hf. apply list_elem_of_fmap_2. assumption.
    + exfalso. apply Hnotin. rewrite <- Hf. apply list_elem_of_fmap_2. assumption.
    + apply IH; assumption.
Qed.

(** C10: for every blood request, the candidate search answers (it does not
    fail), and a donor whose profile records no last blood-donation date is
    not among the selected donors: every candidate returned belongs to a
    donor whose last blood-donation date exists and lies more than 56 days
    before now; with distinct user ids, the id of a donor without such a
    date does not occur in the candidate sequence. *)
Theorem findPotentialMatches_requires_lastBloodDonationDate
    (calculateDistance : Q * Q -> Q * Q -> number)
    (env : Env) (req : Req) (db : DB) (request : Request.t) :
  requests db !! body_requestId req = Some request ->
  (user_role req = "hospital" ->
   owns (Hospital_findOne (user_id req) db) request = true) ->
  Request.requestType request = "blood" ->
  exists l,
    findPotentialMatches calculateDistance env req db
    = (db, json (Candidates l))
    /\ (forall u p,
          User.donorProfile u = Some p ->
          Donor.lastBloodDonationDate p = None ->
          u ∉ User_find (now env) request db)
    /\ (forall c, c ∈ l ->
          exists u p t,
            u ∈ users db
            /\ donorId c = User._id u
            /\ User.donorProfile u = Some p
            /\ Donor.lastBloodDonationDate p = Some t
            /\ t < now env - 56 * 24 * 60 * 60 * 1000)
    /\ (NoDup (User._id <$> users db) ->
        forall u p,
          u ∈ users db ->
          User.donorProfile u = Some p ->
          Donor.lastBloodDonationDate p = None ->
          User._id u ∉ donorId <$> l).
Proof.
  intros Hreq Hperm Htype.
  destruct (findPotentialMatches_candidates calculateDistance env req db
              request Hreq Hperm (or_introl Htype)) as (l & Hl & HF).
  assert (Hnone : forall u p,
             User.donorProfile u = Some p ->
             Donor.lastBloodDonationDate p = None ->
             u ∉ User_find (now env) request db).
  { intros u p Hp Hdate Hu.
    apply elem_of_User_find in Hu as (_ & _ & _ & Hcrit).
    rewrite Hp in Hcrit.
    apply (matchCriteria_blood _ _ _ Htype) in Hcrit as (_ & t & Ht & _).
    congruence. }
  exists l. split; [assumption|]. split; [exact Hnone|]. split.
  - intros c Hc.
    destruct (Forall2_candidate_user calculateDistance request _ _ c HF Hc)
      as (u & Hu & Hto).
    apply elem_of_User_find in Hu as (Hin & _ & _ & Hcrit).
    apply toCandidate_Some in Hto as (p & Hp & Hid & _).
    rewrite Hp in Hcrit.
    apply (matchCriteria_blood _ _ _ Htype) in Hcrit as (_ & t & Ht & Hlt).
    exists u, p, t. auto.
  - intros Hnd u p Hu Hp Hdate Hin.
    apply list_elem_of_fmap in Hin as (c & Hid & Hc).
    destruct (Forall2_candidate_user calculateDistance request _ _ c HF Hc)
      as (u' & Hu' & Hto).
    apply toCandidate_Some in Hto as (_ & _ & Hid' & _).
    assert (u' = u) as ->.
    { apply (NoDup_fmap_eq User._id (users db)); try assumption.
      - apply elem_of_User_find in Hu'. tauto.
      - congruence. }
    exact (Hnone u p Hp Hdate Hu').
Qed.

Lemma findPotentialMatches_requires_lastBloodDonationDate_witness :
  exists l,
    findPotentialMatches Fixture.flatDistance Fixture.env0 Fixture.searchReq
      Fixture.dbNever
    = (Fixture.dbNever, json (Candidates l))
    /\ User._id (Fixture.donorUser Fixture.donorNever) ∉ donorId <$> l.
Proof.
  destruct (findPotentialMatches_requires_lastBloodDonationDate
              Fixture.flatDistance Fixture.env0 Fixture.searchReq
              Fixture.dbNever (Fixture.bloodRequest O_neg "searching"))
    as (l & Hl & _ & _ & Hid).
  - reflexivity.
  - intros H. discriminate H.
  - reflexivity.
  - exists l. split; [exact Hl|].
    assert (Hnd : NoDup (User._id <$> users Fixture.dbNever)).
    { apply (bool_decide_unpack _). vm_compute. exact I. }
    apply (Hid Hnd _ Fixture.donorNever).
    + apply list_elem_of_here.
    + reflexivity.
    + reflexivity.
Defined.

(** ** Status updates *)

Lemma validationResult_valid (allowed : list string) (req : Req) :
  body_status req ∈ allowed -> validationResult allowed req = [].
Proof.
  intros H. unfold validationResult.
  rewrite bool_decide_eq_true_2 by assumption. reflexivity.
Qed.

Lemma validationResult_invalid (allowed : list string) (req : Req) :
  body_status req ∉ allowed ->
  validationResult allowed req = ["Status is required"].
Proof.
  intros H. unfold validationResult.
  rewrite bool_decide_eq_false_2 by assumption. reflexivity.
Qed.

(** The 403 guard of the request handlers does not fire for an actor that
    is no hospital, nor for the hospital that owns the request. *)
Lemma hospital_guard (req : Req) (db : DB) (request : Request.t) :
  (user_role req = "hospital" ->
   owns (Hospital_findOne (user_id req) db) request = true) ->
  bool_decide (user_role req = "hospital")
  && negb (owns (Hospital_findOne (user_id req) db) request) = false.
Proof.
  intros Hperm. destruct (decide (user_role req = "hospital")) as [Hh|Hh].
  - rewrite (Hperm Hh). apply andb_false_r.
  - rewrite bool_decide_eq_false_2 by assumption. reflexivity.
Qed.

(** Every edge of the Request graph ends in one of the six values the
    route accepts. *)
Lemma request_edge_target (current target : string) :
  request_edge current target = true -> target ∈ requestStatusValues.
Proof.
  unfold request_edge. rewrite orb_true_iff, !andb_true_iff.
  intros [H|[_ H]].
  - apply includes_true in H.
    repeat (apply elem_of_cons in H as [H|H];
            [injection H as _ ->; apply includes_true; reflexivity|]).
    inversion H.
  - apply bool_decide_eq_true in H. subst target.
    apply includes_true. reflexivity.
Qed.

(** Every edge of the Match graph ends in one of the eight values the
    route accepts. *)
Lemma match_edge_target (current target : string) :
  match_edge current target = true -> target ∈ matchStatusValues.
Proof.
  unfold match_edge. rewrite orb_true_iff, !andb_true_iff.
  intros [H|[_ H]].
  - apply includes_true in H.
    repeat (apply elem_of_cons in H as [H|H];
            [injection H as _ ->; apply includes_true; reflexivity|]).
    inversion H.
  - apply bool_decide_eq_true in H. subst target.
    apply includes_true. reflexivity.
Qed.

(** C1, as stated, fails: completed is terminal and (completed, pending) is
    no edge of the graph, yet the update succeeds and rewrites the
    request. *)
Lemma updateRequestStatus_accepts_non_edge :
  request_terminal "completed" = true
  /\ request_edge "completed" "pending" = false
  /\ exists db' r',
       updateRequestStatus (Fixture.adminReq 1%N "pending" false)
         Fixture.dbCompleted
       = (db', json (RequestDoc r'))
       /\ requests db' !! 1%N = Some r'
       /\ Request.status r' = "pending"
       /\ requests db' !! 1%N <> requests Fixture.dbCompleted !! 1%N.
Proof.
  split; [reflexivity|]. split; [reflexivity|].
  eexists. eexists. split; [vm_compute; reflexivity|].
  split; [reflexivity|]. split; [reflexivity|].
  vm_compute. discriminate.
Qed.

(** C1, amended: the handler holds no transition graph. For every Request,
    whatever its current status (terminal or not), and every target status
    among the six values the route accepts (every edge of the graph ends in
    one of them), the status update by an actor allowed to update the
    request succeeds, sets the status and appends exactly one entry to the
    status-history log; a target outside the six values fails with the
    validation error 400 and leaves the database unchanged. *)
Theorem updateRequestStatus_spec (req : Req) (db : DB) (request : Request.t) :
  requests db !! params_id req = Some request ->
  (user_role req = "hospital" ->
   owns (Hospital_findOne (user_id req) db) request = true) ->
  (request_edge (Request.status request) (body_status req) = true ->
   body_status req ∈ requestStatusValues)
  /\ (body_status req ∈ requestStatusValues ->
      exists request',
        updateRequestStatus req db
        = (set_requests (<[params_id req := request']> (requests db)) db,
           json (RequestDoc request'))
        /\ Request.status request' = body_status req
        /\ Request.statusHistory request'
           = (Request.statusHistory request
              ++ [mkStatusEntry (body_status req) (user_id req)
                    (default "" (body_notes req))])%list
        /\ length (Request.statusHistory request')
           = S (length (Request.statusHistory request)))
  /\ (body_status req ∉ requestStatusValues ->
      updateRequestStatus req db
      = (db, mkResponse 400 (Errors ["Status is required"]))).
Proof.
  intros Hreq Hperm. split; [apply request_edge_target|]. split.
  - intros Hvalid. eexists. unfold updateRequestStatus.
    rewrite (validationResult_valid _ _ Hvalid), Hreq.
    rewrite (hospital_guard _ _ _ Hperm).
    split; [reflexivity|]. split; [reflexivity|]. split; [reflexivity|].
    simpl. rewrite length_app. simpl. lia.
  - intros Hinvalid. unfold updateRequestStatus.
    rewrite (validationResult_invalid _ _ Hinvalid). reflexivity.
Qed.

Lemma updateRequestStatus_spec_witness :
  exists request',
    updateRequestStatus (Fixture.adminReq 1%N "cancelled" false)
      Fixture.dbCompleted
    = (set_requests (<[1%N := request']> (requests Fixture.dbCompleted))
         Fixture.dbCompleted,
       json (RequestDoc request'))
    /\ Request.status request' = "cancelled"
    /\ length (Request.statusHistory request') = 1%nat.
Proof.
  destruct (updateRequestStatus_spec (Fixture.adminReq 1%N "cancelled" false)
              Fixture.dbCompleted (Fixture.bloodRequest O_neg "completed"))
    as (_ & Hok & _).
  - reflexivity.
  - intros H. discriminate H.
  - destruct Hok as (request' & Hrun & Hst & _ & Hlen).
    + apply includes_true. reflexivity.
    + exists request'. split; [exact Hrun|]. split; [exact Hst|exact Hlen].
Defined.

Lemma matches_findByIdAndUpdate (id : ObjectId) (s : string) (db : DB) :
  matches (Request_findByIdAndUpdate_status id s db) = matches db.
Proof.
  unfold Request_findByIdAndUpdate_status.
  destruct (requests db !! id); reflexivity.
Qed.

(** Administrators and coordinators may set any status. *)
Lemma updateMatchStatus_permission_staff (req : Req) (match_ : Match.t) (db : DB) :
  user_role req ∈ ["admin"; "coordinator"] ->
  updateMatchStatus_permission req match_ db = inr true.
Proof.
  intros H. unfold updateMatchStatus_permission.
  apply includes_true in H. rewrite H. reflexivity.
Qed.

(** The handler once validation, lookup and permission have passed. *)
Lemma updateMatchStatus_run (req : Req) (db : DB) (match_ : Match.t) :
  body_status req ∈ matchStatusValues ->
  matches db !! params_id req = Some match_ ->
  updateMatchStatus_permission req match_ db = inr true ->
  let match' :=
    Match.push_statusHistory
      (mkStatusEntry (body_status req) (user_id req)
         (default "" (body_notes req)))
      (Match.set_status (body_status req) match_) in
  let db1 := set_matches (<[params_id req := match']> (matches db)) db in
  updateMatchStatus req db
  = (if bool_decide (body_status req = "rejected")
     then Request_findByIdAndUpdate_status (Match.request match_) "searching" db1
     else db1,
     json (MatchDoc match')).
Proof.
  intros Hvalid Hmatch Hperm. unfold updateMatchStatus.
  rewrite (validationResult_valid _ _ Hvalid), Hmatch, Hperm. reflexivity.
Qed.

(** C2, as stated, fails: transplanted is terminal and (transplanted,
    proposed) is no edge of the graph, yet the update succeeds. *)
Lemma updateMatchStatus_accepts_non_edge :
  match_terminal "transplanted" = true
  /\ match_edge "transplanted" "proposed" = false
  /\ exists db' m',
       updateMatchStatus (Fixture.adminReq 5%N "proposed" false)
         Fixture.dbTransplanted
       = (db', json (MatchDoc m'))
       /\ matches db' !! 5%N = Some m'
       /\ Match.status m' = "proposed".
Proof.
  split; [reflexivity|]. split; [reflexivity|].
  eexists. eexists. split; [vm_compute; reflexivity|].
  split; reflexivity.
Qed.

(** C2, amended: the handler holds no transition graph. For every Match and
    every actor, a target status that is not one of the eight Match status
    values is rejected (validation error 400, database unchanged); a target
    among the eight values (every edge of the graph ends in one of them) is
    accepted from every current status when the actor has permission, as
    administrators and coordinators always have: the status is set and one
    entry is appended to the status history. *)
Theorem updateMatchStatus_spec (req : Req) (db : DB) (match_ : Match.t) :
  matches db !! params_id req = Some match_ ->
  (match_edge (Match.status match_) (body_status req) = true ->
   body_status req ∈ matchStatusValues)
  /\ (body_status req ∉ matchStatusValues ->
      updateMatchStatus req db
      = (db, mkResponse 400 (Errors ["Status is required"])))
  /\ (user_role req ∈ ["admin"; "coordinator"] ->
      updateMatchStatus_permission req match_ db = inr true)
  /\ (body_status req ∈ matchStatusValues ->
      updateMatchStatus_permission req match_ db = inr true ->
      exists db' match',
        updateMatchStatus req db = (db', json (MatchDoc match'))
        /\ matches db' !! params_id req = Some match'
        /\ Match.status match' = body_status req
        /\ Match.statusHistory match'
           = (Match.statusHistory match_
              ++ [mkStatusEntry (body_status req) (user_id req)
                    (default "" (body_notes req))])%list).
Proof.
  intros Hmatch. split; [apply match_edge_target|]. split; [|split].
  - intros Hinvalid. unfold updateMatchStatus.
    rewrite (validationResult_invalid _ _ Hinvalid). reflexivity.
  - apply updateMatchStatus_permission_staff.
  - intros Hvalid Hperm.
    rewrite (updateMatchStatus_run req db match_ Hvalid Hmatch Hperm).
    eexists. eexists. split; [reflexivity|]. split; [|split; reflexivity].
    destruct (bool_decide (body_status req = "rejected")).
    + rewrite matches_findByIdAndUpdate. simpl. apply lookup_insert_eq.
    + simpl. apply lookup_insert_eq.
Qed.

Lemma updateMatchStatus_spec_witness :
  exists db' match',
    updateMatchStatus (Fixture.adminReq 5%N "in_transit" false)
      Fixture.dbTransplanted
    = (db', json (MatchDoc match'))
    /\ Match.status match' = "in_transit".
Proof.
  destruct (updateMatchStatus_spec (Fixture.adminReq 5%N "in_transit" false)
              Fixture.dbTransplanted (Fixture.match0 "transplanted"))
    as (_ & _ & Hstaff & Hok).
  - reflexivity.
  - destruct Hok as (db' & match' & Hrun & _ & Hst & _).
    + apply includes_true. reflexivity.
    + apply Hstaff. apply includes_true. reflexivity.
    + exists db', match'. split; [exact Hrun|exact Hst].
Defined.

(** C6, as stated, fails: rejecting the proposed match of a cancelled
    (terminal) request moves that request to searching. *)
Lemma updateMatchStatus_rejected_reopens_terminal :
  request_terminal "cancelled" = true
  /\ Request.status <$> (requests Fixture.dbCancelled !! 1%N) = Some "cancelled"
  /\ exists db' m',
       updateMatchStatus (Fixture.adminReq 5%N "rejected" false)
         Fixture.dbCancelled
       = (db', json (MatchDoc m'))
       /\ Match.status m' = "rejected"
       /\ Request.status <$> (requests db' !! Match.request m') = Some "searching".
Proof.
  split; [reflexivity|]. split; [reflexivity|].
  eexists. eexists. split; [vm_compute; reflexivity|].
  split; reflexivity.
Qed.

(** C6, amended: for every Match whose status is set to rejected by the
    status update, the owning Request, when it exists, gets the status
    searching whatever its status was, terminal or not, and is otherwise
    unchanged (its status history included); every other Request is left
    as it was. *)
Theorem updateMatchStatus_rejected_request
    (req : Req) (db : DB) (match_ : Match.t) (request : Request.t) :
  body_status req = "rejected" ->
  matches db !! params_id req = Some match_ ->
  updateMatchStatus_permission req match_ db = inr true ->
  requests db !! Match.request match_ = Some request ->
  exists db' match' request',
    updateMatchStatus req db = (db', json (MatchDoc match'))
    /\ Match.status match' = "rejected"
    /\ requests db' !! Match.request match_ = Some request'
    /\ request' = Request.set_status "searching" request
    /\ Request.status request' = "searching"
    /\ Request.statusHistory request' = Request.statusHistory request
    /\ (forall id, id <> Match.request match_ ->
                   requests db' !! id = requests db !! id).
Proof.
  intros Hstatus Hmatch Hperm Hreq.
  assert (Hvalid : body_status req ∈ matchStatusValues).
  { rewrite Hstatus. apply includes_true. reflexivity. }
  rewrite (updateMatchStatus_run req db match_ Hvalid Hmatch Hperm).
  rewrite bool_decide_eq_true_2 by assumption.
  unfold Request_findByIdAndUpdate_status. simpl. rewrite Hreq.
  eexists. eexists. eexists. split; [reflexivity|].
  split; [simpl; assumption|].
  split; [simpl; apply lookup_insert_eq|].
  split; [reflexivity|]. split; [reflexivity|]. split; [reflexivity|].
  intros id Hid. simpl. apply lookup_insert_ne. congruence.
Qed.

Lemma updateMatchStatus_rejected_request_witness :
  exists db' match' request',
    updateMatchStatus (Fixture.adminReq 5%N "rejected" false)
      Fixture.dbDelivered
    = (db', json (MatchDoc match'))
    /\ requests db' !! 1%N = Some request'
    /\ Request.status request' = "searching".
Proof.
  destruct (updateMatchStatus_rejected_request
              (Fixture.adminReq 5%N "rejected" false) Fixture.dbDelivered
              (Fixture.match0 "delivered")
              (Fixture.bloodRequest O_neg "in_progress"))
    as (db' & match' & request' & Hrun & _ & Hlook & _ & Hst & _).
  - reflexivity.
  - reflexivity.
  - reflexivity.
  - reflexivity.
  - exists db', match', request'.
    split; [exact Hrun|]. split; [exact Hlook|exact Hst].
Defined.

(** ** Outcome reports *)

(** What [reportOutcome] does once the match is found and the actor has
    permission. *)
Lemma reportOutcome_run (env : Env) (req : Req) (db : DB) (match_ : Match.t) :
  matches db !! params_id req = Some match_ ->
  hasPermission req match_ db = true ->
  exists db' match',
    reportOutcome env req db = (db', json (MatchDoc match'))
    /\ matches db' !! params_id req = Some match'
    /\ Match.status match'
       = (if body_successful req then "completed" else "failed")
    /\ Match.statusHistory match'
       = (Match.statusHistory match_
          ++ [mkStatusEntry (Match.status match') (user_id req)
                (default "" (body_notes req))])%list
    /\ (forall request,
          requests db !! Match.request match_ = Some request ->
          requests db' !! Match.request match_
          = Some (Request.set_status
                    (if body_successful req then "fulfilled" else "searching")
                    request)).
Proof.
  intros Hmatch Hperm. unfold reportOutcome. rewrite Hmatch, Hperm. simpl.
  destruct (requests db !! Match.request match_) as [request|] eqn:Hreq.
  - eexists. eexists. split; [reflexivity|]. simpl.
    split; [apply lookup_insert_eq|]. split; [reflexivity|].
    split; [reflexivity|].
    intros request0 [= <-]. apply lookup_insert_eq.
  - eexists. eexists. split; [reflexivity|]. simpl.
    split; [apply lookup_insert_eq|]. split; [reflexivity|].
    split; [reflexivity|]. intros request0 H. discriminate H.
Qed.

(** C7, the code at the failing input: an administrator reports a
    successful outcome for the delivered match 5 of request 1. The match
    ends in status completed, which is none of the eight Match statuses,
    and the request in status fulfilled, which is none of the six Request
    statuses; one history entry is appended to the match. *)
Theorem reportOutcome_successful_statuses :
  exists db' m',
    reportOutcome Fixture.env0 (Fixture.adminReq 5%N "" true)
      Fixture.dbDelivered
    = (db', json (MatchDoc m'))
    /\ matches db' !! 5%N = Some m'
    /\ Match.status m' = "completed"
    /\ Match.status m' <> "transplanted"
    /\ (Match.status m' ∉ matchStatusValues)
    /\ length (Match.statusHistory m') = 1%nat
    /\ Request.status <$> (requests db' !! 1%N) = Some "fulfilled"
    /\ "fulfilled" ∉ requestStatusValues.
Proof.
  eexists. eexists. split; [vm_compute; reflexivity|].
  split; [reflexivity|]. split; [reflexivity|].
  split; [discriminate|].
  split; [apply includes_false; reflexivity|].
  split; [reflexivity|]. split; [reflexivity|].
  apply includes_false. reflexivity.
Qed.

(** ** Match creation *)

Lemma Donor_findById_id (id : ObjectId) (db : DB) (donor : Donor.t) :
  Donor_findById id db = Some donor -> Donor._id donor = id.
Proof.
  unfold Donor_findById. intros H. apply find_some in H as [_ H].
  apply bool_decide_eq_true in H. assumption.
Qed.

(** [Match.findOne] finds a document exactly when some match, of whatever
    status, joins the request and the donor. *)
Lemma Match_findOne_is_Some (rid did : ObjectId) (db : DB) :
  is_Some (Match_findOne rid did db)
  <-> exists id m, matches db !! id = Some m
                   /\ Match.request m = rid /\ Match.donor m = did.
Proof.
  unfold Match_findOne. split.
  - intros [[id m] H]. apply find_some in H as [Hin Hp].
    apply list_elem_of_In, elem_of_map_to_list in Hin.
    apply andb_true_iff in Hp as [Hr Hd].
    apply bool_decide_eq_true in Hr, Hd. eauto.
  - intros (id & m & Hm & Hr & Hd).
    destruct (List.find _ _) as [x|] eqn:Hfind; [eauto|].
    exfalso.
    assert (Hin : In (id, m) (map_to_list (matches db))).
    { apply list_elem_of_In, elem_of_map_to_list. assumption. }
    pose proof (find_none _ _ Hfind _ Hin) as Hfalse. simpl in Hfalse.
    rewrite !bool_decide_eq_true_2 in Hfalse by assumption.
    discriminate.
Qed.

(** C8, as stated, fails: the only match of request 1 with donor 20 is
    rejected (terminal), and proposing the pair again is refused. *)
Lemma confirmMatch_refuses_after_rejection :
  (forall id m, matches Fixture.dbRejected !! id = Some m ->
                match_terminal (Match.status m) = true)
  /\ confirmMatch Fixture.env0 (Fixture.adminReq 5%N "" false)
       Fixture.dbRejected
     = (Fixture.dbRejected,
        reply 400 "Match already exists for this donor and request").
Proof.
  split; [|vm_compute; reflexivity].
  intros id m Hm. unfold Fixture.dbRejected, Fixture.dbOf in Hm. simpl in Hm.
  apply lookup_singleton_Some in Hm as [_ <-]. reflexivity.
Qed.

(** C8, amended: for every (Request, Donor) pair, confirming a new Match
    fails with the duplicate error exactly when a Match already exists for
    that pair, whatever its status, terminal or not; when no Match exists
    for the pair a new Match in status proposed is created. *)
Theorem confirmMatch_duplicate
    (env : Env) (req : Req) (db : DB) (request : Request.t) (donor : Donor.t) :
  requests db !! params_requestId req = Some request ->
  Donor_findById (params_donorId req) db = Some donor ->
  (user_role req = "hospital" ->
   owns (Hospital_findOne (user_id req) db) request = true) ->
  ((exists id m, matches db !! id = Some m
                 /\ Match.request m = params_requestId req
                 /\ Match.donor m = params_donorId req)
   <-> confirmMatch env req db
       = (db, reply 400 "Match already exists for this donor and request"))
  /\ ((~ exists id m, matches db !! id = Some m
                      /\ Match.request m = params_requestId req
                      /\ Match.donor m = params_donorId req)
      -> exists db' match',
           confirmMatch env req db = (db', mkResponse 201 (MatchDoc match'))
           /\ matches db' !! newId env = Some match'
           /\ Match.status match' = "proposed"
           /\ Match.request match' = params_requestId req
           /\ Match.donor match' = params_donorId req).
Proof.
  intros Hreq Hdonor Hperm.
  pose proof (Donor_findById_id _ _ _ Hdonor) as Hid.
  pose proof (Match_findOne_is_Some (params_requestId req) (params_donorId req) db)
    as Hfind.
  unfold confirmMatch. rewrite Hreq, Hdonor, (hospital_guard _ _ _ Hperm), Hid.
  destruct (Match_findOne (params_requestId req) (params_donorId req) db)
    as [x|] eqn:Hone.
  - assert (Hex : exists id m, matches db !! id = Some m
                               /\ Match.request m = params_requestId req
                               /\ Match.donor m = params_donorId req)
      by (apply Hfind; eauto).
    split; [tauto|]. intros Hno. contradiction.
  - assert (Hno : ~ exists id m, matches db !! id = Some m
                                 /\ Match.request m = params_requestId req
                                 /\ Match.donor m = params_donorId req).
    { intros Hex. apply Hfind in Hex as [? ?]. discriminate. }
    split.
    + split; [intros Hex; contradiction|]. intros H. discriminate H.
    + intros _. eexists. eexists. split; [reflexivity|]. simpl.
      split; [apply lookup_insert_eq|]. auto.
Qed.

Lemma confirmMatch_duplicate_witness :
  confirmMatch Fixture.env0 (Fixture.adminReq 5%N "" false) Fixture.dbRejected
  = (Fixture.dbRejected,
     reply 400 "Match already exists for this donor and request")
  /\ exists db' match',
       confirmMatch Fixture.env0 (Fixture.adminReq 5%N "" false)
         Fixture.dbNoMatch
       = (db', mkResponse 201 (MatchDoc match'))
       /\ Match.status match' = "proposed".
Proof.
  split.
  - destruct (confirmMatch_duplicate Fixture.env0
                (Fixture.adminReq 5%N "" false) Fixture.dbRejected
                (Fixture.bloodRequest O_neg "searching") Fixture.donorA)
      as [[Hdup _] _].
    + reflexivity.
    + reflexivity.
    + intros H. discriminate H.
    + apply Hdup. exists 5%N, (Fixture.match0 "rejected").
      split; [reflexivity|]. split; reflexivity.
  - destruct (confirmMatch_duplicate Fixture.env0
                (Fixture.adminReq 5%N "" false) Fixture.dbNoMatch
                (Fixture.bloodRequest O_neg "searching") Fixture.donorA)
      as [_ Hnew].
    + reflexivity.
    + reflexivity.
    + intros H. discriminate H.
    + destruct Hnew as (db' & match' & Hrun & _ & Hst & _).
      * intros (id & m & Hm & _). vm_compute in Hm. discriminate Hm.
      * exists db', match'. split; [exact Hrun|exact Hst].
Defined.


(** * Further properties of the handlers *)

(** ** The compatibility table as a relation *)

(** X1: "May give to" is a partial order on the eight blood types: every type
    gives to itself, giving composes, and two distinct types never give to
    each other. *)
Theorem canDonate_partial_order (a b c : BloodType) :
  canDonate a a = true
  /\ (canDonate a b = true -> canDonate b c = true -> canDonate a c = true)
  /\ (canDonate a b = true -> canDonate b a = true -> a = b).
Proof.
  split; [destruct a; reflexivity|]. split.
  - destruct a, b; try discriminate; destruct c; intros _ H;
      try reflexivity; try discriminate H.
  - destruct a, b; intros H1 H2; try reflexivity;
      try discriminate H1; try discriminate H2.
Qed.

Lemma canDonate_partial_order_witness : canDonate O_neg AB_pos = true.
Proof.
  destruct (canDonate_partial_order O_neg A_neg AB_pos) as (_ & Htrans & _).
  apply Htrans; reflexivity.
Defined.

(** X2: O- gives to every type, AB+ receives from every type, no donor type is
    listed twice for a recipient, and a Rh-negative recipient is only ever
    offered Rh-negative donors. *)
Theorem getCompatibleBloodTypes_shape (recipient : BloodType) :
  canDonate O_neg recipient = true
  /\ canDonate recipient AB_pos = true
  /\ NoDup (getCompatibleBloodTypes (Some recipient))
  /\ (forall donor,
        rhNegative recipient = true ->
        donor ∈ getCompatibleBloodTypes (Some recipient) ->
        rhNegative donor = true).
Proof.
  split; [destruct recipient; reflexivity|].
  split; [destruct recipient; reflexivity|].
  split.
  - destruct recipient; apply (bool_decide_unpack _); vm_compute; exact I.
  - intros donor Hneg Hin. apply includes_true in Hin.
    destruct recipient; try discriminate Hneg;
      destruct donor; try reflexivity; discriminate Hin.
Qed.

Lemma getCompatibleBloodTypes_shape_witness : rhNegative A_neg = true.
Proof.
  destruct (getCompatibleBloodTypes_shape AB_neg) as (_ & _ & _ & Hrh).
  apply Hrh; [reflexivity|]. apply includes_true. reflexivity.
Defined.

(** ** More on the score *)

(** X3: The score is always one of 10, 20, ..., 100: never 0 and never between
    two tens. *)
Theorem calculateMatchScore_tens
    (calculateDistance : Q * Q -> Q * Q -> number)
    (request : Request.t) (p : Donor.t) :
  exists k : Z,
    1 <= k <= 10
    /\ calculateMatchScore calculateDistance request p = 10 * k.
Proof.
  rewrite calculateMatchScore_sum.
  pose proof (compatibilityContribution_range request p) as Hc.
  pose proof (availabilityContribution_rank p) as Ha.
  pose proof (availabilityRank_le p) as Hr.
  assert (Hd : exists j, 0 <= j <= 3
                         /\ distanceContribution calculateDistance request p
                            = 10 * j).
  { unfold distanceContribution.
    destruct (distanceTo calculateDistance request p) as [[|d]|];
      try (exists 0; lia).
    repeat destruct (Qlt_le_dec _ _);
      [exists 3|exists 2|exists 1|exists 0]; lia. }
  destruct Hd as (j & Hj & ->). rewrite Ha.
  destruct Hc as [-> | ->].
  - exists (j + 1 + Z.of_nat (availabilityRank p)). lia.
  - exists (4 + j + 1 + Z.of_nat (availabilityRank p)). lia.
Qed.

Lemma distanceContribution_absent
    (calculateDistance : Q * Q -> Q * Q -> number)
    (request : Request.t) (p : Donor.t) :
  (exists id, Request.hospital request = Ref id)
  \/ Donor.location p = None
  \/ distanceTo calculateDistance request p = Some NaN ->
  distanceContribution calculateDistance request p = 0.
Proof.
  intros H. unfold distanceContribution.
  destruct H as [[id Hid]|[Hloc|Hnan]].
  - unfold distanceTo. rewrite Hid. reflexivity.
  - unfold distanceTo. rewrite Hloc.
    destruct (Request.hospital request) as [|h]; [reflexivity|].
    destruct (Hospital.location h); reflexivity.
  - rewrite Hnan. reflexivity.
Qed.

(** X4: When no finite distance is available (the hospital of the request is a
    stored reference, as [findPotentialMatches] passes it; or the donor has
    no location; or the distance is NaN), the score is the compatibility
    points plus the availability points, hence at most 70. *)
Theorem calculateMatchScore_without_distance
    (calculateDistance : Q * Q -> Q * Q -> number)
    (request : Request.t) (p : Donor.t) :
  (exists id, Request.hospital request = Ref id)
  \/ Donor.location p = None
  \/ distanceTo calculateDistance request p = Some NaN ->
  calculateMatchScore calculateDistance request p
  = compatibilityContribution request p + availabilityContribution p
  /\ 10 <= calculateMatchScore calculateDistance request p <= 70.
Proof.
  intros H. rewrite calculateMatchScore_sum.
  pose proof (compatibilityContribution_range request p) as Hc.
  pose proof (availabilityContribution_rank p) as Ha.
  pose proof (availabilityRank_le p) as Hr.
  rewrite (distanceContribution_absent _ _ _ H). lia.
Qed.

Lemma calculateMatchScore_without_distance_witness :
  calculateMatchScore Fixture.flatDistance
    (Fixture.bloodRequest O_neg "searching") Fixture.donorNear = 70.
Proof.
  destruct (calculateMatchScore_without_distance Fixture.flatDistance
              (Fixture.bloodRequest O_neg "searching") Fixture.donorNear)
    as [Hsum _].
  - left. exists 10%N. reflexivity.
  - rewrite Hsum. reflexivity.
Defined.

(** ** More on the candidate search *)

(** A profile the blood query selects has a blood type that may give to the
    requested type. *)
Lemma matchCriteria_blood_compatible
    (now : Z) (request : Request.t) (p : Donor.t) :
  Request.requestType request = "blood" ->
  matchCriteria now request (Some p) = true ->
  exists requested donorType,
    Request.bloodType request = Some requested
    /\ Donor.bloodType p = Some donorType
    /\ canDonate donorType requested = true.
Proof.
  intros Htype. unfold matchCriteria. rewrite Htype. simpl.
  rewrite !andb_true_iff. intros [[Hcompat _] _].
  destruct (Donor.bloodType p) as [b|]; [|discriminate].
  destruct (Request.bloodType request) as [r|]; [|discriminate].
  exists r, b. auto.
Qed.

Lemma mapM_None {A B} (f : A -> option B) (l : list A) :
  mapM f l = None -> exists x, x ∈ l /\ f x = None.
Proof.
  induction l as [|a l IH]; [discriminate|].
  cbn. destruct (f a) as [y|] eqn:Hfa.
  - cbn. destruct (mapM f l) as [k|]; [discriminate|].
    intros _. destruct (IH eq_refl) as (x & Hx & Hfx).
    exists x. split; [apply list_elem_of_further; assumption|assumption].
  - intros _. exists a. split; [apply list_elem_of_here|assumption].
Qed.

(** X5: The search never writes: whatever the request and the answer, the
    database is returned as it was. An unknown request id is answered with
    404 and a hospital user that does not own the request with 403. The
    answer 500 is given only for a request whose type is neither blood nor
    organ, and only when an active donor user has no donor profile. *)
Theorem findPotentialMatches_read_only
    (calculateDistance : Q * Q -> Q * Q -> number)
    (env : Env) (req : Req) (db : DB) :
  (findPotentialMatches calculateDistance env req db).1 = db
  /\ (requests db !! body_requestId req = None ->
      (findPotentialMatches calculateDistance env req db).2
      = reply 404 "Request not found")
  /\ (forall request,
        requests db !! body_requestId req = Some request ->
        user_role req = "hospital" ->
        owns (Hospital_findOne (user_id req) db) request = false ->
        (findPotentialMatches calculateDistance env req db).2
        = reply 403 "Not authorized to search matches for this request")
  /\ (code (findPotentialMatches calculateDistance env req db).2 = 500 ->
      exists request u,
        requests db !! body_requestId req = Some request
        /\ Request.requestType request <> "blood"
        /\ Request.requestType request <> "organ"
        /\ u ∈ users db
        /\ User.role u = "donor"
        /\ User.status u = "active"
        /\ User.donorProfile u = None).
Proof.
  unfold findPotentialMatches. split; [|split; [|split]].
  - destruct (requests db !! body_requestId req) as [request|]; [|reflexivity].
    destruct (_ && _); [reflexivity|].
    destruct (mapM _ _); reflexivity.
  - intros ->. reflexivity.
  - intros request -> Hrole Howns.
    rewrite bool_decide_eq_true_2 by assumption. rewrite Howns. reflexivity.
  - destruct (requests db !! body_requestId req) as [request|];
      [|discriminate].
    destruct (_ && _); [discriminate|].
    destruct (mapM _ _) eqn:Hmap; [discriminate|]. intros _.
    apply mapM_None in Hmap as (u & Hu & Hnone).
    apply elem_of_User_find in Hu as (Hin & Hrole & Hstatus & Hcrit).
    assert (Hprofile : User.donorProfile u = None).
    { unfold toCandidate in Hnone.
      destruct (User.donorProfile u); [discriminate|reflexivity]. }
    exists request, u. rewrite Hprofile in Hcrit.
    split; [reflexivity|].
    split.
    { intros Ht.
      destruct (matchCriteria_profile _ _ _ (or_introl Ht) Hcrit) as [? H].
      discriminate H. }
    split; [|auto].
    intros Ht.
    destruct (matchCriteria_profile _ _ _ (or_intror Ht) Hcrit) as [? H].
    discriminate H.
Qed.

(** X6: In a blood search for a request whose hospital is a stored reference,
    every candidate has a compatible blood type and a score of 50, 60 or
    70: the 40 compatibility points, no distance points, and 10, 20 or 30
    for availability. *)
Theorem findPotentialMatches_blood_scores
    (calculateDistance : Q * Q -> Q * Q -> number)
    (env : Env) (req : Req) (db : DB) (request : Request.t) (hid : ObjectId) :
  requests db !! body_requestId req = Some request ->
  (user_role req = "hospital" ->
   owns (Hospital_findOne (user_id req) db) request = true) ->
  Request.requestType request = "blood" ->
  Request.hospital request = Ref hid ->
  exists l,
    findPotentialMatches calculateDistance env req db
    = (db, json (Candidates l))
    /\ forall c, c ∈ l ->
         matchScore c ∈ [50; 60; 70]
         /\ exists requested donorType,
              Request.bloodType request = Some requested
              /\ cand_bloodType c = Some donorType
              /\ canDonate donorType requested = true.
Proof.
  intros Hreq Hperm Htype Href.
  destruct (findPotentialMatches_candidates calculateDistance env req db
              request Hreq Hperm (or_introl Htype)) as (l & Hl & HF).
  exists l. split; [assumption|]. intros c Hc.
  destruct (Forall2_candidate_user calculateDistance request _ _ c HF Hc)
    as (u & Hu & Hto).
  apply elem_of_User_find in Hu as (_ & _ & _ & Hcrit).
  unfold toCandidate in Hto.
  destruct (User.donorProfile u) as [p|]; [|discriminate].
  injection Hto as <-. simpl.
  destruct (matchCriteria_blood_compatible _ _ _ Htype Hcrit)
    as (r & b & Hr & Hb & Hcan).
  split; [|exists r, b; auto].
  rewrite calculateMatchScore_sum.
  rewrite (distanceContribution_absent calculateDistance request p)
    by (left; eauto).
  rewrite Z.add_0_r, availabilityContribution_rank.
  pose proof (availabilityRank_le p) as Hrank.
  assert (Hcompat : compatibilityContribution request p = 40).
  { unfold compatibilityContribution. rewrite Hr, Hb.
    rewrite <- getCompatibleBloodTypes_glossary.
    unfold canDonate in Hcan. rewrite Hcan. reflexivity. }
  rewrite Hcompat.
  destruct (availabilityRank p) as [|[|[|n]]]; [| | |lia]; simpl;
    apply includes_true; reflexivity.
Qed.

Lemma findPotentialMatches_blood_scores_witness :
  exists l,
    findPotentialMatches Fixture.flatDistance Fixture.env0 Fixture.searchReq
      Fixture.dbTwoDonors
    = (Fixture.dbTwoDonors, json (Candidates l))
    /\ forall c, c ∈ l -> matchScore c ∈ [50; 60; 70].
Proof.
  destruct (findPotentialMatches_blood_scores Fixture.flatDistance
              Fixture.env0 Fixture.searchReq Fixture.dbTwoDonors
              (Fixture.bloodRequest O_neg "searching") 10%N)
    as (l & Hl & Hall).
  - reflexivity.
  - intros H. discriminate H.
  - reflexivity.
  - reflexivity.
  - exists l. split; [exact Hl|]. intros c Hc. apply (Hall c Hc).
Defined.

Lemma User_find_without_bloodType
    (now : Z) (request : Request.t) (db : DB) :
  Request.requestType request = "blood"
  \/ Request.requestType request = "organ" ->
  Request.bloodType request = None ->
  User_find now request db = [].
Proof.
  intros Htype Hnone. apply elem_of_nil_inv. intros u Hu.
  apply elem_of_User_find in Hu as (_ & _ & _ & Hcrit).
  unfold matchCriteria in Hcrit. rewrite Hnone in Hcrit.
  destruct Htype as [Ht|Ht]; rewrite Ht in Hcrit; simpl in Hcrit;
    destruct (User.donorProfile u) as [p|]; try discriminate;
    destruct (Donor.bloodType p); simpl in Hcrit;
    rewrite ?andb_false_r in Hcrit; discriminate.
Qed.

Lemma findPotentialMatches_empty_selection
    (calculateDistance : Q * Q -> Q * Q -> number)
    (env : Env) (req : Req) (db : DB) (request : Request.t) :
  requests db !! body_requestId req = Some request ->
  (user_role req = "hospital" ->
   owns (Hospital_findOne (user_id req) db) request = true) ->
  User_find (now env) request db = [] ->
  findPotentialMatches calculateDistance env req db
  = (db, json (Candidates [])).
Proof.
  intros Hreq Hperm Hempty. unfold findPotentialMatches.
  rewrite Hreq, (hospital_guard _ _ _ Hperm), Hempty. reflexivity.
Qed.

(** X7: A blood or organ request that carries no blood type gets the empty
    candidate list, whatever the donor population: the compatible types of
    a missing type are the empty array, and [$in] of nothing matches
    nobody. *)
Theorem findPotentialMatches_without_bloodType
    (calculateDistance : Q * Q -> Q * Q -> number)
    (env : Env) (req : Req) (db : DB) (request : Request.t) :
  requests db !! body_requestId req = Some request ->
  (user_role req = "hospital" ->
   owns (Hospital_findOne (user_id req) db) request = true) ->
  Request.requestType request = "blood"
  \/ Request.requestType request = "organ" ->
  Request.bloodType request = None ->
  findPotentialMatches calculateDistance env req db
  = (db, json (Candidates [])).
Proof.
  intros Hreq Hperm Htype Hnone.
  apply (findPotentialMatches_empty_selection _ _ _ _ request Hreq Hperm).
  apply User_find_without_bloodType; assumption.
Qed.

(** ** Error answers leave the database alone *)

(** X8: Each of the four handlers of the match life cycle either answers with
    its success code (201 for [confirmMatch], 200 for the others) or
    returns the database exactly as it received it. *)
Theorem match_handlers_errors_write_nothing (env : Env) (req : Req) (db : DB) :
  (code (confirmMatch env req db).2 <> 201 -> (confirmMatch env req db).1 = db)
  /\ (code (updateMatchStatus req db).2 <> 200 ->
      (updateMatchStatus req db).1 = db)
  /\ (code (reportOutcome env req db).2 <> 200 ->
      (reportOutcome env req db).1 = db)
  /\ (code (updateRequestStatus req db).2 <> 200 ->
      (updateRequestStatus req db).1 = db).
Proof.
  split; [|split; [|split]].
  - unfold confirmMatch.
    destruct (requests db !! params_requestId req); [|reflexivity].
    destruct (Donor_findById _ _); [|reflexivity].
    destruct (_ && _); [reflexivity|].
    destruct (Match_findOne _ _ _); [reflexivity|].
    simpl. intros H. contradiction H. reflexivity.
  - unfold updateMatchStatus.
    destruct (validationResult _ _); [|reflexivity].
    destruct (matches db !! params_id req); [|reflexivity].
    destruct (updateMatchStatus_permission _ _ _) as [?|[|]];
      [reflexivity| |reflexivity].
    simpl. intros H. contradiction H. reflexivity.
  - unfold reportOutcome.
    destruct (matches db !! params_id req); [|reflexivity].
    destruct (negb _); [reflexivity|].
    simpl. intros H. contradiction H. reflexivity.
  - unfold updateRequestStatus.
    destruct (validationResult _ _); [|reflexivity].
    destruct (requests db !! params_id req); [|reflexivity].
    destruct (_ && _); [reflexivity|].
    simpl. intros H. contradiction H. reflexivity.
Qed.

Lemma match_handlers_errors_write_nothing_witness :
  (confirmMatch Fixture.env0 (Fixture.adminReq 5%N "" false)
     Fixture.dbRejected).1 = Fixture.dbRejected.
Proof.
  destruct (match_handlers_errors_write_nothing Fixture.env0
              (Fixture.adminReq 5%N "" false) Fixture.dbRejected)
    as (Hconfirm & _).
  apply Hconfirm. vm_compute. discriminate.
Defined.

(** ** What a confirmed match leaves behind *)

(** A 201 answer of [confirmMatch] pins down what happened. *)
Lemma confirmMatch_created
    (env : Env) (req : Req) (db db' : DB) (response : Response) :
  confirmMatch env req db = (db', response) ->
  code response = 201 ->
  exists request donor,
    requests db !! params_requestId req = Some request
    /\ Donor_findById (params_donorId req) db = Some donor
    /\ Match_findOne (params_requestId req) (params_donorId req) db = None
    /\ let match' :=
         Match.mk (params_requestId req) (params_donorId req) "proposed"
           (user_id req) (Request.requestType request)
           (Request.urgencyLevel request) [] None in
       let request' :=
         Request.set_matches (Request.matches request ++ [newId env])
           (Request.set_status "matched" request) in
       response = mkResponse 201 (MatchDoc match')
       /\ db' = set_requests (<[params_requestId req := request']> (requests db))
                  (set_matches (<[newId env := match']> (matches db)) db).
Proof.
  unfold confirmMatch.
  destruct (requests db !! params_requestId req) as [request|];
    [|intros [= <- <-]; discriminate].
  destruct (Donor_findById (params_donorId req) db) as [donor|] eqn:Hdonor;
    [|intros [= <- <-]; discriminate].
  rewrite (Donor_findById_id _ _ _ Hdonor).
  destruct (_ && _); [intros [= <- <-]; discriminate|].
  destruct (Match_findOne _ _ _) eqn:Hone; [intros [= <- <-]; discriminate|].
  intros [= <- <-] _. exists request, donor. auto.
Qed.

(** X9: When [confirmMatch] answers 201: the request is in status matched
    whatever its status was, the id of the new match is appended to its
    list of matches, its status history is as before (no entry is written);
    the new match copies the request type and the urgency of the request,
    names the actor as proposer and starts with an empty history; no other
    request is touched, and with a fresh id no other match. *)
Theorem confirmMatch_effect
    (env : Env) (req : Req) (db db' : DB) (response : Response) :
  confirmMatch env req db = (db', response) ->
  code response = 201 ->
  exists request request' match',
    requests db !! params_requestId req = Some request
    /\ requests db' !! params_requestId req = Some request'
    /\ Request.status request' = "matched"
    /\ Request.matches request' = (Request.matches request ++ [newId env])%list
    /\ Request.statusHistory request' = Request.statusHistory request
    /\ Request.hospital request' = Request.hospital request
    /\ matches db' !! newId env = Some match'
    /\ response = mkResponse 201 (MatchDoc match')
    /\ match' = Match.mk (params_requestId req) (params_donorId req) "proposed"
                  (user_id req) (Request.requestType request)
                  (Request.urgencyLevel request) [] None
    /\ (forall id, id <> params_requestId req ->
                   requests db' !! id = requests db !! id)
    /\ (forall id, id <> newId env -> matches db' !! id = matches db !! id)
    /\ hospitals db' = hospitals db
    /\ donors db' = donors db
    /\ users db' = users db.
Proof.
  intros Hrun Hcode.
  destruct (confirmMatch_created env req db db' response Hrun Hcode)
    as (request & donor & Hreq & _ & _ & Hresp & ->).
  eexists request, _, _. split; [assumption|]. simpl.
  split; [apply lookup_insert_eq|].
  repeat (split; [reflexivity|]).
  split; [apply lookup_insert_eq|].
  split; [assumption|]. split; [reflexivity|].
  split; [intros id Hid; apply lookup_insert_ne; congruence|].
  split; [intros id Hid; apply lookup_insert_ne; congruence|].
  auto.
Qed.

Lemma confirmMatch_effect_witness :
  exists request',
    requests (confirmMatch Fixture.env0 (Fixture.adminReq 5%N "" false)
                Fixture.dbNoMatch).1 !! 1%N = Some request'
    /\ Request.status request' = "matched"
    /\ Request.matches request' = [99%N].
Proof.
  destruct (confirmMatch_effect Fixture.env0 (Fixture.adminReq 5%N "" false)
              Fixture.dbNoMatch
              (confirmMatch Fixture.env0 (Fixture.adminReq 5%N "" false)
                 Fixture.dbNoMatch).1
              (confirmMatch Fixture.env0 (Fixture.adminReq 5%N "" false)
                 Fixture.dbNoMatch).2)
    as (request & request' & match' & Hreq & Hreq' & Hst & Hms & _).
  - reflexivity.
  - reflexivity.
  - exists request'. split; [exact Hreq'|]. split; [exact Hst|].
    rewrite Hms. injection Hreq as <-. reflexivity.
Defined.

(** [owns] looks at the hospital of the request and at the hospital
    profiles only. *)
Lemma owns_hospital (h : option Hospital.t) (r r' : Request.t) :
  Request.hospital r' = Request.hospital r -> owns h r' = owns h r.
Proof. intros H. unfold owns. rewrite H. reflexivity. Qed.

(** ** Who may change a match, and what changes *)

(** A 200 answer of [updateMatchStatus] pins down what happened. *)
Lemma updateMatchStatus_updated
    (req : Req) (db db' : DB) (response : Response) :
  updateMatchStatus req db = (db', response) ->
  code response = 200 ->
  exists match_,
    body_status req ∈ matchStatusValues
    /\ matches db !! params_id req = Some match_
    /\ updateMatchStatus_permission req match_ db = inr true.
Proof.
  unfold updateMatchStatus, validationResult.
  destruct (decide (body_status req ∈ matchStatusValues)) as [Hv|Hv].
  - rewrite bool_decide_eq_true_2 by assumption.
    destruct (matches db !! params_id req) as [match_|];
      [|intros [= <- <-]; discriminate].
    destruct (updateMatchStatus_permission req match_ db) as [r|[|]] eqn:Hperm.
    + intros [= <- <-] Hcode. exfalso. revert Hperm Hcode.
      unfold updateMatchStatus_permission.
      repeat (destruct (includes _ _) || destruct (bool_decide _)
              || destruct (requests db !! _) || destruct (Donor_findOne _ _));
        simpl; try discriminate; intros [= <-]; discriminate.
    + intros _ _. exists match_. auto.
    + intros [= <- <-]; discriminate.
  - rewrite bool_decide_eq_false_2 by assumption.
    intros [= <- <-]; discriminate.
Qed.

(** X11: A user with role donor gets a 200 answer from [updateMatchStatus] only
    for a match whose donor is the user's own donor profile and only for
    the targets pending_confirmation, confirmed and rejected; a user whose
    role is none of admin, coordinator, hospital, donor never gets one. *)
Theorem updateMatchStatus_by_role
    (req : Req) (db db' : DB) (response : Response) :
  updateMatchStatus req db = (db', response) ->
  code response = 200 ->
  user_role req ∈ ["admin"; "coordinator"; "hospital"; "donor"]
  /\ (user_role req = "donor" ->
      body_status req ∈ ["pending_confirmation"; "confirmed"; "rejected"]
      /\ exists match_ donor,
           matches db !! params_id req = Some match_
           /\ Donor_findOne (user_id req) db = Some donor
           /\ Donor._id donor = Match.donor match_).
Proof.
  intros Hrun Hcode.
  destruct (updateMatchStatus_updated req db db' response Hrun Hcode)
    as (match_ & _ & Hmatch & Hperm).
  unfold updateMatchStatus_permission in Hperm.
  destruct (includes ["admin"; "coordinator"] (user_role req)) eqn:Hstaff.
  { apply includes_true in Hstaff. split.
    - apply includes_true.
      apply elem_of_cons in Hstaff as [->|Hstaff]; [reflexivity|].
      apply elem_of_cons in Hstaff as [->|Hstaff]; [reflexivity|].
      inversion Hstaff.
    - intros Hd. rewrite Hd in Hstaff. exfalso.
      apply includes_true in Hstaff. discriminate Hstaff. }
  destruct (decide (user_role req = "hospital")) as [Hh|Hh].
  { split; [rewrite Hh; apply includes_true; reflexivity|].
    intros Hd. congruence. }
  rewrite bool_decide_eq_false_2 in Hperm by assumption.
  destruct (decide (user_role req = "donor")) as [Hd|Hd].
  - rewrite bool_decide_eq_true_2 in Hperm by assumption.
    split; [rewrite Hd; apply includes_true; reflexivity|]. intros _.
    destruct (Donor_findOne (user_id req) db) as [donor|]; [|discriminate].
    destruct (decide (Donor._id donor = Match.donor match_)) as [Hid|Hid].
    + rewrite bool_decide_eq_true_2 in Hperm by assumption.
      destruct (includes _ (body_status req)) eqn:Hin; [|discriminate].
      apply includes_true in Hin. split; [assumption|].
      exists match_, donor. auto.
    + rewrite bool_decide_eq_false_2 in Hperm by assumption. discriminate.
  - rewrite bool_decide_eq_false_2 in Hperm by assumption. discriminate.
Qed.

(** X12: [updateMatchStatus] touches one match at most, the one addressed, and
    keeps its request, donor, proposer, type, urgency and outcome; it
    leaves every request as it was unless the target is rejected, and even
    then changes nothing but the status of a request. Hospitals, donors and
    users are never written. *)
Theorem updateMatchStatus_frame (req : Req) (db : DB) :
  (forall id, id <> params_id req ->
              matches (updateMatchStatus req db).1 !! id = matches db !! id)
  /\ (forall m', matches (updateMatchStatus req db).1 !! params_id req = Some m' ->
        exists m, matches db !! params_id req = Some m
                  /\ Match.request m' = Match.request m
                  /\ Match.donor m' = Match.donor m
                  /\ Match.proposedBy m' = Match.proposedBy m
                  /\ Match.matchType m' = Match.matchType m
                  /\ Match.urgencyLevel m' = Match.urgencyLevel m
                  /\ Match.outcome m' = Match.outcome m)
  /\ (body_status req <> "rejected" ->
      requests (updateMatchStatus req db).1 = requests db)
  /\ (forall rid r',
        requests (updateMatchStatus req db).1 !! rid = Some r' ->
        exists r, requests db !! rid = Some r
                  /\ (r' = r \/ r' = Request.set_status "searching" r))
  /\ hospitals (updateMatchStatus req db).1 = hospitals db
  /\ donors (updateMatchStatus req db).1 = donors db
  /\ users (updateMatchStatus req db).1 = users db.
Proof.
  pattern ((updateMatchStatus req db).1).
  match goal with |- ?P _ => set (Frame := P) end.
  assert (Hsame : Frame db) by (unfold Frame; repeat split; eauto 12).
  unfold updateMatchStatus.
  destruct (validationResult matchStatusValues req); [|exact Hsame].
  destruct (matches db !! params_id req) as [match_|] eqn:Hmatch;
    [|exact Hsame].
  destruct (updateMatchStatus_permission req match_ db) as [?|[|]];
    [exact Hsame| |exact Hsame].
  clear Hsame. unfold Frame. clear Frame.
  unfold Request_findByIdAndUpdate_status.
  destruct (decide (body_status req = "rejected")) as [Hrej|Hrej].
  - rewrite bool_decide_eq_true_2 by assumption. simpl.
    destruct (requests db !! Match.request match_) as [r0|] eqn:Hr0; simpl.
    + split; [intros id Hid; apply lookup_insert_ne; congruence|].
      split.
      { intros m'. rewrite lookup_insert_eq. intros [= <-].
        exists match_. auto 10. }
      split; [contradiction|].
      split; [|auto].
      intros rid r'. destruct (decide (rid = Match.request match_)) as [->|Hne].
      * rewrite lookup_insert_eq. intros [= <-]. exists r0. auto.
      * rewrite lookup_insert_ne by congruence. intros Hr. exists r'. auto.
    + split; [intros id Hid; apply lookup_insert_ne; congruence|].
      split.
      { intros m'. rewrite lookup_insert_eq. intros [= <-].
        exists match_. auto 10. }
      split; [contradiction|]. split; [|auto].
      intros rid r' Hr. exists r'. auto.
  - rewrite bool_decide_eq_false_2 by assumption. simpl.
    split; [intros id Hid; apply lookup_insert_ne; congruence|].
    split.
    { intros m'. rewrite lookup_insert_eq. intros [= <-].
      exists match_. auto 10. }
    split; [reflexivity|]. split; [|auto].
    intros rid r' Hr. exists r'. auto.
Qed.

Lemma updateMatchStatus_frame_witness :
  requests (updateMatchStatus (Fixture.adminReq 5%N "confirmed" false)
              Fixture.dbCancelled).1
  = requests Fixture.dbCancelled.
Proof.
  destruct (updateMatchStatus_frame (Fixture.adminReq 5%N "confirmed" false)
              Fixture.dbCancelled) as (_ & _ & Hreq & _).
  apply Hreq. discriminate.
Defined.

Lemma updateMatchStatus_by_role_witness :
  body_status (Scenario.donorReq "confirmed")
  ∈ ["pending_confirmation"; "confirmed"; "rejected"].
Proof.
  destruct (updateMatchStatus_by_role (Scenario.donorReq "confirmed")
              Scenario.dbProposed
              (updateMatchStatus (Scenario.donorReq "confirmed")
                 Scenario.dbProposed).1
              (updateMatchStatus (Scenario.donorReq "confirmed")
                 Scenario.dbProposed).2)
    as (_ & Hdonor).
  - reflexivity.
  - reflexivity.
  - destruct Hdonor as (Hin & _); [reflexivity|exact Hin].
Defined.

Lemma findPotentialMatches_without_bloodType_witness :
  findPotentialMatches Fixture.flatDistance Fixture.env0 Fixture.searchReq
    Scenario.dbOrgan
  = (Scenario.dbOrgan, json (Candidates [])).
Proof.
  apply (findPotentialMatches_without_bloodType Fixture.flatDistance
           Fixture.env0 Fixture.searchReq Scenario.dbOrgan
           Scenario.organRequest).
  - reflexivity.
  - intros H. discriminate H.
  - right. reflexivity.
  - reflexivity.
Defined.

Lemma findPotentialMatches_read_only_witness :
  (findPotentialMatches Fixture.flatDistance Fixture.env0 Scenario.strangerReq
     Fixture.dbTwoDonors).2
  = reply 403 "Not authorized to search matches for this request".
Proof.
  destruct (findPotentialMatches_read_only Fixture.flatDistance Fixture.env0
              Scenario.strangerReq Fixture.dbTwoDonors) as (_ & _ & H403 & _).
  apply (H403 (Fixture.bloodRequest O_neg "searching")); reflexivity.
Defined.

(** ** Outcome reports in general *)

(** X13: For every match, whatever its current status, an outcome report by an
    actor with permission sets the status to completed (success) or failed,
    appends exactly one history entry carrying that status and the actor,
    records the outcome with the reporting time and actor, and keeps
    request, donor, proposer, type and urgency of the match; the owning
    request, when it exists, gets status fulfilled or searching and is
    otherwise unchanged; no other match or request is touched. *)
Theorem reportOutcome_effect
    (env : Env) (req : Req) (db : DB) (match_ : Match.t) :
  matches db !! params_id req = Some match_ ->
  hasPermission req match_ db = true ->
  exists db' match',
    reportOutcome env req db = (db', json (MatchDoc match'))
    /\ matches db' !! params_id req = Some match'
    /\ Match.status match'
       = (if body_successful req then "completed" else "failed")
    /\ Match.statusHistory match'
       = (Match.statusHistory match_
          ++ [mkStatusEntry (Match.status match') (user_id req)
                (default "" (body_notes req))])%list
    /\ Match.outcome match'
       = Some (mkOutcome (body_successful req) (now env) (user_id req)
                 (default "" (body_notes req)))
    /\ Match.request match' = Match.request match_
    /\ Match.donor match' = Match.donor match_
    /\ Match.proposedBy match' = Match.proposedBy match_
    /\ Match.matchType match' = Match.matchType match_
    /\ Match.urgencyLevel match' = Match.urgencyLevel match_
    /\ requests db' !! Match.request match_
       = Request.set_status
           (if body_successful req then "fulfilled" else "searching")
         <$> (requests db !! Match.request match_)
    /\ (forall id, id <> Match.request match_ ->
                   requests db' !! id = requests db !! id)
    /\ (forall id, id <> params_id req ->
                   matches db' !! id = matches db !! id).
Proof.
  intros Hmatch Hperm. unfold reportOutcome. rewrite Hmatch, Hperm. simpl.
  destruct (requests db !! Match.request match_) as [request|] eqn:Hreq.
  - eexists. eexists. split; [reflexivity|]. simpl.
    split; [apply lookup_insert_eq|].
    repeat (split; [reflexivity|]).
    split; [apply lookup_insert_eq|].
    split; intros id Hid; apply lookup_insert_ne; congruence.
  - eexists. eexists. split; [reflexivity|]. simpl.
    split; [apply lookup_insert_eq|].
    repeat (split; [reflexivity|]).
    split; [assumption|].
    split; [reflexivity|].
    intros id Hid; apply lookup_insert_ne; congruence.
Qed.

Lemma reportOutcome_effect_witness :
  exists db' match',
    reportOutcome Fixture.env0 (Fixture.adminReq 5%N "" false)
      Fixture.dbDelivered
    = (db', json (MatchDoc match'))
    /\ Match.status match' = "failed"
    /\ Request.status <$> (requests db' !! 1%N) = Some "searching".
Proof.
  destruct (reportOutcome_effect Fixture.env0 (Fixture.adminReq 5%N "" false)
              Fixture.dbDelivered (Fixture.match0 "delivered"))
    as (db' & match' & Hrun & _ & Hst & _ & _ & _ & _ & _ & _ & _ & Hreq & _).
  - reflexivity.
  - reflexivity.
  - exists db', match'. split; [exact Hrun|]. split; [exact Hst|].
    pose proof (Hreq : requests db' !! 1%N = _) as Hreq1.
    rewrite Hreq1. reflexivity.
Defined.

(** X14: Only administrators, coordinators and the hospital that owns the
    request of the match may report an outcome: a donor, a user of any
    other role, a hospital user without a hospital profile or with another
    hospital's profile, and a hospital user when the request of the match
    is gone, are all answered 403 and nothing is written. *)
Theorem reportOutcome_forbidden
    (env : Env) (req : Req) (db : DB) (match_ : Match.t) :
  matches db !! params_id req = Some match_ ->
  user_role req ∉ ["admin"; "coordinator"] ->
  (user_role req = "hospital" ->
   forall request hospital,
     requests db !! Match.request match_ = Some request ->
     Hospital_findOne (user_id req) db = Some hospital ->
     Some (Hospital._id hospital) <> hospital_toString (Request.hospital request)) ->
  reportOutcome env req db
  = (db, reply 403 "Not authorized to report outcome for this match").
Proof.
  intros Hmatch Hstaff Hhosp. unfold reportOutcome. rewrite Hmatch.
  assert (Hperm : hasPermission req match_ db = false).
  { unfold hasPermission. apply includes_false in Hstaff. rewrite Hstaff.
    destruct (decide (user_role req = "hospital")) as [Hh|Hh].
    - rewrite bool_decide_eq_true_2 by assumption.
      destruct (requests db !! Match.request match_) as [request|];
        [|reflexivity].
      unfold owns.
      destruct (Hospital_findOne (user_id req) db) as [hospital|];
        [|reflexivity].
      apply bool_decide_eq_false_2. eapply Hhosp; eauto.
    - rewrite bool_decide_eq_false_2 by assumption. reflexivity. }
  rewrite Hperm. reflexivity.
Qed.

Lemma reportOutcome_forbidden_witness :
  reportOutcome Fixture.env0 (Scenario.donorReq "") Scenario.dbProposed
  = (Scenario.dbProposed,
     reply 403 "Not authorized to report outcome for this match").
Proof.
  apply (reportOutcome_forbidden Fixture.env0 (Scenario.donorReq "")
           Scenario.dbProposed (Fixture.match0 "proposed")).
  - reflexivity.
  - apply includes_false. reflexivity.
  - intros H. discriminate H.
Defined.

(** ** Creating, editing and deleting requests *)

(** The hospital a new request is filed under: the profile of the acting
    hospital user, otherwise the id given in the body. *)
Lemma createRequest_run
    (env : Env) (req : Req) (b : CreateRequestBody) (db : DB) :
  createRequest env req b db
  = match createRequest_validationResult b with
    | (_ :: _) as errors => (db, mkResponse 400 (Errors errors))
    | [] =>
        if bool_decide (user_role req = "hospital") then
          match Hospital_findOne (user_id req) db with
          | None => (db, reply 404 "Hospital profile not found")
          | Some hospital =>
              let request :=
                Request.mk (Ref (Hospital._id hospital)) (create_requestType b)
                  (if bool_decide (create_requestType b = "blood")
                   then create_bloodType b else None)
                  (if bool_decide (create_requestType b = "blood") then None
                   else if bool_decide (create_requestType b = "organ")
                   then create_organType b else None)
                  (default "" (create_recipientDetails b)) "pending" [] [] in
              (set_requests (<[newId env := request]> (requests db)) db,
               mkResponse 201 (RequestDoc request))
          end
        else
          match create_hospital b with
          | None => (db, reply 400 "Hospital ID is required")
          | Some hospitalId =>
              let request :=
                Request.mk (Ref hospitalId) (create_requestType b)
                  (if bool_decide (create_requestType b = "blood")
                   then create_bloodType b else None)
                  (if bool_decide (create_requestType b = "blood") then None
                   else if bool_decide (create_requestType b = "organ")
                   then create_organType b else None)
                  (default "" (create_recipientDetails b)) "pending" [] [] in
              (set_requests (<[newId env := request]> (requests db)) db,
               mkResponse 201 (RequestDoc request))
          end
    end.
Proof.
  unfold createRequest.
  destruct (createRequest_validationResult b); [|reflexivity].
  destruct (bool_decide (user_role req = "hospital")).
  - destruct (Hospital_findOne (user_id req) db); reflexivity.
  - destruct (create_hospital b); reflexivity.
Qed.

Lemma createRequest_validationResult_nil (b : CreateRequestBody) :
  createRequest_validationResult b = []
  <-> create_requestType b ∈ ["blood"; "organ"]
      /\ is_Some (create_recipientDetails b)
      /\ is_Some (create_requiredBy b).
Proof.
  unfold createRequest_validationResult. split.
  - destruct (includes ["blood"; "organ"] (create_requestType b)) eqn:Ht;
      [|discriminate].
    destruct (create_recipientDetails b) as [u|]; [|discriminate].
    destruct (create_requiredBy b) as [t|]; [|discriminate].
    intros _. split; [apply includes_true; assumption|]. split; eauto.
  - intros (H1 & [u ->] & [t ->]). apply includes_true in H1.
    rewrite H1. reflexivity.
Qed.

(** A 201 answer of [createRequest] pins down what happened. *)
Lemma createRequest_created
    (env : Env) (req : Req) (b : CreateRequestBody) (db db' : DB)
    (response : Response) :
  createRequest env req b db = (db', response) ->
  code response = 201 ->
  exists hospitalId,
    createRequest_validationResult b = []
    /\ (if bool_decide (user_role req = "hospital")
        then Hospital._id <$> Hospital_findOne (user_id req) db
        else create_hospital b) = Some hospitalId
    /\ let request :=
         Request.mk (Ref hospitalId) (create_requestType b)
           (if bool_decide (create_requestType b = "blood")
            then create_bloodType b else None)
           (if bool_decide (create_requestType b = "blood") then None
            else if bool_decide (create_requestType b = "organ")
            then create_organType b else None)
           (default "" (create_recipientDetails b)) "pending" [] [] in
       response = mkResponse 201 (RequestDoc request)
       /\ db' = set_requests (<[newId env := request]> (requests db)) db.
Proof.
  rewrite createRequest_run.
  destruct (createRequest_validationResult b);
    [|intros [= <- <-]; discriminate].
  destruct (bool_decide (user_role req = "hospital")).
  - destruct (Hospital_findOne (user_id req) db) as [h|];
      [|intros [= <- <-]; discriminate].
    intros [= <- <-] _. exists (Hospital._id h). auto.
  - destruct (create_hospital b) as [hid|];
      [|intros [= <- <-]; discriminate].
    intros [= <- <-] _. exists hid. auto.
Qed.

(** X15: [createRequest] answers 201 exactly when the request type is blood or
    organ, recipient details and a valid date are given, and a hospital is
    known: for a hospital user its own profile (the hospital id of the body
    is ignored), for anybody else the id in the body. The request it then
    stores under the new id is pending, with an empty status history and no
    matches; it carries the blood type only when its type is blood and the
    organ type only when its type is organ, also when the body has both. *)
Theorem createRequest_spec
    (env : Env) (req : Req) (b : CreateRequestBody) (db : DB) :
  (code (createRequest env req b db).2 = 201
   <-> create_requestType b ∈ ["blood"; "organ"]
       /\ is_Some (create_recipientDetails b)
       /\ is_Some (create_requiredBy b)
       /\ is_Some (if bool_decide (user_role req = "hospital")
                   then Hospital._id <$> Hospital_findOne (user_id req) db
                   else create_hospital b))
  /\ (code (createRequest env req b db).2 = 201 ->
      exists request hospitalId,
        (createRequest env req b db).2 = mkResponse 201 (RequestDoc request)
        /\ requests (createRequest env req b db).1 !! newId env = Some request
        /\ (forall id, id <> newId env ->
              requests (createRequest env req b db).1 !! id
              = requests db !! id)
        /\ matches (createRequest env req b db).1 = matches db
        /\ Request.status request = "pending"
        /\ Request.statusHistory request = []
        /\ Request.matches request = []
        /\ Request.requestType request = create_requestType b
        /\ Request.hospital request = Ref hospitalId
        /\ (user_role req = "hospital" ->
            exists hospital,
              Hospital_findOne (user_id req) db = Some hospital
              /\ hospitalId = Hospital._id hospital)
        /\ (user_role req <> "hospital" -> create_hospital b = Some hospitalId)
        /\ (create_requestType b = "blood" ->
            Request.bloodType request = create_bloodType b
            /\ Request.organType request = None)
        /\ (create_requestType b = "organ" ->
            Request.bloodType request = None
            /\ Request.organType request = create_organType b)).
Proof.
  split.
  - pose proof (createRequest_validationResult_nil b) as Hv.
    assert (H : code (createRequest env req b db).2 = 201
                <-> createRequest_validationResult b = []
                    /\ is_Some (if bool_decide (user_role req = "hospital")
                                then Hospital._id
                                     <$> Hospital_findOne (user_id req) db
                                else create_hospital b)).
    { rewrite createRequest_run.
      destruct (createRequest_validationResult b) as [|e errors].
      - destruct (bool_decide (user_role req = "hospital")).
        + destruct (Hospital_findOne (user_id req) db) as [h|]; simpl.
          * split; [intros _; split; [reflexivity|eauto]|reflexivity].
          * split; [discriminate|]. intros [_ [? H]]. discriminate H.
        + destruct (create_hospital b) as [hid|]; simpl.
          * split; [intros _; split; [reflexivity|eauto]|reflexivity].
          * split; [discriminate|]. intros [_ [? H]]. discriminate H.
      - simpl. split; [discriminate|]. intros [H _]. discriminate H. }
    rewrite H, Hv. tauto.
  - intros Hcode.
    destruct (createRequest_created env req b db _ _
                (surjective_pairing _) Hcode)
      as (hid & _ & Hhid & Hresp & Hdb).
    rewrite Hresp, Hdb. eexists _, hid. split; [reflexivity|]. simpl.
    split; [apply lookup_insert_eq|].
    split; [intros id Hid; apply lookup_insert_ne; congruence|].
    repeat (split; [reflexivity|]).
    split; [|split; [|split]].
    + intros Hh. rewrite bool_decide_eq_true_2 in Hhid by assumption.
      destruct (Hospital_findOne (user_id req) db) as [h|]; [|discriminate].
      injection Hhid as <-. eauto.
    + intros Hh. rewrite bool_decide_eq_false_2 in Hhid by assumption.
      assumption.
    + intros ->. split; reflexivity.
    + intros ->. split; reflexivity.
Qed.

Lemma createRequest_spec_witness :
  exists request,
    (createRequest Scenario.env1 (Scenario.hospitalReq 1%N) Scenario.organBody
       (Scenario.withHospital Fixture.dbNoMatch)).2
    = mkResponse 201 (RequestDoc request)
    /\ Request.hospital request = Ref 10%N
    /\ Request.bloodType request = None.
Proof.
  destruct (createRequest_spec Scenario.env1 (Scenario.hospitalReq 1%N)
              Scenario.organBody (Scenario.withHospital Fixture.dbNoMatch))
    as [_ Heffect].
  destruct Heffect
    as (request & hid & Hresp & _ & _ & _ & _ & _ & _ & _ & Hhosp & Hown & _
        & _ & Horgan); [reflexivity|].
  exists request. split; [exact Hresp|]. split.
  - rewrite Hhosp. destruct (Hown eq_refl) as (h & Hh & ->).
    injection Hh as <-. reflexivity.
  - apply Horgan. reflexivity.
Defined.

(** X17: [deleteRequest], for a stored request and an actor allowed to delete
    it: a request without matches is removed (its id is free afterwards,
    every other request and all matches stay); a request that lists at
    least one match is kept and the call is refused with 400. *)
Theorem deleteRequest_spec (req : Req) (db : DB) (request : Request.t) :
  requests db !! params_id req = Some request ->
  (user_role req = "hospital" ->
   owns (Hospital_findOne (user_id req) db) request = true) ->
  (Request.matches request = [] ->
   (deleteRequest req db).2 = json (Msg "Request removed")
   /\ requests (deleteRequest req db).1 !! params_id req = None
   /\ (forall id, id <> params_id req ->
         requests (deleteRequest req db).1 !! id = requests db !! id)
   /\ matches (deleteRequest req db).1 = matches db)
  /\ (Request.matches request <> [] ->
      deleteRequest req db
      = (db, reply 400 "Cannot delete request with existing matches")).
Proof.
  intros Hreq Hperm. unfold deleteRequest.
  rewrite Hreq, (hospital_guard _ _ _ Hperm). split.
  - intros ->. simpl. split; [reflexivity|].
    split; [apply lookup_delete_eq|].
    split; [intros id Hid; apply lookup_delete_ne; congruence|reflexivity].
  - intros Hne. rewrite bool_decide_eq_true_2; [reflexivity|].
    destruct (Request.matches request); [contradiction|simpl; lia].
Qed.

Lemma deleteRequest_spec_witness :
  requests (deleteRequest (Fixture.adminReq 1%N "" false)
              Fixture.dbNoMatch).1 !! 1%N = None.
Proof.
  destruct (deleteRequest_spec (Fixture.adminReq 1%N "" false)
              Fixture.dbNoMatch (Fixture.bloodRequest O_neg "searching"))
    as [Hgone _].
  - reflexivity.
  - intros H. discriminate H.
  - destruct Hgone as (_ & Hnone & _); [reflexivity|exact Hnone].
Defined.

(** X19: [updateRequest], for a stored request and an actor allowed to edit it:
    the call is refused with 400 exactly when the status of the request is
    fulfilled or cancelled (a request in any other status, completed
    included, is edited); an edit keeps status, status history, matches,
    hospital, type, blood type and organ type of the request and changes no
    other request and no match. *)
Theorem updateRequest_spec
    (req : Req) (b : UpdateRequestBody) (db : DB) (request : Request.t) :
  requests db !! params_id req = Some request ->
  (user_role req = "hospital" ->
   owns (Hospital_findOne (user_id req) db) request = true) ->
  (Request.status request ∈ ["fulfilled"; "cancelled"]
   <-> updateRequest req b db
       = (db, reply 400
                "Cannot update request that is already fulfilled or cancelled"))
  /\ (Request.status request ∉ ["fulfilled"; "cancelled"] ->
      exists request',
        (updateRequest req b db).2 = json (RequestDoc request')
        /\ requests (updateRequest req b db).1 !! params_id req = Some request'
        /\ Request.status request' = Request.status request
        /\ Request.statusHistory request' = Request.statusHistory request
        /\ Request.matches request' = Request.matches request
        /\ Request.hospital request' = Request.hospital request
        /\ Request.requestType request' = Request.requestType request
        /\ Request.bloodType request' = Request.bloodType request
        /\ Request.organType request' = Request.organType request
        /\ (forall id, id <> params_id req ->
              requests (updateRequest req b db).1 !! id = requests db !! id)
        /\ matches (updateRequest req b db).1 = matches db).
Proof.
  intros Hreq Hperm. unfold updateRequest.
  rewrite Hreq, (hospital_guard _ _ _ Hperm).
  destruct (includes ["fulfilled"; "cancelled"] (Request.status request))
    eqn:Hclosed.
  - apply includes_true in Hclosed. split; [tauto|]. contradiction.
  - apply includes_false in Hclosed. split.
    + split; [contradiction|]. intros H. discriminate H.
    + intros _. eexists. simpl. split; [reflexivity|].
      split; [apply lookup_insert_eq|].
      destruct (update_recipientDetails b) as [u|];
        destruct (update_urgencyLevel b) as [u'|];
        try destruct (bool_decide (u' = ""));
        repeat (split; [reflexivity|]);
        (split; [intros id Hid; apply lookup_insert_ne; congruence
                |reflexivity]).
Qed.

Lemma updateRequest_spec_witness :
  exists request',
    (updateRequest (Fixture.adminReq 1%N "" false) Scenario.urgencyBody
       Fixture.dbCompleted).2 = json (RequestDoc request')
    /\ Request.status request' = "completed".
Proof.
  destruct (updateRequest_spec (Fixture.adminReq 1%N "" false)
              Scenario.urgencyBody Fixture.dbCompleted
              (Fixture.bloodRequest O_neg "completed")) as [_ Hedit].
  - reflexivity.
  - intros H. discriminate H.
  - destruct Hedit as (request' & Hresp & _ & Hst & _).
    + apply includes_false. reflexivity.
    + exists request'. split; [exact Hresp|exact Hst].
Defined.

(** X21: Each of the three request handlers either answers with its success
    code (201 for [createRequest], 200 for [updateRequest] and
    [deleteRequest]) or returns the database exactly as it received it. *)
Theorem request_handlers_errors_write_nothing
    (env : Env) (req : Req) (cb : CreateRequestBody) (ub : UpdateRequestBody)
    (db : DB) :
  (code (createRequest env req cb db).2 <> 201 ->
   (createRequest env req cb db).1 = db)
  /\ (code (updateRequest req ub db).2 <> 200 ->
      (updateRequest req ub db).1 = db)
  /\ (code (deleteRequest req db).2 <> 200 ->
      (deleteRequest req db).1 = db).
Proof.
  split; [|split].
  - rewrite createRequest_run.
    destruct (createRequest_validationResult cb); [|reflexivity].
    destruct (bool_decide _).
    + destruct (Hospital_findOne _ _); [|reflexivity].
      simpl. intros H. contradiction H. reflexivity.
    + destruct (create_hospital cb); [|reflexivity].
      simpl. intros H. contradiction H. reflexivity.
  - unfold updateRequest.
    destruct (requests db !! params_id req); [|reflexivity].
    destruct (_ && _); [reflexivity|].
    destruct (includes _ _); [reflexivity|].
    simpl. intros H. contradiction H. reflexivity.
  - unfold deleteRequest.
    destruct (requests db !! params_id req); [|reflexivity].
    destruct (_ && _); [reflexivity|].
    destruct (bool_decide _); [reflexivity|].
    simpl. intros H. contradiction H. reflexivity.
Qed.

Lemma request_handlers_errors_write_nothing_witness :
  (deleteRequest (Fixture.adminReq 7%N "" false) Fixture.dbNoMatch).1
  = Fixture.dbNoMatch.
Proof.
  destruct (request_handlers_errors_write_nothing Fixture.env0
              (Fixture.adminReq 7%N "" false) Scenario.organBody
              Scenario.urgencyBody Fixture.dbNoMatch) as (_ & _ & Hdelete).
  apply Hdelete. vm_compute. discriminate.
Defined.

(** ** Sequences of calls: what is kept *)

Lemma sameRequest_refl (r : Request.t) : sameRequest r r.
Proof. repeat split; reflexivity. Qed.

Lemma sameMatch_refl (m : Match.t) : sameMatch m m.
Proof. repeat split; reflexivity. Qed.

Lemma sameMatch_trans (m1 m2 m3 : Match.t) :
  sameMatch m1 m2 -> sameMatch m2 m3 -> sameMatch m1 m3.
Proof.
  intros (? & ? & ? & ? & ? & ?) (? & ? & ? & ? & ? & ?).
  repeat split; try congruence. etransitivity; eassumption.
Qed.

Lemma updateRequestStatus_writes (req : Req) (db : DB) :
  rtc write db (updateRequestStatus req db).1.
Proof.
  unfold updateRequestStatus.
  destruct (validationResult _ _); [|reflexivity].
  destruct (requests db !! params_id req) as [r|] eqn:Hr; [|reflexivity].
  destruct (_ && _); [reflexivity|].
  apply rtc_once. eapply write_request; [eassumption|].
  repeat split; try reflexivity. simpl. apply prefix_app_r. reflexivity.
Qed.

Lemma updateRequest_writes (req : Req) (b : UpdateRequestBody) (db : DB) :
  rtc write db (updateRequest req b db).1.
Proof.
  unfold updateRequest.
  destruct (requests db !! params_id req) as [r|] eqn:Hr; [|reflexivity].
  destruct (_ && _); [reflexivity|].
  destruct (includes _ _); [reflexivity|].
  apply rtc_once. eapply write_request; [eassumption|].
  destruct (update_recipientDetails b) as [u|];
    destruct (update_urgencyLevel b) as [u'|];
    try destruct (bool_decide (u' = ""));
    repeat split; reflexivity.
Qed.

Lemma createRequest_writes
    (env : Env) (req : Req) (b : CreateRequestBody) (db : DB) :
  requests db !! newId env = None ->
  rtc write db (createRequest env req b db).1.
Proof.
  intros Hfresh. rewrite createRequest_run.
  destruct (createRequest_validationResult b); [|reflexivity].
  destruct (bool_decide _).
  - destruct (Hospital_findOne _ _); [|reflexivity].
    apply rtc_once. apply write_new_request; [assumption|reflexivity].
  - destruct (create_hospital b); [|reflexivity].
    apply rtc_once. apply write_new_request; [assumption|reflexivity].
Qed.

Lemma confirmMatch_writes (env : Env) (req : Req) (db : DB) :
  matches db !! newId env = None ->
  rtc write db (confirmMatch env req db).1.
Proof.
  intros Hfresh. unfold confirmMatch.
  destruct (requests db !! params_requestId req) as [r|] eqn:Hr;
    [|reflexivity].
  destruct (Donor_findById _ _) as [donor|]; [|reflexivity].
  destruct (_ && _); [reflexivity|].
  destruct (Match_findOne _ _ _); [reflexivity|].
  eapply rtc_l.
  { eapply (write_request db (params_requestId req) r
              (Request.set_status "matched" r)); [assumption|].
    repeat split; reflexivity. }
  eapply rtc_l; [|reflexivity].
  match goal with
  | |- write ?d1 (?d2, _).1 =>
      replace (d2, mkResponse 201 _).1
        with (set_requests
                (<[params_requestId req :=
                     Request.set_matches
                       (Request.matches (Request.set_status "matched" r)
                        ++ [newId env])
                       (Request.set_status "matched" r)]> (requests d1))
                (set_matches
                   (<[newId env :=
                        Match.mk (params_requestId req) (Donor._id donor)
                          "proposed" (user_id req) (Request.requestType r)
                          (Request.urgencyLevel r) [] None]> (matches d1))
                   d1))
  end.
  - apply write_new_match; simpl;
      [apply lookup_insert_eq|assumption|reflexivity].
  - simpl. unfold set_requests, set_matches. simpl.
    rewrite insert_insert_eq. reflexivity.
Qed.

Lemma updateMatchStatus_writes (req : Req) (db : DB) :
  rtc write db (updateMatchStatus req db).1.
Proof.
  unfold updateMatchStatus.
  destruct (validationResult _ _); [|reflexivity].
  destruct (matches db !! params_id req) as [m|] eqn:Hm; [|reflexivity].
  destruct (updateMatchStatus_permission _ _ _) as [?|[|]];
    [reflexivity| |reflexivity].
  eapply rtc_l.
  { eapply write_match; [eassumption|].
    instantiate (1 := Match.push_statusHistory
                        (mkStatusEntry (body_status req) (user_id req)
                           (default "" (body_notes req)))
                        (Match.set_status (body_status req) m)).
    repeat split; try reflexivity. simpl. apply prefix_app_r. reflexivity. }
  simpl. destruct (bool_decide (body_status req = "rejected"));
    [|reflexivity].
  unfold Request_findByIdAndUpdate_status. simpl.
  destruct (requests db !! Match.request m) as [r|] eqn:Hr; [|reflexivity].
  apply rtc_once.
  match goal with
  | |- write ?d1 _ =>
      apply (write_request d1 (Match.request m) r
               (Request.set_status "searching" r)
               Hr)
  end.
  repeat split; reflexivity.
Qed.

Lemma reportOutcome_writes (env : Env) (req : Req) (db : DB) :
  rtc write db (reportOutcome env req db).1.
Proof.
  unfold reportOutcome.
  destruct (matches db !! params_id req) as [m|] eqn:Hm; [|reflexivity].
  destruct (negb _); [reflexivity|].
  eapply rtc_l.
  { eapply write_match; [eassumption|].
    instantiate
      (1 := Match.push_statusHistory
              (mkStatusEntry
                 (if body_successful req then "completed" else "failed")
                 (user_id req) (default "" (body_notes req)))
              (Match.set_status
                 (if body_successful req then "completed" else "failed")
                 (Match.set_outcome
                    (mkOutcome (body_successful req) (now env) (user_id req)
                       (default "" (body_notes req))) m))).
    repeat split; try reflexivity. simpl. apply prefix_app_r. reflexivity. }
  simpl.
  destruct (requests db !! Match.request m) as [r|] eqn:Hr; [|reflexivity].
  apply rtc_once.
  match goal with
  | |- write ?d1 _ =>
      apply (write_request d1 (Match.request m) r
               (Request.set_status
                  (if body_successful req then "fulfilled" else "searching")
                  r)
               Hr)
  end.
  repeat split; reflexivity.
Qed.

(** Every call but a deletion is a sequence of elementary writes. *)
Lemma run_writes (c : Call) (db : DB) :
  isDelete c = false -> freshId c db -> rtc write db (run c db).1.
Proof.
  destruct c; simpl; intros Hdel Hfresh; try discriminate.
  - apply createRequest_writes. assumption.
  - apply updateRequestStatus_writes.
  - apply updateRequest_writes.
  - apply confirmMatch_writes. assumption.
  - apply updateMatchStatus_writes.
  - apply reportOutcome_writes.
Qed.

(** A deletion removes a stored request without matches, or nothing. *)
Lemma deleteRequest_shape (req : Req) (db : DB) :
  (deleteRequest req db).1 = db
  \/ exists r,
       requests db !! params_id req = Some r
       /\ Request.matches r = []
       /\ (deleteRequest req db).1
          = set_requests (delete (params_id req) (requests db)) db.
Proof.
  unfold deleteRequest.
  destruct (requests db !! params_id req) as [r|] eqn:Hr; [|auto].
  destruct (_ && _); [auto|].
  destruct (Request.matches r) as [|mid ms] eqn:Hms.
  - right. exists r. simpl. auto.
  - left. reflexivity.
Qed.

Lemma write_consistent (db db' : DB) :
  write db db' -> consistent db -> consistent db'.
Proof.
  intros Hw [Hmatch Hreq].
  destruct Hw as [db rid r r' Hr Hsame | db mid m m' Hm Hsame
                 | db rid r Hr Hnil | db rid mid r m Hr Hm Hmr].
  - destruct Hsame as (_ & _ & _ & _ & Hms & _). split; simpl.
    + intros mid m Hm. destruct (Hmatch mid m Hm) as (r0 & Hr0 & Hin).
      destruct (decide (Match.request m = rid)) as [Heq|Hne].
      * rewrite Heq, lookup_insert_eq. rewrite Heq, Hr in Hr0.
        injection Hr0 as <-. exists r'. rewrite Hms. auto.
      * rewrite lookup_insert_ne by congruence. eauto.
    + intros rid0 r0 mid.
      destruct (decide (rid0 = rid)) as [->|Hne].
      * rewrite lookup_insert_eq. intros [= <-]. rewrite Hms.
        apply (Hreq rid r mid Hr).
      * rewrite lookup_insert_ne by congruence. apply Hreq.
  - destruct Hsame as (Hmr & _). split; simpl.
    + intros mid0 m0.
      destruct (decide (mid0 = mid)) as [->|Hne].
      * rewrite lookup_insert_eq. intros [= <-]. rewrite Hmr.
        apply (Hmatch mid m Hm).
      * rewrite lookup_insert_ne by congruence. apply Hmatch.
    + intros rid r mid0 Hr Hin.
      destruct (Hreq rid r mid0 Hr Hin) as (m0 & Hm0 & Hm0r).
      destruct (decide (mid0 = mid)) as [->|Hne].
      * rewrite lookup_insert_eq. exists m'. split; [reflexivity|].
        rewrite Hm in Hm0. injection Hm0 as <-. congruence.
      * rewrite lookup_insert_ne by congruence. eauto.
  - split; simpl.
    + intros mid m Hm. destruct (Hmatch mid m Hm) as (r0 & Hr0 & Hin).
      assert (Match.request m <> rid) by congruence.
      rewrite lookup_insert_ne by congruence. eauto.
    + intros rid0 r0 mid.
      destruct (decide (rid0 = rid)) as [->|Hne].
      * rewrite lookup_insert_eq. intros [= <-]. rewrite Hnil.
        intros Hin. inversion Hin.
      * rewrite lookup_insert_ne by congruence. apply Hreq.
  - split; simpl.
    + intros mid0 m0.
      destruct (decide (mid0 = mid)) as [->|Hne].
      * rewrite lookup_insert_eq. intros [= <-]. rewrite Hmr.
        rewrite lookup_insert_eq. eexists. split; [reflexivity|].
        simpl. apply elem_of_app. right. apply list_elem_of_here.
      * rewrite lookup_insert_ne by congruence. intros Hm0.
        destruct (Hmatch mid0 m0 Hm0) as (r0 & Hr0 & Hin).
        destruct (decide (Match.request m0 = rid)) as [Heq|Hne'].
        -- rewrite Heq, lookup_insert_eq. rewrite Heq, Hr in Hr0.
           injection Hr0 as <-. eexists. split; [reflexivity|].
           simpl. apply elem_of_app. auto.
        -- rewrite lookup_insert_ne by congruence. eauto.
    + intros rid0 r0 mid0.
      destruct (decide (rid0 = rid)) as [->|Hne].
      * rewrite lookup_insert_eq. intros [= <-]. simpl.
        intros Hin. apply elem_of_app in Hin as [Hin|Hin].
        -- destruct (Hreq rid r mid0 Hr Hin) as (m0 & Hm0 & Hm0r).
           assert (mid0 <> mid) by congruence.
           rewrite lookup_insert_ne by congruence. eauto.
        -- apply list_elem_of_singleton in Hin as ->.
           rewrite lookup_insert_eq. eauto.
      * rewrite lookup_insert_ne by congruence. intros Hr0 Hin.
        destruct (Hreq rid0 r0 mid0 Hr0 Hin) as (m0 & Hm0 & Hm0r).
        assert (mid0 <> mid) by congruence.
        rewrite lookup_insert_ne by congruence. eauto.
Qed.

Lemma writes_consistent (db db' : DB) :
  rtc write db db' -> consistent db -> consistent db'.
Proof.
  induction 1 as [|db1 db2 db3 Hw _ IH]; [auto|].
  intros Hc. apply IH. exact (write_consistent _ _ Hw Hc).
Qed.

Lemma deleteRequest_consistent (req : Req) (db : DB) :
  consistent db -> consistent (deleteRequest req db).1.
Proof.
  intros [Hmatch Hreq].
  destruct (deleteRequest_shape req db) as [->|(r & Hr & Hnil & ->)];
    [split; assumption|].
  split; simpl.
  - intros mid m Hm. destruct (Hmatch mid m Hm) as (r0 & Hr0 & Hin).
    destruct (decide (Match.request m = params_id req)) as [Heq|Hne].
    + rewrite Heq, Hr in Hr0. injection Hr0 as <-.
      rewrite Hnil in Hin. inversion Hin.
    + rewrite lookup_delete_ne by congruence. eauto.
  - intros rid r0 mid.
    destruct (decide (rid = params_id req)) as [->|Hne].
    + rewrite lookup_delete_eq. discriminate.
    + rewrite lookup_delete_ne by congruence. apply Hreq.
Qed.

Lemma run_consistent (c : Call) (db : DB) :
  freshId c db -> consistent db -> consistent (run c db).1.
Proof.
  intros Hfresh Hc. destruct (isDelete c) eqn:Hdel.
  - destruct c; try discriminate. simpl.
    apply deleteRequest_consistent. assumption.
  - exact (writes_consistent _ _ (run_writes c db Hdel Hfresh) Hc).
Qed.

(** X22: Referential integrity is an invariant of the seven writing handlers.
    If every match belongs to a stored request that lists it and every
    listed match is stored and belongs to the listing request, the same
    holds after any sequence of calls to [createRequest],
    [updateRequestStatus], [updateRequest], [deleteRequest],
    [confirmMatch], [updateMatchStatus] and [reportOutcome] in which new
    documents get unused ids; in particular it holds of every database
    built by such calls from one without requests and matches. *)
Theorem consistent_runAll (cs : list Call) (db : DB) :
  freshIds cs db ->
  (consistent db -> consistent (runAll cs db))
  /\ (requests db = ∅ -> matches db = ∅ -> consistent (runAll cs db)).
Proof.
  intros Hfresh.
  assert (Hinv : consistent db -> consistent (runAll cs db)).
  { revert db Hfresh. induction cs as [|c cs IH]; intros db Hfresh Hc;
      [exact Hc|].
    destruct Hfresh as [Hc1 Hcs]. simpl. apply IH; [assumption|].
    apply run_consistent; assumption. }
  split; [assumption|].
  intros Hr Hm. apply Hinv. split.
  - intros mid m. rewrite Hm, lookup_empty. discriminate.
  - intros rid r mid. rewrite Hr, lookup_empty. discriminate.
Qed.

Lemma consistent_runAll_witness :
  consistent (runAll Scenario.life Scenario.dbEmpty).
Proof.
  destruct (consistent_runAll Scenario.life Scenario.dbEmpty) as [_ Hempty].
  - vm_compute. repeat split; reflexivity.
  - apply Hempty; reflexivity.
Defined.

Lemma matchesKept_refl (db : DB) : matchesKept db db.
Proof. intros mid m Hm. exists m. split; [assumption|apply sameMatch_refl]. Qed.

Lemma matchesKept_same (db db' : DB) :
  matches db' = matches db -> matchesKept db db'.
Proof.
  intros Heq mid m Hm. exists m. rewrite Heq.
  split; [assumption|apply sameMatch_refl].
Qed.

Lemma requestsKept_same (db db' : DB) :
  requests db' = requests db -> requestsKept db db'.
Proof.
  intros Heq rid r Hr. exists r. rewrite Heq. repeat split; auto.
Qed.

Lemma matchesKept_trans (db1 db2 db3 : DB) :
  matchesKept db1 db2 -> matchesKept db2 db3 -> matchesKept db1 db3.
Proof.
  intros H12 H23 mid m Hm.
  destruct (H12 mid m Hm) as (m2 & Hm2 & Hs12).
  destruct (H23 mid m2 Hm2) as (m3 & Hm3 & Hs23).
  exists m3. split; [assumption|]. eapply sameMatch_trans; eassumption.
Qed.

Lemma requestsKept_refl (db : DB) : requestsKept db db.
Proof. intros rid r Hr. exists r. repeat split; auto. Qed.

Lemma requestsKept_trans (db1 db2 db3 : DB) :
  requestsKept db1 db2 -> requestsKept db2 db3 -> requestsKept db1 db3.
Proof.
  intros H12 H23 rid r Hr.
  destruct (H12 rid r Hr) as (r2 & Hr2 & ? & ? & ? & ? & ? & ?).
  destruct (H23 rid r2 Hr2) as (r3 & Hr3 & ? & ? & ? & ? & ? & ?).
  exists r3. repeat split; try congruence; etransitivity; eassumption.
Qed.

Lemma write_kept (db db' : DB) :
  write db db' -> matchesKept db db' /\ requestsKept db db'.
Proof.
  intros Hw.
  destruct Hw as [db rid r r' Hr Hsame | db mid m m' Hm Hsame
                 | db rid r Hr Hnil | db rid mid r m Hr Hm Hmr].
  - split; [apply matchesKept_same; reflexivity|].
    intros rid0 r0 Hr0. simpl.
    destruct (decide (rid0 = rid)) as [->|Hne].
    + rewrite lookup_insert_eq. exists r'.
      rewrite Hr in Hr0. injection Hr0 as <-.
      destruct Hsame as (? & ? & ? & ? & Hms & ?).
      repeat split; auto. rewrite Hms. reflexivity.
    + rewrite lookup_insert_ne by congruence. exists r0. repeat split; auto.
  - split; [|apply requestsKept_same; reflexivity].
    intros mid0 m0 Hm0. simpl.
    destruct (decide (mid0 = mid)) as [->|Hne].
    + rewrite lookup_insert_eq. exists m'.
      rewrite Hm in Hm0. injection Hm0 as <-. auto.
    + rewrite lookup_insert_ne by congruence. exists m0.
      split; [assumption|apply sameMatch_refl].
  - split; [apply matchesKept_same; reflexivity|].
    intros rid0 r0 Hr0. simpl.
    assert (rid0 <> rid) by congruence.
    rewrite lookup_insert_ne by congruence. exists r0. repeat split; auto.
  - split.
    + intros mid0 m0 Hm0. simpl.
      assert (mid0 <> mid) by congruence.
      rewrite lookup_insert_ne by congruence. exists m0.
      split; [assumption|apply sameMatch_refl].
    + intros rid0 r0 Hr0. simpl.
      destruct (decide (rid0 = rid)) as [->|Hne].
      * rewrite lookup_insert_eq. eexists. split; [reflexivity|].
        rewrite Hr in Hr0. injection Hr0 as <-. simpl.
        repeat split; auto. apply prefix_app_r. reflexivity.
      * rewrite lookup_insert_ne by congruence. exists r0.
        repeat split; auto.
Qed.

Lemma writes_kept (db db' : DB) :
  rtc write db db' -> matchesKept db db' /\ requestsKept db db'.
Proof.
  induction 1 as [db|db1 db2 db3 Hw _ [IHm IHr]].
  - split; [apply matchesKept_refl|apply requestsKept_refl].
  - destruct (write_kept _ _ Hw) as [Hm Hr]. split.
    + eapply matchesKept_trans; eassumption.
    + eapply requestsKept_trans; eassumption.
Qed.

Lemma run_matchesKept (c : Call) (db : DB) :
  freshId c db -> matchesKept db (run c db).1.
Proof.
  intros Hfresh. destruct (isDelete c) eqn:Hdel.
  - destruct c; try discriminate. simpl.
    destruct (deleteRequest_shape req db) as [->|(r & _ & _ & ->)];
      apply matchesKept_same; reflexivity.
  - apply writes_kept, run_writes; assumption.
Qed.

(** X23: Histories are append-only and documents keep their identity. Along any
    sequence of calls to the seven writing handlers (new documents getting
    unused ids), a stored match stays stored and keeps its request, donor,
    proposer, type and urgency, and its status history is only extended at
    the end; along a sequence without [deleteRequest] the same holds of a
    stored request: it keeps hospital, type, blood type and organ type, and
    its list of matches and its status history are only extended at the
    end. *)
Theorem histories_append_only (cs : list Call) (db : DB) :
  freshIds cs db ->
  matchesKept db (runAll cs db)
  /\ (Forall (fun c => isDelete c = false) cs ->
      requestsKept db (runAll cs db)).
Proof.
  revert db. induction cs as [|c cs IH]; intros db Hfresh.
  - split; [apply matchesKept_refl|intros _; apply requestsKept_refl].
  - destruct Hfresh as [Hc Hcs]. destruct (IH _ Hcs) as [IHm IHr].
    simpl. split.
    + eapply matchesKept_trans; [|exact IHm].
      apply run_matchesKept. assumption.
    + intros Hnd. apply Forall_cons in Hnd as [Hd Hnd].
      eapply requestsKept_trans; [|exact (IHr Hnd)].
      apply writes_kept, run_writes; assumption.
Qed.

Lemma histories_append_only_witness :
  matchesKept Fixture.dbDelivered
    (runAll [ReportOutcome Fixture.env0 (Fixture.adminReq 5%N "" true);
             UpdateMatchStatus (Fixture.adminReq 5%N "failed" false)]
       Fixture.dbDelivered)
  /\ requestsKept Fixture.dbDelivered
       (runAll [ReportOutcome Fixture.env0 (Fixture.adminReq 5%N "" true);
                UpdateMatchStatus (Fixture.adminReq 5%N "failed" false)]
          Fixture.dbDelivered).
Proof.
  destruct (histories_append_only
              [ReportOutcome Fixture.env0 (Fixture.adminReq 5%N "" true);
               UpdateMatchStatus (Fixture.adminReq 5%N "failed" false)]
              Fixture.dbDelivered) as [Hm Hr].
  - simpl. auto.
  - split; [exact Hm|]. apply Hr. repeat constructor.
Defined.

(** ** Status and status history *)

Lemma matchCoherent_push (m : Match.t) (s notes : string) (by_ : ObjectId) :
  matchCoherent
    (Match.push_statusHistory (mkStatusEntry s by_ notes) (Match.set_status s m)).
Proof.
  intros e. simpl. rewrite last_snoc. intros [= <-]. reflexivity.
Qed.

Lemma insert_coherent (ms : gmap ObjectId Match.t) (mid : ObjectId)
    (m' : Match.t) :
  (forall id m, ms !! id = Some m -> matchCoherent m) ->
  matchCoherent m' ->
  forall id m, <[mid := m']> ms !! id = Some m -> matchCoherent m.
Proof.
  intros Hall Hm' id m.
  destruct (decide (id = mid)) as [->|Hne].
  - rewrite lookup_insert_eq. intros [= <-]. assumption.
  - rewrite lookup_insert_ne by congruence. apply Hall.
Qed.

Lemma run_matchCoherent (c : Call) (db : DB) :
  (forall id m, matches db !! id = Some m -> matchCoherent m) ->
  forall id m, matches (run c db).1 !! id = Some m -> matchCoherent m.
Proof.
  intros Hall. destruct c; simpl.
  - rewrite createRequest_run.
    destruct (createRequest_validationResult b); [|exact Hall].
    destruct (bool_decide _).
    + destruct (Hospital_findOne _ _); exact Hall.
    + destruct (create_hospital b); exact Hall.
  - unfold updateRequestStatus.
    destruct (validationResult _ _); [|exact Hall].
    destruct (requests db !! params_id req); [|exact Hall].
    destruct (_ && _); exact Hall.
  - unfold updateRequest.
    destruct (requests db !! params_id req); [|exact Hall].
    destruct (_ && _); [exact Hall|].
    destruct (includes _ _); exact Hall.
  - destruct (deleteRequest_shape req db) as [->|(r & _ & _ & ->)];
      exact Hall.
  - unfold confirmMatch.
    destruct (requests db !! params_requestId req); [|exact Hall].
    destruct (Donor_findById _ _); [|exact Hall].
    destruct (_ && _); [exact Hall|].
    destruct (Match_findOne _ _ _); [exact Hall|].
    simpl. apply insert_coherent; [exact Hall|].
    intros e. simpl. discriminate.
  - unfold updateMatchStatus.
    destruct (validationResult _ _); [|exact Hall].
    destruct (matches db !! params_id req); [|exact Hall].
    destruct (updateMatchStatus_permission _ _ _) as [?|[|]];
      [exact Hall| |exact Hall].
    simpl. destruct (bool_decide (body_status req = "rejected")).
    + rewrite matches_findByIdAndUpdate. simpl.
      apply insert_coherent; [exact Hall|apply matchCoherent_push].
    + simpl. apply insert_coherent; [exact Hall|apply matchCoherent_push].
  - unfold reportOutcome.
    destruct (matches db !! params_id req) as [m0|]; [|exact Hall].
    destruct (negb _); [exact Hall|].
    simpl. destruct (requests db !! Match.request m0); simpl;
      (apply insert_coherent;
       [exact Hall
       |apply (matchCoherent_push
                 (Match.set_outcome _ m0)
                 (if body_successful req then "completed" else "failed"))]).
Qed.

(** X24: The status of a match and its status history never drift apart: if in
    every stored match with a non-empty history the last entry carries the
    current status, this still holds after any sequence of calls to the
    seven writing handlers; a match made by [confirmMatch] starts with an
    empty history. *)
Theorem matchCoherent_runAll (cs : list Call) (db : DB) :
  (forall id m, matches db !! id = Some m -> matchCoherent m) ->
  forall id m, matches (runAll cs db) !! id = Some m -> matchCoherent m.
Proof.
  revert db. induction cs as [|c cs IH]; intros db Hall; [exact Hall|].
  simpl. apply IH. apply run_matchCoherent. exact Hall.
Qed.

Lemma matchCoherent_runAll_witness :
  exists m,
    matches (runAll Scenario.life Scenario.dbEmpty) !! 99%N = Some m
    /\ matchCoherent m.
Proof.
  eexists. split; [vm_compute; reflexivity|].
  apply (matchCoherent_runAll Scenario.life Scenario.dbEmpty
           ltac:(intros id m H; vm_compute in H; discriminate H) 99%N).
  vm_compute. reflexivity.
Defined.

Lemma insert_history (rs : gmap ObjectId Request.t) (rid0 : ObjectId)
    (r0 r0' : Request.t) :
  rs !! rid0 = Some r0 ->
  Request.statusHistory r0' = Request.statusHistory r0 ->
  forall rid r r',
    rs !! rid = Some r -> <[rid0 := r0']> rs !! rid = Some r' ->
    Request.statusHistory r' = Request.statusHistory r.
Proof.
  intros H0 Hsame rid r r' Hr.
  destruct (decide (rid = rid0)) as [->|Hne].
  - rewrite lookup_insert_eq. intros [= <-]. congruence.
  - rewrite lookup_insert_ne by congruence. congruence.
Qed.

(** X25: Only [updateRequestStatus] writes the status history of a request:
    after a call to any other writing handler, every request that is still
    stored has exactly the status history it had, also when the call
    changed its status ([confirmMatch], [updateMatchStatus] towards
    rejected, [reportOutcome]). *)
Theorem request_history_single_writer (c : Call) (db : DB) :
  isUpdateRequestStatus c = false ->
  freshId c db ->
  forall rid r r',
    requests db !! rid = Some r ->
    requests (run c db).1 !! rid = Some r' ->
    Request.statusHistory r' = Request.statusHistory r.
Proof.
  assert (Hsame : forall rid r r',
             requests db !! rid = Some r -> requests db !! rid = Some r' ->
             Request.statusHistory r' = Request.statusHistory r)
    by (intros; congruence).
  destruct c; simpl; intros Hnot Hfresh; try discriminate.
  - rewrite createRequest_run.
    destruct (createRequest_validationResult b); [|exact Hsame].
    assert (Hnew : forall x rid r r',
               requests db !! rid = Some r ->
               <[newId env := x]> (requests db) !! rid = Some r' ->
               Request.statusHistory r' = Request.statusHistory r).
    { intros x rid r r' Hr. assert (rid <> newId env) by congruence.
      rewrite lookup_insert_ne by congruence. congruence. }
    destruct (bool_decide _).
    + destruct (Hospital_findOne _ _); [apply Hnew|exact Hsame].
    + destruct (create_hospital b); [apply Hnew|exact Hsame].
  - unfold updateRequest.
    destruct (requests db !! params_id req) as [r0|] eqn:Hr0; [|exact Hsame].
    destruct (_ && _); [exact Hsame|].
    destruct (includes _ _); [exact Hsame|].
    simpl. apply (insert_history _ _ r0); [assumption|].
    destruct (update_recipientDetails b) as [u|];
      destruct (update_urgencyLevel b) as [u'|];
      try destruct (bool_decide (u' = "")); reflexivity.
  - destruct (deleteRequest_shape req db) as [->|(r0 & _ & _ & ->)];
      [exact Hsame|].
    simpl. intros rid r r' Hr.
    destruct (decide (rid = params_id req)) as [->|Hne].
    + rewrite lookup_delete_eq. discriminate.
    + rewrite lookup_delete_ne by congruence. congruence.
  - unfold confirmMatch.
    destruct (requests db !! params_requestId req) as [r0|] eqn:Hr0;
      [|exact Hsame].
    destruct (Donor_findById _ _); [|exact Hsame].
    destruct (_ && _); [exact Hsame|].
    destruct (Match_findOne _ _ _); [exact Hsame|].
    simpl. apply (insert_history _ _ r0); [assumption|reflexivity].
  - unfold updateMatchStatus.
    destruct (validationResult _ _); [|exact Hsame].
    destruct (matches db !! params_id req) as [m0|]; [|exact Hsame].
    destruct (updateMatchStatus_permission _ _ _) as [?|[|]];
      [exact Hsame| |exact Hsame].
    simpl. destruct (bool_decide (body_status req = "rejected"));
      [|exact Hsame].
    unfold Request_findByIdAndUpdate_status. simpl.
    destruct (requests db !! Match.request m0) as [r0|] eqn:Hr0;
      [|exact Hsame].
    simpl. apply (insert_history _ _ r0); [assumption|reflexivity].
  - unfold reportOutcome.
    destruct (matches db !! params_id req) as [m0|]; [|exact Hsame].
    destruct (negb _); [exact Hsame|].
    simpl. destruct (requests db !! Match.request m0) as [r0|] eqn:Hr0;
      [|exact Hsame].
    simpl. apply (insert_history _ _ r0); [assumption|reflexivity].
Qed.

Lemma request_history_single_writer_witness :
  exists r',
    requests (reportOutcome Fixture.env0 (Fixture.adminReq 5%N "" true)
                Fixture.dbDelivered).1 !! 1%N = Some r'
    /\ Request.status r' = "fulfilled"
    /\ Request.statusHistory r' = [].
Proof.
  eexists. split; [vm_compute; reflexivity|]. split; [reflexivity|].
  apply (request_history_single_writer
           (ReportOutcome Fixture.env0 (Fixture.adminReq 5%N "" true))
           Fixture.dbDelivered eq_refl I 1%N
           (Fixture.bloodRequest O_neg "in_progress")).
  - reflexivity.
  - vm_compute. reflexivity.
Defined.

(** ** Logistics *)

Lemma assignLogistics_fields (body l : Logistics) :
  assignLogistics body l
  = mkLogistics
      (if truthy (scheduledDate body)
       then scheduledDate body else scheduledDate l)
      (if truthy (transportMethod body)
       then transportMethod body else transportMethod l)
      (if truthy (transportDetails body)
       then transportDetails body else transportDetails l)
      (if truthy (additionalInstructions body)
       then additionalInstructions body else additionalInstructions l).
Proof.
  unfold assignLogistics. destruct l.
  destruct (truthy (scheduledDate body)), (truthy (transportMethod body)),
    (truthy (transportDetails body)), (truthy (additionalInstructions body));
    reflexivity.
Qed.



(** X27: Two logistics updates of the same match in a row amount to one update
    with the merged body, in which each field is the later value when that
    is truthy and the earlier one otherwise: the resulting store and the
    answer are the same. In particular sending the same body twice is the
    same as sending it once. *)
Theorem updateLogistics_twice
    (env env' : Env) (req : Req) (earlier later : Logistics) (s : MatchStore) :
  updateLogistics env' req later (updateLogistics env req earlier s).1
  = updateLogistics env' req (mergeBodies earlier later) s
  /\ mergeBodies later later = later.
Proof.
  split.
  - unfold updateLogistics.
    destruct (matches (core s) !! params_id req) as [match_|] eqn:Hm;
      simpl; [|rewrite Hm; reflexivity].
    destruct (negb (hasPermission req match_ (core s))) eqn:Hperm;
      simpl; [rewrite Hm, Hperm; reflexivity|].
    rewrite Hm, Hperm, lookup_insert_eq, !insert_insert_eq. simpl.
    assert (Hfields :
      assignLogistics later
        (assignLogistics earlier
           (default emptyLogistics (logistics s !! params_id req)))
      = assignLogistics (mergeBodies earlier later)
          (default emptyLogistics (logistics s !! params_id req))).
    { assert (Hpick : forall a b c : JSValue,
                 (if truthy b then b else if truthy a then a else c)
                 = (if truthy (if truthy b then b else a)
                    then (if truthy b then b else a) else c)).
      { intros a b c. destruct (truthy b) eqn:Hb; [rewrite Hb|]; reflexivity. }
      rewrite !assignLogistics_fields. unfold mergeBodies. simpl.
      f_equal; apply Hpick. }
    rewrite Hfields. reflexivity.
  - unfold mergeBodies. destruct later as [a b c d]. simpl.
    destruct (truthy a), (truthy b), (truthy c), (truthy d); reflexivity.
Qed.

(** ** The search after a confirmation *)

(** The answer of the search depends on the users, the hospitals and four
    fields of the request only. *)
Lemma findPotentialMatches_ext
    (calculateDistance : Q * Q -> Q * Q -> number)
    (env : Env) (req : Req) (db db' : DB) (r r' : Request.t) :
  users db' = users db ->
  hospitals db' = hospitals db ->
  requests db !! body_requestId req = Some r ->
  requests db' !! body_requestId req = Some r' ->
  Request.hospital r' = Request.hospital r ->
  Request.requestType r' = Request.requestType r ->
  Request.bloodType r' = Request.bloodType r ->
  Request.organType r' = Request.organType r ->
  (findPotentialMatches calculateDistance env req db').2
  = (findPotentialMatches calculateDistance env req db).2.
Proof.
  intros Husers Hhosp Hr Hr' Hh Ht Hb Ho.
  unfold findPotentialMatches. rewrite Hr, Hr'.
  assert (Howns : owns (Hospital_findOne (user_id req) db') r'
                  = owns (Hospital_findOne (user_id req) db) r).
  { unfold Hospital_findOne. rewrite Hhosp. apply owns_hospital. assumption. }
  rewrite Howns. destruct (_ && _); [reflexivity|].
  assert (Hfind : User_find (now env) r' db' = User_find (now env) r db).
  { unfold User_find. rewrite Husers. apply list_filter_iff. intros u.
    unfold matchCriteria. rewrite Ht, Hb, Ho. reflexivity. }
  rewrite Hfind.
  rewrite (mapM_ext (toCandidate calculateDistance r')
             (toCandidate calculateDistance r)).
  - destruct (mapM _ _); reflexivity.
  - intros u. unfold toCandidate, calculateMatchScore. rewrite Hb, Hh.
    reflexivity.
Qed.

(** X28: Confirming a match does not change what the search answers for the
    request: the search reads neither the matches nor the status of the
    request, so after a 201 of [confirmMatch] it returns the same
    candidates, the confirmed donor included if it was among them. *)
Theorem findPotentialMatches_after_confirmMatch
    (calculateDistance : Q * Q -> Q * Q -> number)
    (env env' : Env) (req req' : Req) (db db' : DB) (response : Response) :
  confirmMatch env req db = (db', response) ->
  code response = 201 ->
  body_requestId req' = params_requestId req ->
  (findPotentialMatches calculateDistance env' req' db').2
  = (findPotentialMatches calculateDistance env' req' db).2.
Proof.
  intros Hrun Hcode Hid.
  destruct (confirmMatch_created env req db db' response Hrun Hcode)
    as (request & donor & Hreq & _ & _ & _ & Hdb).
  apply (findPotentialMatches_ext calculateDistance env' req' db db' request
           (Request.set_matches (Request.matches request ++ [newId env])
              (Request.set_status "matched" request)));
    try reflexivity.
  - rewrite Hdb. reflexivity.
  - rewrite Hdb. reflexivity.
  - rewrite Hid. assumption.
  - rewrite Hid, Hdb. simpl. apply lookup_insert_eq.
Qed.

Lemma findPotentialMatches_after_confirmMatch_witness :
  (findPotentialMatches Fixture.flatDistance Fixture.env0 Fixture.searchReq
     (confirmMatch Fixture.env0 (Fixture.adminReq 5%N "" false)
        Fixture.dbNoMatch).1).2
  = (findPotentialMatches Fixture.flatDistance Fixture.env0 Fixture.searchReq
       Fixture.dbNoMatch).2.
Proof.
  apply (findPotentialMatches_after_confirmMatch Fixture.flatDistance
           Fixture.env0 Fixture.env0 (Fixture.adminReq 5%N "" false)
           Fixture.searchReq Fixture.dbNoMatch _
           (confirmMatch Fixture.env0 (Fixture.adminReq 5%N "" false)
              Fixture.dbNoMatch).2).
  - reflexivity.
  - reflexivity.
  - reflexivity.
Defined.

(** ** What holds ever after *)

Lemma writes_static (db db' : DB) :
  rtc write db db' ->
  hospitals db' = hospitals db /\ donors db' = donors db
  /\ users db' = users db.
Proof.
  induction 1 as [db|db1 db2 db3 Hw _ (IHh & IHd & IHu)]; [auto|].
  rewrite IHh, IHd, IHu. destruct Hw; auto.
Qed.

Lemma run_static (c : Call) (db : DB) :
  freshId c db ->
  hospitals (run c db).1 = hospitals db /\ donors (run c db).1 = donors db
  /\ users (run c db).1 = users db.
Proof.
  intros Hfresh. destruct (isDelete c) eqn:Hdel.
  - destruct c; try discriminate. simpl.
    destruct (deleteRequest_shape req db) as [->|(r & _ & _ & ->)]; auto.
  - apply writes_static, run_writes; assumption.
Qed.

Lemma runAll_static (cs : list Call) (db : DB) :
  freshIds cs db ->
  hospitals (runAll cs db) = hospitals db /\ donors (runAll cs db) = donors db
  /\ users (runAll cs db) = users db.
Proof.
  revert db. induction cs as [|c cs IH]; intros db Hfresh; [auto|].
  destruct Hfresh as [Hc Hcs]. simpl.
  destruct (IH _ Hcs) as (-> & -> & ->). apply run_static. assumption.
Qed.

Lemma runAll_matchesKept (cs : list Call) (db : DB) :
  freshIds cs db -> matchesKept db (runAll cs db).
Proof.
  revert db. induction cs as [|c cs IH]; intros db Hfresh;
    [apply matchesKept_refl|].
  destruct Hfresh as [Hc Hcs]. simpl.
  eapply matchesKept_trans; [|exact (IH _ Hcs)].
  apply run_matchesKept. assumption.
Qed.

Lemma runAll_requestsKept (cs : list Call) (db : DB) :
  freshIds cs db ->
  Forall (fun c => isDelete c = false) cs ->
  requestsKept db (runAll cs db).
Proof.
  revert db. induction cs as [|c cs IH]; intros db Hfresh Hnd;
    [apply requestsKept_refl|].
  destruct Hfresh as [Hc Hcs]. apply Forall_cons in Hnd as [Hd Hnd]. simpl.
  eapply requestsKept_trans; [|exact (IH _ Hcs Hnd)].
  apply writes_kept, run_writes; assumption.
Qed.

(** A request that lists a match is never deleted and never loses its
    hospital. *)
Lemma run_request_with_matches
    (c : Call) (db : DB) (rid : ObjectId) (r : Request.t) :
  freshId c db ->
  requests db !! rid = Some r ->
  Request.matches r <> [] ->
  exists r',
    requests (run c db).1 !! rid = Some r'
    /\ Request.hospital r' = Request.hospital r
    /\ Request.matches r' <> [].
Proof.
  intros Hfresh Hr Hms. destruct (isDelete c) eqn:Hdel.
  - destruct c; try discriminate. simpl.
    destruct (deleteRequest_shape req db) as [->|(r0 & Hr0 & Hnil & ->)];
      [eauto|].
    simpl. assert (rid <> params_id req) by congruence.
    rewrite lookup_delete_ne by congruence. eauto.
  - destruct (writes_kept _ _ (run_writes c db Hdel Hfresh)) as [_ Hkept].
    destruct (Hkept rid r Hr) as (r' & Hr' & Hh & _ & _ & _ & Hpre & _).
    exists r'. split; [assumption|]. split; [assumption|].
    destruct Hpre as [k ->]. destruct (Request.matches r); [contradiction|].
    discriminate.
Qed.

Lemma runAll_request_with_matches
    (cs : list Call) (db : DB) (rid : ObjectId) (r : Request.t) :
  freshIds cs db ->
  requests db !! rid = Some r ->
  Request.matches r <> [] ->
  exists r',
    requests (runAll cs db) !! rid = Some r'
    /\ Request.hospital r' = Request.hospital r
    /\ Request.matches r' <> [].
Proof.
  revert db r. induction cs as [|c cs IH]; intros db r Hfresh Hr Hms;
    [eauto|].
  destruct Hfresh as [Hc Hcs]. simpl.
  destruct (run_request_with_matches c db rid r Hc Hr Hms)
    as (r1 & Hr1 & Hh1 & Hms1).
  destruct (IH _ r1 Hcs Hr1 Hms1) as (r' & Hr' & Hh' & Hms').
  exists r'. split; [assumption|]. split; [congruence|assumption].
Qed.

(** The state a 201 of [confirmMatch] leaves, and what remains of it after
    any further calls: the request is stored, of the same hospital, and
    lists a match; the new match is stored and joins the same request and
    donor; hospitals and donors are as they were. *)
Lemma confirmMatch_ever_after
    (env : Env) (req : Req) (db db' : DB) (response : Response)
    (request : Request.t) (cs : list Call) :
  confirmMatch env req db = (db', response) ->
  code response = 201 ->
  requests db !! params_requestId req = Some request ->
  freshIds cs db' ->
  exists r' m' donor,
    requests (runAll cs db') !! params_requestId req = Some r'
    /\ Request.hospital r' = Request.hospital request
    /\ Request.matches r' <> []
    /\ matches (runAll cs db') !! newId env = Some m'
    /\ Match.request m' = params_requestId req
    /\ Match.donor m' = params_donorId req
    /\ Donor_findById (params_donorId req) (runAll cs db') = Some donor
    /\ Donor._id donor = params_donorId req
    /\ hospitals (runAll cs db') = hospitals db.
Proof.
  intros Hrun Hcode Hreq Hfresh.
  destruct (confirmMatch_created env req db db' response Hrun Hcode)
    as (request0 & donor & Hreq0 & Hdonor & _ & _ & Hdb).
  rewrite Hreq in Hreq0. injection Hreq0 as <-.
  destruct (runAll_static cs db' Hfresh) as (Hh & Hd & _).
  assert (Hr1 : requests db' !! params_requestId req
                = Some (Request.set_matches
                          (Request.matches request ++ [newId env])
                          (Request.set_status "matched" request))).
  { rewrite Hdb. simpl. apply lookup_insert_eq. }
  destruct (runAll_request_with_matches cs db' _ _ Hfresh Hr1)
    as (r' & Hr' & Hhosp & Hms).
  { simpl. destruct (Request.matches request); discriminate. }
  assert (Hm1 : matches db' !! newId env
                = Some (Match.mk (params_requestId req) (params_donorId req)
                          "proposed" (user_id req)
                          (Request.requestType request)
                          (Request.urgencyLevel request) [] None)).
  { rewrite Hdb. simpl. apply lookup_insert_eq. }
  destruct (runAll_matchesKept cs db' Hfresh _ _ Hm1)
    as (m' & Hm' & Hmr & Hmd & _).
  exists r', m', donor.
  split; [assumption|]. split; [exact Hhosp|]. split; [assumption|].
  split; [assumption|]. split; [exact Hmr|]. split; [exact Hmd|].
  split.
  { unfold Donor_findById. rewrite Hd, Hdb. exact Hdonor. }
  split; [exact (Donor_findById_id _ _ _ Hdonor)|].
  rewrite Hh, Hdb. reflexivity.
Qed.

(** X10: Once [confirmMatch] has answered 201 for a request and a donor, every
    later [confirmMatch] for the same pair is refused as a duplicate and
    writes nothing: on the state the first call returns and on every state
    reached from it by any sequence of calls to the seven writing handlers
    (new documents getting unused ids), for whatever actor allowed to
    confirm for the request. *)
Theorem confirmMatch_twice
    (env env' : Env) (req req' : Req) (db db' : DB) (response : Response)
    (request : Request.t) (cs : list Call) :
  confirmMatch env req db = (db', response) ->
  code response = 201 ->
  requests db !! params_requestId req = Some request ->
  freshIds cs db' ->
  params_requestId req' = params_requestId req ->
  params_donorId req' = params_donorId req ->
  (user_role req' = "hospital" ->
   owns (Hospital_findOne (user_id req') db) request = true) ->
  confirmMatch env' req' (runAll cs db')
  = (runAll cs db',
     reply 400 "Match already exists for this donor and request").
Proof.
  intros Hrun Hcode Hreq Hfresh Hrid Hdid Hperm.
  destruct (confirmMatch_ever_after env req db db' response request cs
              Hrun Hcode Hreq Hfresh)
    as (r' & m' & donor & Hr' & Hhosp & _ & Hm' & Hmr & Hmd & Hdonor & Hid
        & Hh).
  unfold confirmMatch. rewrite Hrid, Hdid, Hr', Hdonor, Hid.
  assert (Hguard : bool_decide (user_role req' = "hospital")
                   && negb (owns (Hospital_findOne (user_id req')
                                    (runAll cs db')) r')
                   = false).
  { destruct (decide (user_role req' = "hospital")) as [Hrole|Hrole].
    - rewrite bool_decide_eq_true_2 by assumption. simpl.
      apply negb_false_iff. rewrite <- (Hperm Hrole).
      unfold Hospital_findOne. rewrite Hh. apply owns_hospital. assumption.
    - rewrite bool_decide_eq_false_2 by assumption. reflexivity. }
  rewrite Hguard.
  assert (Hsome : is_Some (Match_findOne (params_requestId req)
                             (params_donorId req) (runAll cs db'))).
  { apply Match_findOne_is_Some. exists (newId env), m'. auto. }
  destruct Hsome as [x ->]. reflexivity.
Qed.

Lemma confirmMatch_twice_witness :
  confirmMatch Fixture.env0 (Fixture.adminReq 5%N "" false)
    (runAll Scenario.afterwards Scenario.confirmed)
  = (runAll Scenario.afterwards Scenario.confirmed,
     reply 400 "Match already exists for this donor and request").
Proof.
  apply (confirmMatch_twice Fixture.env0 Fixture.env0
           (Fixture.adminReq 5%N "" false) (Fixture.adminReq 5%N "" false)
           Fixture.dbNoMatch Scenario.confirmed
           (confirmMatch Fixture.env0 (Fixture.adminReq 5%N "" false)
              Fixture.dbNoMatch).2
           (Fixture.bloodRequest O_neg "searching") Scenario.afterwards).
  - reflexivity.
  - reflexivity.
  - reflexivity.
  - vm_compute. repeat split.
  - reflexivity.
  - reflexivity.
  - intros H. discriminate H.
Defined.

(** X18: Once [confirmMatch] has answered 201 for a request, [deleteRequest]
    refuses that request with 400 and writes nothing: on the state the
    confirmation returns and on every state reached from it by any sequence
    of calls to the seven writing handlers (new documents getting unused
    ids), for whatever actor allowed to delete the request. *)
Theorem confirmMatch_then_deleteRequest
    (env : Env) (req req' : Req) (db db' : DB) (response : Response)
    (request : Request.t) (cs : list Call) :
  confirmMatch env req db = (db', response) ->
  code response = 201 ->
  requests db !! params_requestId req = Some request ->
  freshIds cs db' ->
  params_id req' = params_requestId req ->
  (user_role req' = "hospital" ->
   owns (Hospital_findOne (user_id req') db) request = true) ->
  deleteRequest req' (runAll cs db')
  = (runAll cs db', reply 400 "Cannot delete request with existing matches").
Proof.
  intros Hrun Hcode Hreq Hfresh Hid Hperm.
  destruct (confirmMatch_ever_after env req db db' response request cs
              Hrun Hcode Hreq Hfresh)
    as (r' & m' & donor & Hr' & Hhosp & Hms & _ & _ & _ & _ & _ & Hh).
  unfold deleteRequest. rewrite Hid, Hr'.
  assert (Hguard : bool_decide (user_role req' = "hospital")
                   && negb (owns (Hospital_findOne (user_id req')
                                    (runAll cs db')) r')
                   = false).
  { destruct (decide (user_role req' = "hospital")) as [Hrole|Hrole].
    - rewrite bool_decide_eq_true_2 by assumption. simpl.
      apply negb_false_iff. rewrite <- (Hperm Hrole).
      unfold Hospital_findOne. rewrite Hh. apply owns_hospital. assumption.
    - rewrite bool_decide_eq_false_2 by assumption. reflexivity. }
  rewrite Hguard. simpl.
  rewrite bool_decide_eq_true_2; [reflexivity|].
  destruct (Request.matches r'); [contradiction|simpl; lia].
Qed.

Lemma confirmMatch_then_deleteRequest_witness :
  deleteRequest (Fixture.adminReq 1%N "" false)
    (runAll Scenario.afterwards Scenario.confirmed)
  = (runAll Scenario.afterwards Scenario.confirmed,
     reply 400 "Cannot delete request with existing matches").
Proof.
  apply (confirmMatch_then_deleteRequest Fixture.env0
           (Fixture.adminReq 5%N "" false) (Fixture.adminReq 1%N "" false)
           Fixture.dbNoMatch Scenario.confirmed
           (confirmMatch Fixture.env0 (Fixture.adminReq 5%N "" false)
              Fixture.dbNoMatch).2
           (Fixture.bloodRequest O_neg "searching") Scenario.afterwards).
  - reflexivity.
  - reflexivity.
  - reflexivity.
  - vm_compute. repeat split.
  - reflexivity.
  - intros H. discriminate H.
Defined.

(** X16: An organ request filed through [createRequest] gets no candidate for
    as long as it is not deleted: the handler stores no blood type for it
    and no handler adds one, so on the state [createRequest] returns and on
    every state reached from it by a sequence of calls to the writing
    handlers other than [deleteRequest] (new documents getting unused ids),
    the search for it answers with the empty list, over whatever donor
    population. *)
Theorem createRequest_organ_then_search
    (calculateDistance : Q * Q -> Q * Q -> number)
    (env env' : Env) (req req' : Req) (b : CreateRequestBody)
    (db db' : DB) (request : Request.t) (cs : list Call) :
  createRequest env req b db = (db', mkResponse 201 (RequestDoc request)) ->
  create_requestType b = "organ" ->
  freshIds cs db' ->
  Forall (fun c => isDelete c = false) cs ->
  body_requestId req' = newId env ->
  (user_role req' = "hospital" ->
   owns (Hospital_findOne (user_id req') db') request = true) ->
  findPotentialMatches calculateDistance env' req' (runAll cs db')
  = (runAll cs db', json (Candidates [])).
Proof.
  intros Hrun Htype Hfresh Hnd Hid Hperm.
  destruct (createRequest_created env req b db db' _ Hrun eq_refl)
    as (hid & _ & _ & Hresp & Hdb).
  injection Hresp as Hrequest.
  assert (Hlookup : requests db' !! newId env = Some request).
  { rewrite Hdb, Hrequest. simpl. apply lookup_insert_eq. }
  destruct (runAll_requestsKept cs db' Hfresh Hnd _ _ Hlookup)
    as (r' & Hr' & Hhosp & Hrt & Hbt & _).
  destruct (runAll_static cs db' Hfresh) as (Hh & _ & _).
  apply (findPotentialMatches_empty_selection _ _ _ _ r').
  - rewrite Hid. assumption.
  - intros Hrole. rewrite <- (Hperm Hrole).
    unfold Hospital_findOne. rewrite Hh. apply owns_hospital. assumption.
  - apply User_find_without_bloodType.
    + right. rewrite Hrt, Hrequest. simpl. assumption.
    + rewrite Hbt, Hrequest. simpl. rewrite Htype. reflexivity.
Qed.

Lemma createRequest_organ_then_search_witness :
  findPotentialMatches Fixture.flatDistance Fixture.env0 Scenario.searchNew
    (runAll Scenario.handled Scenario.filed)
  = (runAll Scenario.handled Scenario.filed, json (Candidates [])).
Proof.
  eapply (createRequest_organ_then_search Fixture.flatDistance Fixture.env0
            Fixture.env0 (Fixture.adminReq 1%N "" false) Scenario.searchNew
            Scenario.organBody Scenario.dbOrgan Scenario.filed _
            Scenario.handled).
  - reflexivity.
  - reflexivity.
  - vm_compute. repeat split.
  - repeat constructor.
  - reflexivity.
  - intros H. discriminate H.
Defined.

(** X20: On the state that a successful outcome report returns, the request of
    the match is fulfilled and [updateRequest] refuses it with 400, for every
    actor allowed to edit it and whatever the body. The refusal is not
    permanent: [updateRequestStatus] is not guarded, and after it has moved
    that request to any status the route accepts other than cancelled,
    [updateRequest] answers 200 again. *)
Theorem reportOutcome_then_updateRequest
    (env : Env) (req req' req'' : Req) (b : UpdateRequestBody) (db db' : DB)
    (response : Response) (match_ : Match.t) (request : Request.t) :
  reportOutcome env req db = (db', response) ->
  code response = 200 ->
  body_successful req = true ->
  matches db !! params_id req = Some match_ ->
  requests db !! Match.request match_ = Some request ->
  params_id req' = Match.request match_ ->
  (user_role req' = "hospital" ->
   owns (Hospital_findOne (user_id req') db) request = true) ->
  updateRequest req' b db'
  = (db', reply 400
            "Cannot update request that is already fulfilled or cancelled")
  /\ (params_id req'' = Match.request match_ ->
      (user_role req'' = "hospital" ->
       owns (Hospital_findOne (user_id req'') db) request = true) ->
      body_status req'' ∈ requestStatusValues ->
      body_status req'' <> "cancelled" ->
      code (updateRequest req' b (updateRequestStatus req'' db').1).2 = 200).
Proof.
  intros Hrun Hcode Hok Hmatch Hreq Hid Hperm.
  unfold reportOutcome in Hrun. rewrite Hmatch in Hrun.
  destruct (negb (hasPermission req match_ db));
    [injection Hrun as <- <-; discriminate|].
  simpl in Hrun. rewrite Hreq, Hok in Hrun. injection Hrun as <- <-.
  assert (Hguard : forall (actor : Req) (r : Request.t),
             (user_role actor = "hospital" ->
              owns (Hospital_findOne (user_id actor) db) request = true) ->
             Request.hospital r = Request.hospital request ->
             forall db0, hospitals db0 = hospitals db ->
             bool_decide (user_role actor = "hospital")
             && negb (owns (Hospital_findOne (user_id actor) db0) r) = false).
  { intros actor r Hp Hh db0 Hh0.
    destruct (decide (user_role actor = "hospital")) as [Hrole|Hrole].
    - rewrite bool_decide_eq_true_2 by assumption. simpl.
      apply negb_false_iff. rewrite <- (Hp Hrole).
      unfold Hospital_findOne. rewrite Hh0. apply owns_hospital. assumption.
    - rewrite bool_decide_eq_false_2 by assumption. reflexivity. }
  split.
  - unfold updateRequest. rewrite Hid. simpl. rewrite lookup_insert_eq.
    rewrite (Hguard req' _ Hperm) by reflexivity. reflexivity.
  - intros Hid'' Hperm'' Hvalid Hnc.
    unfold updateRequestStatus.
    rewrite (validationResult_valid _ _ Hvalid), Hid''. simpl.
    rewrite lookup_insert_eq.
    rewrite (Hguard req'' _ Hperm'') by reflexivity. simpl.
    unfold updateRequest. rewrite Hid. simpl. rewrite lookup_insert_eq.
    rewrite (Hguard req' _ Hperm) by reflexivity. simpl.
    assert (Hopen : includes ["fulfilled"; "cancelled"] (body_status req'')
                    = false).
    { apply includes_false. intros Hin.
      apply elem_of_cons in Hin as [Hf|Hin].
      - rewrite Hf in Hvalid. apply includes_true in Hvalid.
        discriminate Hvalid.
      - apply elem_of_cons in Hin as [Hc|Hin]; [contradiction|].
        inversion Hin. }
    rewrite Hopen. reflexivity.
Qed.

Lemma reportOutcome_then_updateRequest_witness :
  updateRequest (Fixture.adminReq 1%N "" false) Scenario.urgencyBody
    (reportOutcome Fixture.env0 (Fixture.adminReq 5%N "" true)
       Fixture.dbDelivered).1
  = ((reportOutcome Fixture.env0 (Fixture.adminReq 5%N "" true)
        Fixture.dbDelivered).1,
     reply 400
       "Cannot update request that is already fulfilled or cancelled")
  /\ code (updateRequest (Fixture.adminReq 1%N "" false) Scenario.urgencyBody
             (updateRequestStatus Scenario.later
                (reportOutcome Fixture.env0 (Fixture.adminReq 5%N "" true)
                   Fixture.dbDelivered).1).1).2 = 200.
Proof.
  destruct (reportOutcome_then_updateRequest Fixture.env0
              (Fixture.adminReq 5%N "" true) (Fixture.adminReq 1%N "" false)
              Scenario.later Scenario.urgencyBody Fixture.dbDelivered
              (reportOutcome Fixture.env0 (Fixture.adminReq 5%N "" true)
                 Fixture.dbDelivered).1
              (reportOutcome Fixture.env0 (Fixture.adminReq 5%N "" true)
                 Fixture.dbDelivered).2
              (Fixture.match0 "delivered")
              (Fixture.bloodRequest O_neg "in_progress")) as [Hclosed Hopen].
  - reflexivity.
  - reflexivity.
  - reflexivity.
  - reflexivity.
  - reflexivity.
  - reflexivity.
  - intros H. discriminate H.
  - split; [exact Hclosed|]. apply Hopen.
    + reflexivity.
    + intros H. discriminate H.
    + apply includes_true. reflexivity.
    + discriminate.
Defined.
